(** * Kenwood TH-D72 clone-mode driver (chirp/drivers/thd72.py)

    A shallow embedding of the driver's memory-image codec, channel
    translator, dirty-block tracker and block transfer protocol, with the
    properties of its specification stated and proved over it.

    Python 2 [str] values that live in the image or travel over the serial
    line are lists of characters ([ascii], one per byte); the strings that
    the driver only compares or uses as dictionary keys are [string]s.
    Integers are [Z].  Dictionaries are [gmap]s. *)

From Stdlib Require Import ZArith Ascii String List Lia.
From stdpp Require Import base tactics option list list_numbers sorting
  gmap strings pretty.

Local Open Scope string_scope.
Local Open Scope list_scope.
Local Open Scope Z_scope.

(** ** Python values *)

Module Py.

(** [ord] and [chr] of Python, on one-byte characters. *)
Definition ord (c : ascii) : Z := Z.of_N (N_of_ascii c).
Definition chr (z : Z) : ascii := ascii_of_N (Z.to_N z).

(** A Python 2 [str] as the list of its characters, and back. *)
Definition chars (s : string) : list ascii := list_ascii_of_string s.
Definition str (l : list ascii) : string := string_of_list_ascii l.

(** [l[a:b]] for indices that are not negative. *)
Definition slice {A} (l : list A) (a b : Z) : list A :=
  take (Z.to_nat (b - a)) (drop (Z.to_nat a) l).

(** [l.index(x)]: position of the first occurrence; [None] stands for the
    [ValueError] of Python. *)
Definition index `{EqDecision A} (x : A) (l : list A) : option Z :=
  (λ p, Z.of_nat p.1) <$> list_find (λ y, y = x) l.

(** [l[i]] for a Python list: a negative index counts from the end, and
    [None] stands for [IndexError]. *)
Definition item {A} (l : list A) (i : Z) : option A :=
  if decide (0 ≤ i) then l !! Z.to_nat i
  else l !! Z.to_nat (Z.of_nat (length l) + i).

(** [s.rstrip()], [s.lstrip()] and [s.strip()]: the whitespace of a
    Python 2 byte string is space, tab, newline, vertical tab, form feed
    and carriage return. *)
Fixpoint rstrip (l : list ascii) : list ascii :=
  match l with
  | [] => []
  | c :: l' =>
      match rstrip l' with
      | [] => if Ascii.is_space c then [] else [c]
      | r => c :: r
      end
  end.

Fixpoint lstrip (l : list ascii) : list ascii :=
  match l with
  | [] => []
  | c :: l' => if Ascii.is_space c then lstrip l' else l
  end.

Definition strip (l : list ascii) : list ascii := lstrip (rstrip l).

(** [s.endswith(c)] and [s.startswith(p)]. *)
Definition endswith (l : list ascii) (c : ascii) : bool :=
  bool_decide (last l = Some c).
Definition startswith (l p : list ascii) : bool :=
  bool_decide (take (length p) l = p).

(** [max(l)]; [None] stands for the [ValueError] on an empty sequence. *)
Definition max (l : list Z) : option Z :=
  match l with
  | [] => None
  | x :: l' => Some (foldl Z.max x l')
  end.

End Py.

(** ** Outcomes of a call *)

Inductive exn :=
  | InvalidMemoryLocation (msg : string)
  | RadioError (msg : string)
  | Exception (msg : string)
  | KeyError
  | IndexError
  | ValueError
  | StructError.

(** A call returns, raises, or never comes back ([Hang]: the unbounded
    payload loop of [read_block] on a silent device). *)
Inductive outcome (A : Type) :=
  | Return (a : A)
  | Raise (e : exn)
  | Hang.
Arguments Return {A} a.
Arguments Raise {A} e.
Arguments Hang {A}.

#[global] Instance outcome_ret : MRet outcome := λ A, Return.
#[global] Instance outcome_bind : MBind outcome := λ A B f m,
  match m with
  | Return a => f a
  | Raise e => Raise e
  | Hang => Hang
  end.

(** An outcome other than the rejection of the slot number. *)
Definition validated {A} (o : outcome A) : Prop :=
  ∀ msg, o ≠ Raise (InvalidMemoryLocation msg).

(** [d[k]] on a dictionary and [l[i]], [l.index(x)] on a list, with their
    exceptions. *)
Definition dict_get `{Countable K} {V} (d : gmap K V) (k : K) : outcome V :=
  match d !! k with Some v => Return v | None => Raise KeyError end.
Definition list_get {A} (l : list A) (i : Z) : outcome A :=
  match Py.item l i with Some v => Return v | None => Raise IndexError end.
Definition list_index `{EqDecision A} (l : list A) (x : A) : outcome Z :=
  match Py.index x l with Some i => Return i | None => Raise ValueError end.

(** ** chirp_common.Memory

    The logical channel handed to and from the host.  [rtone] and [ctone]
    are values of the tone table, whose type is left open. *)

Record Memory {tone : Type} := mkMemory {
  number : Z;
  extd_number : string;
  empty : bool;
  name : string;
  freq : Z;
  tmode : string;
  rtone : tone;
  ctone : tone;
  dtcs : Z;
  duplex : string;
  offset : Z;
  mode : string;
  skip : string;
  cross_mode : string;
  immutable : list string;
}.
Arguments Memory : clear implicits.
Arguments mkMemory {tone}.

Section memory_setters.
Context {tone : Type}.
Implicit Types m : Memory tone.

Definition with_number v m :=
  mkMemory v (extd_number m) (empty m) (name m) (freq m) (tmode m)
    (rtone m) (ctone m) (dtcs m) (duplex m) (offset m) (mode m) (skip m)
    (cross_mode m) (immutable m).
Definition with_extd_number v m :=
  mkMemory (number m) v (empty m) (name m) (freq m) (tmode m)
    (rtone m) (ctone m) (dtcs m) (duplex m) (offset m) (mode m) (skip m)
    (cross_mode m) (immutable m).
Definition with_empty v m :=
  mkMemory (number m) (extd_number m) v (name m) (freq m) (tmode m)
    (rtone m) (ctone m) (dtcs m) (duplex m) (offset m) (mode m) (skip m)
    (cross_mode m) (immutable m).
Definition with_name v m :=
  mkMemory (number m) (extd_number m) (empty m) v (freq m) (tmode m)
    (rtone m) (ctone m) (dtcs m) (duplex m) (offset m) (mode m) (skip m)
    (cross_mode m) (immutable m).
Definition with_freq v m :=
  mkMemory (number m) (extd_number m) (empty m) (name m) v (tmode m)
    (rtone m) (ctone m) (dtcs m) (duplex m) (offset m) (mode m) (skip m)
    (cross_mode m) (immutable m).
Definition with_tmode v m :=
  mkMemory (number m) (extd_number m) (empty m) (name m) (freq m) v
    (rtone m) (ctone m) (dtcs m) (duplex m) (offset m) (mode m) (skip m)
    (cross_mode m) (immutable m).
Definition with_rtone v m :=
  mkMemory (number m) (extd_number m) (empty m) (name m) (freq m) (tmode m)
    v (ctone m) (dtcs m) (duplex m) (offset m) (mode m) (skip m)
    (cross_mode m) (immutable m).
Definition with_ctone v m :=
  mkMemory (number m) (extd_number m) (empty m) (name m) (freq m) (tmode m)
    (rtone m) v (dtcs m) (duplex m) (offset m) (mode m) (skip m)
    (cross_mode m) (immutable m).
Definition with_dtcs v m :=
  mkMemory (number m) (extd_number m) (empty m) (name m) (freq m) (tmode m)
    (rtone m) (ctone m) v (duplex m) (offset m) (mode m) (skip m)
    (cross_mode m) (immutable m).
Definition with_duplex v m :=
  mkMemory (number m) (extd_number m) (empty m) (name m) (freq m) (tmode m)
    (rtone m) (ctone m) (dtcs m) v (offset m) (mode m) (skip m)
    (cross_mode m) (immutable m).
Definition with_offset v m :=
  mkMemory (number m) (extd_number m) (empty m) (name m) (freq m) (tmode m)
    (rtone m) (ctone m) (dtcs m) (duplex m) v (mode m) (skip m)
    (cross_mode m) (immutable m).
Definition with_mode v m :=
  mkMemory (number m) (extd_number m) (empty m) (name m) (freq m) (tmode m)
    (rtone m) (ctone m) (dtcs m) (duplex m) (offset m) v (skip m)
    (cross_mode m) (immutable m).
Definition with_skip v m :=
  mkMemory (number m) (extd_number m) (empty m) (name m) (freq m) (tmode m)
    (rtone m) (ctone m) (dtcs m) (duplex m) (offset m) (mode m) v
    (cross_mode m) (immutable m).
Definition with_cross_mode v m :=
  mkMemory (number m) (extd_number m) (empty m) (name m) (freq m) (tmode m)
    (rtone m) (ctone m) (dtcs m) (duplex m) (offset m) (mode m) (skip m)
    v (immutable m).
Definition with_immutable v m :=
  mkMemory (number m) (extd_number m) (empty m) (name m) (freq m) (tmode m)
    (rtone m) (ctone m) (dtcs m) (duplex m) (offset m) (mode m) (skip m)
    (cross_mode m) v.
End memory_setters.

(** ** The special locations and the code tables of the driver *)

Definition THD72_SPECIAL : gmap string Z :=
  let d := foldl (λ d i, <["U" +:+ pretty i := 1000 + (i * 2) + 1]>
                          (<["L" +:+ pretty i := 1000 + (i * 2)]> d))
                 ∅ (seqZ 0 10) in
  let d := foldl (λ d i, <["WX" +:+ pretty (i + 1) := 1020 + i]> d)
                 d (seqZ 0 10) in
  <["C UHF" := 1031]> (<["C VHF" := 1030]> d).

Definition THD72_SPECIAL_REV : gmap Z string :=
  foldl (λ d kv, <[kv.2 := kv.1]> d) ∅ (map_to_list THD72_SPECIAL).

Definition TMODES : gmap Z string :=
  list_to_map [(0x08, "Tone"); (0x04, "TSQL"); (0x02, "DTCS");
               (0x01, "Cross"); (0x00, "")].
Definition TMODES_REV : gmap string Z :=
  list_to_map [("", 0x00); ("Cross", 0x01); ("DTCS", 0x02);
               ("TSQL", 0x04); ("Tone", 0x08)].

Definition MODES : gmap Z string :=
  list_to_map [(0x00, "FM"); (0x01, "NFM"); (0x02, "AM")].
Definition MODES_REV : gmap string Z :=
  list_to_map [("FM", 0x00); ("NFM", 0x01); ("AM", 0x2)].

Definition DUPLEX : gmap Z string :=
  list_to_map [(0x00, ""); (0x01, "+"); (0x02, "-"); (0x04, "split")].
Definition DUPLEX_REV : gmap string Z :=
  list_to_map [("", 0x00); ("+", 0x01); ("-", 0x02); ("split", 0x04)].

(** [max(THD72_SPECIAL.values())], the bound of the slot-number check. *)
Definition THD72_SPECIAL_max : Z :=
  default 0 (Py.max ((map_to_list THD72_SPECIAL).*2)).

(** ** The memory image and its typed records *)

(** Modelled from the spec: chirp's [bitwise] struct parser is an external
    collaborator of the driver.  A record element is the byte offset of its
    first byte; integer fields are read with [ord] and written with [chr]
    after masking to the field width; the fields of a bit-packed byte are
    laid out most significant first; a 32-bit field is little-endian
    ([ul32]); an array element outside its declared count is Python's
    [IndexError], a negative index counting from the end of the array. *)
Module bitwise.

Definition get_u8 (data : list ascii) (off : Z) : Z :=
  Py.ord (default "000"%char (data !! Z.to_nat off)).
Definition set_u8 (data : list ascii) (off value : Z) : list ascii :=
  <[Z.to_nat off := Py.chr (Z.land value 0xFF)]> data.

Definition get_ul32 (data : list ascii) (off : Z) : Z :=
  get_u8 data off + 256 * get_u8 data (off + 1)
  + 65536 * get_u8 data (off + 2) + 16777216 * get_u8 data (off + 3).
Definition set_ul32 (data : list ascii) (off value : Z) : list ascii :=
  let v := Z.land value 0xFFFFFFFF in
  set_u8 (set_u8 (set_u8 (set_u8 data off v)
    (off + 1) (Z.shiftr v 8)) (off + 2) (Z.shiftr v 16))
    (off + 3) (Z.shiftr v 24).

Definition mask (nbits shift : Z) : Z := Z.shiftl (2 ^ nbits - 1) shift.
Definition extract_bits (b nbits shift : Z) : Z :=
  Z.shiftr (Z.land b (mask nbits shift)) shift.
Definition insert_bits (b nbits shift value : Z) : Z :=
  Z.lor (Z.land b (Z.lnot (mask nbits shift)))
        (Z.land (Z.shiftl value shift) (mask nbits shift)).
Definition get_bits (data : list ascii) (off nbits shift : Z) : Z :=
  extract_bits (get_u8 data off) nbits shift.
Definition set_bits (data : list ascii) (off nbits shift value : Z)
    : list ascii :=
  set_u8 data off (insert_bits (get_u8 data off) nbits shift value).

(** [str(rec.name)] and [rec.name = s] for a [char name[n]] field. *)
Definition get_chars (data : list ascii) (off n : Z) : list ascii :=
  Py.slice data off (off + n).
Fixpoint set_chars (data : list ascii) (off : Z) (s : list ascii)
    : list ascii :=
  match s with
  | [] => data
  | c :: s' => set_chars (<[Z.to_nat off := c]> data) (off + 1) s'
  end.

(** [table[i]] for [struct {...} table[count]] at [base]. *)
Definition element (base size count i : Z) : outcome Z :=
  if decide (0 ≤ i < count) then Return (base + size * i)
  else if decide (- count ≤ i < 0) then Return (base + size * (count + i))
  else Raise IndexError.

End bitwise.

(** The layout of [mem_format]. *)
Definition flag_element (i : Z) : outcome Z :=
  bitwise.element 0x0c00 2 1032 i.
Definition memory_element (i : Z) : outcome Z :=
  bitwise.element 0x1500 16 1032 i.
Definition channel_name_element (i : Z) : outcome Z :=
  bitwise.element 0x5e00 8 1000 i.
Definition wx_name_element (i : Z) : outcome Z :=
  bitwise.element 0x7de0 8 10 i.

(** Fields of a [flag] record at offset [f]. *)
Definition flag_disabled (data : list ascii) (f : Z) : Z :=
  bitwise.get_bits data f 7 1.
Definition flag_unknown0 (data : list ascii) (f : Z) : Z :=
  bitwise.get_bits data f 1 0.
Definition flag_skip (data : list ascii) (f : Z) : Z :=
  bitwise.get_u8 data (f + 1).

(** Fields of a [memory] record at offset [m]. *)
Definition mem_freq (data : list ascii) (m : Z) : Z :=
  bitwise.get_ul32 data m.
Definition mem_mode (data : list ascii) (m : Z) : Z :=
  bitwise.get_u8 data (m + 5).
Definition mem_tone_mode (data : list ascii) (m : Z) : Z :=
  bitwise.get_bits data (m + 6) 4 4.
Definition mem_duplex (data : list ascii) (m : Z) : Z :=
  bitwise.get_bits data (m + 6) 4 0.
Definition mem_rtone (data : list ascii) (m : Z) : Z :=
  bitwise.get_u8 data (m + 7).
Definition mem_ctone (data : list ascii) (m : Z) : Z :=
  bitwise.get_u8 data (m + 8).
Definition mem_dtcs (data : list ascii) (m : Z) : Z :=
  bitwise.get_u8 data (m + 9).
Definition mem_cross_mode (data : list ascii) (m : Z) : Z :=
  bitwise.get_u8 data (m + 10).
Definition mem_offset (data : list ascii) (m : Z) : Z :=
  bitwise.get_ul32 data (m + 11).

(** ** The serial line and the radio object *)

(** The transport is an external collaborator; the driver sees it through
    [read], [write], [setBaudrate], [getCTS] and [setRTS].  [rx] is what
    the device will deliver, as the bursts in which it arrives: a [read(n)]
    returns at most [n] characters of the first burst and leaves the rest
    of it for the next call; with nothing left it times out and returns the
    empty string.  [tx] is all that was written, oldest first.  [polls] is
    the number of one-character reads that fit in the wall-clock window of
    one [command]. *)
Record Serial := mkSerial {
  rx : list (list ascii);
  tx : list ascii;
  baudrate : Z;
  rts : bool;
  polls : nat;
}.

(** chirp_common.Status, as passed to the progress callback. *)
Record Status := mkStatus { msg : string; max : Z; cur : Z }.

(** The state of a [THD72Radio] object (and of the callback it drives). *)
Record THD72Radio := mkRadio {
  _mmap : list ascii;
  _dirty_blocks : list Z;
  pipe : Serial;
  status_fn : bool;
  reported : list Status;
}.

Definition _memsize : Z := 65536.

(** Calls that read and change the radio object. *)
Definition M (A : Type) : Type := THD72Radio → outcome A * THD72Radio.

#[global] Instance M_ret : MRet M := λ A a self, (Return a, self).
#[global] Instance M_bind : MBind M := λ A B f m self,
  match m self with
  | (Return a, self') => f a self'
  | (Raise e, self') => (Raise e, self')
  | (Hang, self') => (Hang, self')
  end.

(** A call that does not reject the slot number, whatever the state. *)
Definition validatedM {A} (m : M A) : Prop := ∀ self, validated (m self).1.

(** A call that leaves the image and the dirty list as they are. *)
Definition preserves {A} (m : M A) : Prop :=
  ∀ self, _mmap (m self).2 = _mmap self
          ∧ _dirty_blocks (m self).2 = _dirty_blocks self.

(** A call that, when it does not return, leaves the image and the dirty
    list as they were. *)
Definition keeps_on_failure {A} (m : M A) : Prop :=
  ∀ self, (∀ a, (m self).1 ≠ Return a) →
          _mmap (m self).2 = _mmap self
          ∧ _dirty_blocks (m self).2 = _dirty_blocks self.

Definition raise {A} (e : exn) : M A := λ self, (Raise e, self).
Definition hang {A} : M A := λ self, (Hang, self).
Definition lift {A} (o : outcome A) : M A := λ self, (o, self).
Definition gets {A} (f : THD72Radio → A) : M A := λ self, (Return (f self), self).
Definition modify (f : THD72Radio → THD72Radio) : M unit :=
  λ self, (Return tt, f self).

Definition with_mmap (f : list ascii → list ascii) (self : THD72Radio) :=
  mkRadio (f (_mmap self)) (_dirty_blocks self) (pipe self)
    (status_fn self) (reported self).
Definition with_dirty_blocks (f : list Z → list Z) (self : THD72Radio) :=
  mkRadio (_mmap self) (f (_dirty_blocks self)) (pipe self)
    (status_fn self) (reported self).
Definition with_pipe (f : Serial → Serial) (self : THD72Radio) :=
  mkRadio (_mmap self) (_dirty_blocks self) (f (pipe self))
    (status_fn self) (reported self).
Definition with_reported (f : list Status → list Status) (self : THD72Radio) :=
  mkRadio (_mmap self) (_dirty_blocks self) (pipe self)
    (status_fn self) (f (reported self)).

(** The primitives of the transport. *)
Module Pipe.

Definition write (data : list ascii) : M unit :=
  modify (with_pipe (λ p,
    mkSerial (rx p) (tx p ++ data) (baudrate p) (rts p) (polls p))).

Definition take_burst (n : Z) (bursts : list (list ascii))
    : list ascii * list (list ascii) :=
  match bursts with
  | [] => ([], [])
  | c :: rest =>
      if decide (Z.of_nat (length c) ≤ n) then (c, rest)
      else (take (Z.to_nat n) c, drop (Z.to_nat n) c :: rest)
  end.

Definition read (n : Z) : M (list ascii) := λ self,
  let p := pipe self in
  let '(got, rest) := take_burst n (rx p) in
  (Return got,
   with_pipe (λ _, mkSerial rest (tx p) (baudrate p) (rts p) (polls p)) self).

Definition setBaudrate (baud : Z) : M unit :=
  modify (with_pipe (λ p, mkSerial (rx p) (tx p) baud (rts p) (polls p))).
Definition getCTS : M bool := mret true.
Definition setRTS : M unit :=
  modify (with_pipe (λ p, mkSerial (rx p) (tx p) (baudrate p) true (polls p))).

End Pipe.

(** ** The block transfer protocol *)

Definition ACK : ascii := Py.chr 0x06.

(** [struct.pack("<cBHB", c, b1, h, b2)] and [struct.unpack("<cBHB", r)]. *)
Definition struct_pack_cBHB (c : ascii) (b1 h b2 : Z) : outcome (list ascii) :=
  if decide ((0 ≤ b1 < 256 ∧ 0 ≤ h < 65536) ∧ 0 ≤ b2 < 256) then
    Return [c; Py.chr b1; Py.chr (h `mod` 256); Py.chr (h `div` 256); Py.chr b2]
  else Raise StructError.

Definition struct_unpack_cBHB (r : list ascii) : outcome (ascii * Z * Z * Z) :=
  match r with
  | [c; b1; lo; hi; b2] =>
      Return (c, Py.ord b1, Py.ord lo + 256 * Py.ord hi, Py.ord b2)
  | _ => Raise StructError
  end.

(** [command(cmd)]: the loop polls one character at a time until the reply
    ends in a carriage return or the time is up. *)
Fixpoint command_loop (polls : nat) (data : list ascii) : M (list ascii) :=
  if Py.endswith data "013"%char then mret data
  else match polls with
       | O => mret data
       | S polls' => c ← Pipe.read 1; command_loop polls' (data ++ c)
       end.

Definition command (cmd : string) : M string :=
  Pipe.write (Py.chars cmd ++ ["013"%char]);;
  n ← gets (λ self, polls (pipe self));
  data ← command_loop n [];
  mret (Py.str (Py.strip data)).

(** [r.split(" ")[1]] for an [r] that starts with "ID ". *)
Fixpoint until_space (l : list ascii) : list ascii :=
  match l with
  | [] => []
  | c :: l' => if decide (c = " "%char) then [] else c :: until_space l'
  end.

Definition get_id : M string :=
  r ← command "ID";
  if Py.startswith (Py.chars r) (Py.chars "ID ") then
    mret (Py.str (until_space (drop 3 (Py.chars r))))
  else raise (RadioError "No response to ID command").

(** [try: body except errors.RadioError: handler]. *)
Definition except_RadioError {A} (body handler : M A) : M A := λ self,
  match body self with
  | (Raise (RadioError _), self') => handler self'
  | result => result
  end.

(** [_detect_baud]: the transport's [write] is taken not to fail, so the
    [break] of the bare [except] is never taken. *)
Fixpoint _detect_baud_from (bauds : list Z) : M bool :=
  match bauds with
  | [] => raise (RadioError "No response from radio")
  | baud :: rest =>
      Pipe.setBaudrate baud;;
      Pipe.write ["013"%char; "013"%char];;
      Pipe.read 32;;
      except_RadioError (get_id;; mret true) (_detect_baud_from rest)
  end.

Definition _detect_baud : M bool :=
  _detect_baud_from [9600; 19200; 38400; 57600].

(** The payload loop of [read_block]: [while len(data) < count].  Once the
    line has nothing more to deliver every further read returns the empty
    string and the loop never ends. *)
Fixpoint read_payload (fuel : nat) (count : Z) (data : list ascii)
    : M (list ascii) :=
  if decide (Z.of_nat (length data) < count) then
    match fuel with
    | O => hang
    | S fuel' =>
        chunk ← Pipe.read (count - Z.of_nat (length data));
        read_payload fuel' count (data ++ chunk)
    end
  else mret data.

Definition read_block (block : Z) (count : Z) : M (list ascii) :=
  frame ← lift (struct_pack_cBHB "R"%char 0 block 0);
  Pipe.write frame;;
  r ← Pipe.read 5;
  if decide (length r ≠ 5%nat) then
    raise (Exception "Did not receive block response")
  else
  '(cmd, _zero, _block, zero) ← lift (struct_unpack_cBHB r);
  if decide (cmd ≠ "W"%char ∨ _block ≠ block) then
    raise (Exception ("Invalid response: " +:+ String cmd "" +:+ " "
                      +:+ pretty _block))
  else
  bursts ← gets (λ self, length (rx (pipe self)));
  data ← read_payload (S bursts) count [];
  Pipe.write [ACK];;
  ack ← Pipe.read 1;
  if decide (ack ≠ [ACK]) then
    raise (Exception "Did not receive post-block ACK!")
  else mret data.

Definition write_block (block : Z) (map : list ascii) : M bool :=
  frame ← lift (struct_pack_cBHB "W"%char 0 block 0);
  Pipe.write frame;;
  let base := block * 256 in
  Pipe.write (Py.slice map base (base + 256));;
  ack ← Pipe.read 1;
  mret (bool_decide (ack = [ACK])).

(** What [write_block] puts on the line for block [i] of [map]. *)
Definition block_on_wire (i : Z) (map : list ascii) : list ascii :=
  ["W"%char; Py.chr 0; Py.chr (i `mod` 256); Py.chr (i `div` 256); Py.chr 0]
  ++ Py.slice map (i * 256) (i * 256 + 256).

Definition report (msg : string) (max cur : Z) : M unit :=
  fn ← gets status_fn;
  if fn : bool then modify (with_reported (λ l, l ++ [mkStatus msg max cur]))
  else mret tt.

(** The [for i in blocks] loop of [upload]. *)
Fixpoint upload_loop (blocks : list Z) (total count : Z) : M unit :=
  match blocks with
  | [] => mret tt
  | i :: rest =>
      map ← gets _mmap;
      r ← write_block i map;
      let count := count + 1 in
      if negb r then raise (RadioError ("self NAK'd block " +:+ pretty i))
      else
        report "Cloning to radio" total count;;
        upload_loop rest total count
  end.

(** The block list [upload] works on. *)
Definition upload_blocks (blocks : option (list Z)) : list Z :=
  match blocks with
  | None => seqZ 0 (_memsize `div` 256 - 2)
  | Some blocks => filter (λ b, b < _memsize `div` 256) blocks
  end.

Definition upload (blocks : option (list Z)) : M unit :=
  let blocks := upload_blocks blocks in
  r ← command "0M PROGRAM";
  if decide (r ≠ "0M") then raise (RadioError "No response from self") else
  Pipe.setBaudrate 57600;;
  Pipe.getCTS;;
  Pipe.setRTS;;
  Pipe.read 1;;
  (* print "writing blocks %d..%d" % (blocks[0], blocks[-1]) *)
  lift (list_get blocks 0);;
  lift (list_get blocks (-1));;
  let total := Z.of_nat (length blocks) in
  upload_loop blocks total 0;;
  Pipe.write ["E"%char];;
  (* clear out blocks we uploaded from the dirty blocks list *)
  modify (with_dirty_blocks (filter (λ b, b ∉ blocks))).

Definition sync_out : M unit :=
  _detect_baud;;
  dirty ← gets _dirty_blocks;
  if decide (length dirty ≠ 0%nat) then upload (Some dirty)
  else upload None.

(** [process_mmap]: the image is parsed in place and the dirty list
    starts empty. *)
Definition process_mmap : M unit := modify (with_dirty_blocks (λ _, [])).

(** What [read_block] puts on the line to ask for block [i], and what a
    device that serves the block sends: the header, the payload, and an
    acknowledgement of the host's. *)
Definition block_request (i : Z) : list ascii :=
  ["R"%char; Py.chr 0; Py.chr (i `mod` 256); Py.chr (i `div` 256); Py.chr 0].
Definition block_reply (i : Z) (payload : list ascii) : list (list ascii) :=
  [["W"%char; Py.chr 0; Py.chr (i `mod` 256); Py.chr (i `div` 256); Py.chr 0];
   payload; [ACK]].

(** The block list [download] works on. *)
Definition download_blocks (blocks : option (list Z)) : list Z :=
  match blocks with
  | None => seqZ 0 (_memsize `div` 256)
  | Some blocks => filter (λ b, b < _memsize `div` 256) blocks
  end.

(** The [for i in allblocks] loop of [download]. *)
Fixpoint download_loop (allblocks blocks : list Z) (total count : Z)
    (data : list ascii) : M (list ascii) :=
  match allblocks with
  | [] => mret data
  | i :: rest =>
      if decide (i ∉ blocks) then
        download_loop rest blocks total count
          (data ++ replicate 256 (Py.chr 0xff))
      else
        block ← read_block i 256;
        let data := data ++ block in
        let count := count + 1 in
        report "Cloning from radio" total count;;
        download_loop rest blocks total count data
  end.

(** [download(raw, blocks)]: [raw] only chooses whether the string is
    wrapped in a [MemoryMap], which the model does not tell apart. *)
Definition download (blocks : option (list Z)) : M (list ascii) :=
  let blocks := download_blocks blocks in
  r ← command "0M PROGRAM";
  if decide (r ≠ "0M") then raise (RadioError "No response from self") else
  let allblocks := seqZ 0 (_memsize `div` 256) in
  Pipe.setBaudrate 57600;;
  Pipe.getCTS;;
  Pipe.setRTS;;
  Pipe.read 1;;
  (* print "reading blocks %d..%d" % (blocks[0], blocks[-1]) *)
  lift (list_get blocks 0);;
  lift (list_get blocks (-1));;
  let total := Z.of_nat (length blocks) in
  data ← download_loop allblocks blocks total 0 [];
  Pipe.write ["E"%char];;
  mret data.

Definition sync_in : M unit :=
  _detect_baud;;
  data ← download None;
  modify (with_mmap (λ _, data));;
  process_mmap.

(** The order of Python 2 on [str], character code by character code. *)
Definition str_le (a b : string) : Prop := String.leb a b = true.
#[global] Instance str_le_dec : RelDecision str_le :=
  λ a b, decide (String.leb a b = true).

(** [get_special_locations]: the names of the special slots, sorted. *)
Definition get_special_locations : list string :=
  merge_sort str_le (map_to_list THD72_SPECIAL).*1.

(** ** Tables and images to evaluate the driver on

    chirp_common's tables in the form CHIRP ships them (tones in tenths of
    a hertz) and the attribute defaults of a fresh [Memory()]. *)
Module Sample.

Definition TONES : list Z :=
  [670; 693; 719; 744; 770; 797; 825; 854; 885; 915; 948; 974; 1000; 1035;
   1072; 1109; 1148; 1188; 1230; 1273; 1318; 1365; 1413; 1462; 1514; 1567;
   1598; 1622; 1655; 1679; 1713; 1738; 1773; 1799; 1835; 1862; 1899; 1928;
   1966; 1995; 2035; 2065; 2107; 2181; 2257; 2291; 2336; 2418; 2503; 2541].
Definition DTCS_CODES : list Z :=
  [23; 25; 26; 31; 32; 36; 43; 47; 51; 53; 54; 65; 71; 72; 73; 74; 114; 115;
   116; 122; 125; 131; 132; 134; 143; 145; 152; 155; 156; 162; 165; 172; 174].
Definition CROSS_MODES : list string :=
  ["Tone->Tone"; "DTCS->"; "->DTCS"; "Tone->DTCS"; "DTCS->Tone"; "->Tone";
   "DTCS->DTCS"].
Definition SKIP_VALUES : list string := [""; "S"; "P"].

Definition Memory_new : Memory Z :=
  mkMemory 0 "" false "" 0 "" 885 885 23 "" 600000 "FM" "" "Tone->Tone" [].

(** An image with every byte 0xFF (all slots empty) and one with every
    byte zero (all slots in use, all codes zero). *)
Definition blank : list ascii := replicate (Z.to_nat _memsize) "255"%char.
Definition zeros : list ascii := replicate (Z.to_nat _memsize) "000"%char.

Definition line (bursts : list (list ascii)) : Serial :=
  mkSerial bursts [] 9600 false 16.
Definition radio (data : list ascii) (dirty : list Z) (p : Serial)
    : THD72Radio :=
  mkRadio data dirty p true [].

End Sample.

(** ** The driver *)

Inductive location :=
  | Name (s : string)   (* a special-location name, e.g. "WX3" *)
  | Num (n : Z).

Section driver.

(** chirp_common is an external collaborator: its lookup tables and the
    attribute defaults of a fresh [Memory()] are parameters. *)
Context {tone : Type} `{EqDecision tone}.
Variable TONES : list tone.
Variable DTCS_CODES : list Z.
Variable CROSS_MODES : list string.
Variable SKIP_VALUES : list string.
Variable Memory_new : Memory tone.

Definition xff : ascii := "255"%char.

(** [add_dirty_block(memobj)], for the record at byte offset [_offset]:
    [mark] is what the method does to the list.  The final [print] goes to
    standard output and is not modelled. *)
Definition mark (_offset : Z) (blocks : list Z) : list Z :=
  let block := _offset `div` 256 in
  let blocks :=
    if decide (block ∈ blocks) then blocks else blocks ++ [block] in
  merge_sort Z.le blocks.

Definition add_dirty_block (_offset : Z) : M unit :=
  modify (with_dirty_blocks (mark _offset)).

Definition get_channel_name (self : THD72Radio) (number : Z)
    : outcome string :=
  let cut name :=
    i ← match Py.index xff name with
        | Some i => Return i
        | None => Raise ValueError
        end;
    Return (Py.str (Py.rstrip (Py.slice name 0 i))) in
  if decide (number < 999) then
    rec ← channel_name_element number;
    cut (bitwise.get_chars (_mmap self) rec 8 ++ [xff])
  else if decide (number >= 1020 ∧ number < 1030) then
    rec ← wx_name_element (number - 1020);
    cut (bitwise.get_chars (_mmap self) rec 8 ++ [xff])
  else Return "".

Definition name_field (name : string) : list ascii :=
  Py.slice (Py.slice (Py.chars name) 0 8 ++ replicate 8 xff) 0 8.

Definition set_channel_name (number : Z) (name : string) : M unit :=
  let name := name_field name in
  if decide (number < 999) then
    rec ← lift (channel_name_element number);
    modify (with_mmap (λ data, bitwise.set_chars data rec name));;
    add_dirty_block rec
  else if decide (number >= 1020 ∧ number < 1030) then
    rec ← lift (wx_name_element (number - 1020));
    modify (with_mmap (λ data, bitwise.set_chars data rec name));;
    add_dirty_block rec
  else mret tt.

Definition get_memory (self : THD72Radio) (number : location)
    : outcome (Memory tone) :=
  number ← match number with
           | Name s =>
               match THD72_SPECIAL !! s with
               | Some n => Return n
               | None => Raise (InvalidMemoryLocation ("Unknown channel " +:+ s))
               end
           | Num n => Return n
           end;
  if decide (number < 0 ∨ number > THD72_SPECIAL_max + 1) then
    Raise (InvalidMemoryLocation "Number must be between 0 and 999")
  else
  _mem ← memory_element number;
  flag ← flag_element number;
  let data := _mmap self in
  let mem := Memory_new in
  let mem := with_number number mem in
  mem ← (if decide (number > 999) then
           extd ← dict_get THD72_SPECIAL_REV number;
           Return (with_extd_number extd mem)
         else Return mem);
  if decide (flag_disabled data flag = 0x7f) then
    Return (with_empty true mem)
  else
  v ← get_channel_name self number; let mem := with_name v mem in
  let mem := with_freq (mem_freq data _mem) mem in
  v ← dict_get TMODES (mem_tone_mode data _mem); let mem := with_tmode v mem in
  v ← list_get TONES (mem_rtone data _mem); let mem := with_rtone v mem in
  v ← list_get TONES (mem_ctone data _mem); let mem := with_ctone v mem in
  v ← list_get DTCS_CODES (mem_dtcs data _mem); let mem := with_dtcs v mem in
  v ← dict_get DUPLEX (mem_duplex data _mem); let mem := with_duplex v mem in
  let mem := with_offset (mem_offset data _mem) mem in
  v ← dict_get MODES (mem_mode data _mem); let mem := with_mode v mem in
  mem ← (if decide (number < 999) then
           v ← list_get SKIP_VALUES (flag_skip data flag);
           let mem := with_skip v mem in
           v ← list_get CROSS_MODES (mem_cross_mode data _mem);
           Return (with_cross_mode v mem)
         else Return mem);
  mem ← (if decide (number > 999) then
           v ← list_get CROSS_MODES 0;
           let mem := with_cross_mode v mem in
           let mem := with_immutable
                        ["number"; "bank"; "extd_number"; "cross_mode"] mem in
           if decide (number >= 1020 ∧ number < 1030) then
             Return (with_immutable
                       (immutable mem ++ ["freq"; "offset"; "tone"; "mode";
                                          "tmode"; "ctone"; "skip"]) mem)
           else
             Return (with_immutable (immutable mem ++ ["name"]) mem)
         else Return mem);
  Return mem.

(** Modelled from the spec: [initialize] assigns the sixteen bytes of the
    re-initialisation pattern to the channel record; what the assignment
    [mmap[0] = ...] does is decided by [bitwise], and the spec has it
    overwrite the record's leading bytes. *)
Definition initialize (_mem : Z) : M unit :=
  modify (with_mmap (λ data, bitwise.set_chars data _mem
    (Py.chr <$> [0x80; 0xc8; 0xb3; 0x08; 0x00; 0x01; 0x00; 0x08;
                 0x08; 0x00; 0xc0; 0x27; 0x09; 0x00; 0x00; 0xff]))).

Definition poke (f : list ascii → list ascii) : M unit := modify (with_mmap f).

Definition set_memory (mem : Memory tone) : M unit :=
  if decide (number mem < 0 ∨ number mem > THD72_SPECIAL_max + 1) then
    raise (InvalidMemoryLocation "Number must be between 0 and 999")
  else
  (* weather channels can only change name, nothing else *)
  if decide (number mem >= 1020 ∧ number mem < 1030) then
    set_channel_name (number mem) (name mem)
  else
  flag ← lift (flag_element (number mem));
  add_dirty_block flag;;
  (* only delete non-WX channels *)
  was_empty ← gets (λ self,
    bool_decide (flag_disabled (_mmap self) flag = 0x7f));
  if empty mem then
    poke (λ data, bitwise.set_bits data flag 7 1 0x7f)
  else
  poke (λ data, bitwise.set_bits data flag 7 1 0);;
  _mem ← lift (memory_element (number mem));
  add_dirty_block _mem;;
  (if was_empty : bool then initialize _mem else mret tt);;
  poke (λ data, bitwise.set_ul32 data _mem (freq mem));;
  (if decide (number mem < 999) then
     set_channel_name (number mem) (name mem)
   else mret tt);;
  v ← lift (dict_get TMODES_REV (tmode mem));
  poke (λ data, bitwise.set_bits data (_mem + 6) 4 4 v);;
  v ← lift (list_index TONES (rtone mem));
  poke (λ data, bitwise.set_u8 data (_mem + 7) v);;
  v ← lift (list_index TONES (ctone mem));
  poke (λ data, bitwise.set_u8 data (_mem + 8) v);;
  v ← lift (list_index DTCS_CODES (dtcs mem));
  poke (λ data, bitwise.set_u8 data (_mem + 9) v);;
  v ← lift (list_index CROSS_MODES (cross_mode mem));
  poke (λ data, bitwise.set_u8 data (_mem + 10) v);;
  v ← lift (dict_get DUPLEX_REV (duplex mem));
  poke (λ data, bitwise.set_bits data (_mem + 6) 4 0 v);;
  poke (λ data, bitwise.set_ul32 data (_mem + 11) (offset mem));;
  v ← lift (dict_get MODES_REV (mode mem));
  poke (λ data, bitwise.set_u8 data (_mem + 5) v);;
  if decide (number mem < 999) then
    v ← lift (list_index SKIP_VALUES (skip mem));
    poke (λ data, bitwise.set_u8 data (flag + 1) v)
  else mret tt.

(** A name record in the form [set_channel_name] writes it: a label with
    no 0xFF in it and no whitespace at its end, padded to eight characters
    with 0xFF. *)
Definition canonical_name (field : list ascii) : Prop :=
  ∃ label, field = label ++ replicate (8 - length label)%nat xff
           ∧ (length label ≤ 8)%nat ∧ (xff ∉ label)
           ∧ Py.rstrip label = label.

(** The raw codes of the channel record at [_mem] are keys or indices of
    the tables they are decoded with; for an ordinary slot the cross-mode
    and skip codes are decoded as well. *)
Definition codes_in_tables (data : list ascii) (_mem : Z) : Prop :=
  is_Some (TMODES !! mem_tone_mode data _mem)
  ∧ is_Some (DUPLEX !! mem_duplex data _mem)
  ∧ is_Some (MODES !! mem_mode data _mem)
  ∧ mem_rtone data _mem < Z.of_nat (length TONES)
  ∧ mem_ctone data _mem < Z.of_nat (length TONES)
  ∧ mem_dtcs data _mem < Z.of_nat (length DTCS_CODES).

Definition ordinary_codes_in_tables (data : list ascii) (_mem flag : Z)
    : Prop :=
  codes_in_tables data _mem
  ∧ mem_cross_mode data _mem < Z.of_nat (length CROSS_MODES)
  ∧ flag_skip data flag < Z.of_nat (length SKIP_VALUES).


(** Slot [n] can be decoded: its raw codes are in the tables that
    [get_memory] looks them up in for a slot of its kind. *)
Definition decodable (data : list ascii) (n : Z) : Prop :=
  codes_in_tables data (0x1500 + 16 * n)
  ∧ (n < 999 →
     mem_cross_mode data (0x1500 + 16 * n) < Z.of_nat (length CROSS_MODES)
     ∧ flag_skip data (0x0c00 + 2 * n) < Z.of_nat (length SKIP_VALUES))
  ∧ (n > 999 → CROSS_MODES ≠ []).

(** The bytes of slot [n] in the image: its flag record, its channel
    record and, where the slot has one, its name record. *)
Definition slot_bytes (n off : Z) : Prop :=
  0x0c00 + 2 * n ≤ off < 0x0c00 + 2 * n + 2
  ∨ 0x1500 + 16 * n ≤ off < 0x1500 + 16 * n + 16
  ∨ (n < 999 ∧ 0x5e00 + 8 * n ≤ off < 0x5e00 + 8 * n + 8)
  ∨ (1020 ≤ n < 1030
     ∧ 0x7de0 + 8 * (n - 1020) ≤ off < 0x7de0 + 8 * (n - 1020) + 8).

(** A call that changes no byte of the image outside [region]. *)
Definition writes_within {A} (region : Z → Prop) (m : M A) : Prop :=
  ∀ self (i : nat),
    ¬ region (Z.of_nat i) → _mmap (m self).2 !! i = _mmap self !! i.

(** A call that takes no block off the dirty list and adds only blocks
    that hold a byte of [region]. *)
Definition marks_within {A} (region : Z → Prop) (m : M A) : Prop :=
  ∀ self b,
    (b ∈ _dirty_blocks self → b ∈ _dirty_blocks (m self).2)
    ∧ (b ∈ _dirty_blocks (m self).2 →
       b ∈ _dirty_blocks self ∨ ∃ off, region off ∧ b = off `div` 256).

(** * Properties *)

(** ** Characters *)

Lemma ord_range c : 0 ≤ Py.ord c < 256.
Proof.
  unfold Py.ord. pose proof (N_ascii_bounded c). lia.
Qed.

Lemma chr_ord c : Py.chr (Py.ord c) = c.
Proof.
  unfold Py.chr, Py.ord. rewrite N2Z.id. apply ascii_N_embedding.
Qed.

Lemma ord_chr z : 0 ≤ z < 256 → Py.ord (Py.chr z) = z.
Proof.
  intros Hz. unfold Py.chr, Py.ord.
  rewrite N_ascii_embedding by lia. lia.
Qed.

Lemma ord_inj c1 c2 : Py.ord c1 = Py.ord c2 → c1 = c2.
Proof. intros E. rewrite <- (chr_ord c1), <- (chr_ord c2). by rewrite E. Qed.

Lemma str_chars s : Py.str (Py.chars s) = s.
Proof. apply string_of_list_ascii_of_string. Qed.

Lemma chars_str l : Py.chars (Py.str l) = l.
Proof. apply list_ascii_of_string_of_list_ascii. Qed.

(** ** The special-location maps *)

Lemma THD72_SPECIAL_max_eq : THD72_SPECIAL_max = 1031.
Proof. vm_compute. reflexivity. Qed.

Lemma special_forward :
  map_Forall (λ k v, THD72_SPECIAL_REV !! v = Some k) THD72_SPECIAL.
Proof. apply (bool_decide_unpack _). vm_compute. exact I. Qed.

Lemma special_backward :
  map_Forall (λ v k, THD72_SPECIAL !! k = Some v) THD72_SPECIAL_REV.
Proof. apply (bool_decide_unpack _). vm_compute. exact I. Qed.

Lemma special_rev_range :
  map_Forall (λ v _, 1000 ≤ v ≤ 1031) THD72_SPECIAL_REV.
Proof. apply (bool_decide_unpack _). vm_compute. exact I. Qed.

Lemma special_rev_total :
  Forall (λ v, is_Some (THD72_SPECIAL_REV !! v)) (seqZ 1000 32).
Proof. apply (bool_decide_unpack _). vm_compute. exact I. Qed.

Lemma special_rev_is_Some v :
  is_Some (THD72_SPECIAL_REV !! v) ↔ 1000 ≤ v ≤ 1031.
Proof.
  split.
  - intros [k Hk]. exact (special_rev_range v k Hk).
  - intros Hv. pose proof special_rev_total as Hall.
    rewrite Forall_forall in Hall. apply Hall.
    apply elem_of_seqZ. lia.
Qed.

Lemma special_names :
  Forall (λ i, THD72_SPECIAL !! ("L" +:+ pretty i) = Some (1000 + 2 * i)
             ∧ THD72_SPECIAL !! ("U" +:+ pretty i) = Some (1001 + 2 * i)
             ∧ THD72_SPECIAL !! ("WX" +:+ pretty (i + 1)) = Some (1020 + i))
         (seqZ 0 10).
Proof. apply (bool_decide_unpack _). vm_compute. exact I. Qed.

(** C7: the special-location map sends L0..L9 and U0..U9 onto 1000..1019
    (Li to 1000+2i, Ui to 1001+2i), WX1..WX10 onto 1020..1029 and "C VHF",
    "C UHF" to 1030, 1031; it has no other entry; the reverse map is
    defined exactly on 1000..1031 and is the inverse of the forward map. *)
Theorem special_location_bijection :
  (∀ i, 0 ≤ i < 10 →
     THD72_SPECIAL !! ("L" +:+ pretty i) = Some (1000 + 2 * i)
     ∧ THD72_SPECIAL !! ("U" +:+ pretty i) = Some (1001 + 2 * i)
     ∧ THD72_SPECIAL !! ("WX" +:+ pretty (i + 1)) = Some (1020 + i))
  ∧ THD72_SPECIAL !! "C VHF" = Some 1030
  ∧ THD72_SPECIAL !! "C UHF" = Some 1031
  ∧ size THD72_SPECIAL = 32%nat
  ∧ (∀ v, is_Some (THD72_SPECIAL_REV !! v) ↔ 1000 ≤ v ≤ 1031)
  ∧ (∀ k v, THD72_SPECIAL !! k = Some v ↔ THD72_SPECIAL_REV !! v = Some k).
Proof.
  split_and!.
  - intros i Hi. pose proof special_names as Hall.
    rewrite Forall_forall in Hall. apply Hall, elem_of_seqZ. lia.
  - vm_compute. reflexivity.
  - vm_compute. reflexivity.
  - vm_compute. reflexivity.
  - apply special_rev_is_Some.
  - intros k v. split.
    + apply special_forward.
    + apply special_backward.
Qed.

(** ** Fields of the image *)

Lemma get_u8_lookup data off c :
  data !! Z.to_nat off = Some c → bitwise.get_u8 data off = Py.ord c.
Proof. intros E. unfold bitwise.get_u8. by rewrite E. Qed.

Lemma lookup_in_image (data : list ascii) off :
  0 ≤ off < Z.of_nat (length data) → ∃ c, data !! Z.to_nat off = Some c.
Proof.
  intros Hoff. apply lookup_lt_is_Some_2. lia.
Qed.

Lemma byte_mask_id c : Py.chr (Z.land (Py.ord c) 0xFF) = c.
Proof. destruct c as [[] [] [] [] [] [] [] []]; vm_compute; reflexivity. Qed.

Lemma set_u8_same data off :
  0 ≤ off < Z.of_nat (length data) →
  bitwise.set_u8 data off (bitwise.get_u8 data off) = data.
Proof.
  intros Hoff. destruct (lookup_in_image data off Hoff) as [c Hc].
  unfold bitwise.set_u8. rewrite (get_u8_lookup _ _ _ Hc), byte_mask_id.
  by apply list_insert_id.
Qed.

Lemma byte_bits_7_1 c :
  Py.chr (Z.land (bitwise.insert_bits (Py.ord c) 7 1
            (bitwise.extract_bits (Py.ord c) 7 1)) 0xFF) = c.
Proof. destruct c as [[] [] [] [] [] [] [] []]; vm_compute; reflexivity. Qed.
Lemma byte_bits_4_4 c :
  Py.chr (Z.land (bitwise.insert_bits (Py.ord c) 4 4
            (bitwise.extract_bits (Py.ord c) 4 4)) 0xFF) = c.
Proof. destruct c as [[] [] [] [] [] [] [] []]; vm_compute; reflexivity. Qed.
Lemma byte_bits_4_0 c :
  Py.chr (Z.land (bitwise.insert_bits (Py.ord c) 4 0
            (bitwise.extract_bits (Py.ord c) 4 0)) 0xFF) = c.
Proof. destruct c as [[] [] [] [] [] [] [] []]; vm_compute; reflexivity. Qed.

Lemma set_bits_same data off nbits shift :
  (nbits, shift) ∈ [(7, 1); (4, 4); (4, 0)] →
  0 ≤ off < Z.of_nat (length data) →
  bitwise.set_bits data off nbits shift (bitwise.get_bits data off nbits shift)
  = data.
Proof.
  intros Hf Hoff. destruct (lookup_in_image data off Hoff) as [c Hc].
  unfold bitwise.set_bits, bitwise.get_bits, bitwise.set_u8.
  rewrite (get_u8_lookup _ _ _ Hc).
  apply list_insert_id. rewrite Hc. f_equal. symmetry.
  set_unfold in Hf.
  destruct Hf as [Hf|[Hf|[Hf|[]]]]; injection Hf as -> ->.
  - apply byte_bits_7_1.
  - apply byte_bits_4_4.
  - apply byte_bits_4_0.
Qed.

Lemma length_set_u8 data off v :
  length (bitwise.set_u8 data off v) = length data.
Proof. apply length_insert. Qed.

Lemma ul32_bytes (b0 b1 b2 b3 : ascii) :
  let v := Py.ord b0 + 256 * Py.ord b1 + 65536 * Py.ord b2
           + 16777216 * Py.ord b3 in
  let w := Z.land v 0xFFFFFFFF in
  Py.chr (Z.land w 0xFF) = b0
  ∧ Py.chr (Z.land (Z.shiftr w 8) 0xFF) = b1
  ∧ Py.chr (Z.land (Z.shiftr w 16) 0xFF) = b2
  ∧ Py.chr (Z.land (Z.shiftr w 24) 0xFF) = b3.
Proof.
  intros v w.
  pose proof (ord_range b0). pose proof (ord_range b1).
  pose proof (ord_range b2). pose proof (ord_range b3).
  assert (Hw : w = v).
  { unfold w. change 0xFFFFFFFF with (Z.ones 32).
    rewrite Z.land_ones by lia. apply Z.mod_small.
    change (2 ^ 32) with 4294967296. unfold v. lia. }
  rewrite Hw. change 0xFF with (Z.ones 8).
  rewrite !Z.land_ones, !Z.shiftr_div_pow2 by lia.
  change (2 ^ 8) with 256. change (2 ^ 16) with 65536.
  change (2 ^ 24) with 16777216.
  assert (v `mod` 256 = Py.ord b0) as -> by (unfold v; Z.div_mod_to_equations; lia).
  assert ((v `div` 256) `mod` 256 = Py.ord b1) as -> by (unfold v; Z.div_mod_to_equations; lia).
  assert ((v `div` 65536) `mod` 256 = Py.ord b2) as -> by (unfold v; Z.div_mod_to_equations; lia).
  assert ((v `div` 16777216) `mod` 256 = Py.ord b3) as -> by (unfold v; Z.div_mod_to_equations; lia).
  by rewrite !chr_ord.
Qed.

Lemma set_ul32_same data off :
  0 ≤ off ∧ off + 3 < Z.of_nat (length data) →
  bitwise.set_ul32 data off (bitwise.get_ul32 data off) = data.
Proof.
  intros Hoff.
  destruct (lookup_in_image data off) as [b0 H0]; [lia|].
  destruct (lookup_in_image data (off + 1)) as [b1 H1]; [lia|].
  destruct (lookup_in_image data (off + 2)) as [b2 H2]; [lia|].
  destruct (lookup_in_image data (off + 3)) as [b3 H3]; [lia|].
  unfold bitwise.set_ul32, bitwise.get_ul32.
  rewrite (get_u8_lookup _ _ _ H0), (get_u8_lookup _ _ _ H1),
    (get_u8_lookup _ _ _ H2), (get_u8_lookup _ _ _ H3).
  destruct (ul32_bytes b0 b1 b2 b3) as (E0 & E1 & E2 & E3).
  cbv zeta in E0, E1, E2, E3. unfold bitwise.set_u8.
  rewrite E0, E1, E2, E3.
  rewrite (list_insert_id _ _ _ H0), (list_insert_id _ _ _ H1),
    (list_insert_id _ _ _ H2). by apply list_insert_id.
Qed.

(** ** Names *)

Lemma set_chars_length s : ∀ data off,
  length (bitwise.set_chars data off s) = length data.
Proof.
  induction s as [|c s IH]; intros data off; simpl; [done|].
  by rewrite IH, length_insert.
Qed.

Lemma set_chars_lookup_lt s : ∀ data off (i : nat),
  0 ≤ off → (i < Z.to_nat off)%nat →
  bitwise.set_chars data off s !! i = data !! i.
Proof.
  induction s as [|c s IH]; intros data off i Hoff Hi; simpl; [done|].
  rewrite IH by lia. apply list_lookup_insert_ne. lia.
Qed.

Lemma set_chars_lookup_ge s : ∀ data off (i : nat),
  0 ≤ off → (Z.to_nat off + length s ≤ i)%nat →
  bitwise.set_chars data off s !! i = data !! i.
Proof.
  induction s as [|c s IH]; intros data off i Hoff Hi; simpl in *; [done|].
  rewrite IH by lia. apply list_lookup_insert_ne. lia.
Qed.

Lemma set_chars_lookup_in s : ∀ data off (i : nat),
  0 ≤ off → (Z.to_nat off + length s ≤ length data)%nat →
  (i < length s)%nat →
  bitwise.set_chars data off s !! (Z.to_nat off + i)%nat = s !! i.
Proof.
  induction s as [|c s IH]; intros data off i Hoff Hlen Hi; simpl in *; [lia|].
  destruct i as [|i]; simpl.
  - rewrite set_chars_lookup_lt by lia.
    rewrite Nat.add_0_r. apply list_lookup_insert_eq. lia.
  - replace (Z.to_nat off + S i)%nat with (Z.to_nat (off + 1) + i)%nat by lia.
    apply IH; [lia| |lia]. rewrite length_insert. lia.
Qed.

Lemma get_chars_set_chars data off s :
  0 ≤ off → (Z.to_nat off + length s ≤ length data)%nat →
  bitwise.get_chars (bitwise.set_chars data off s) off (Z.of_nat (length s))
  = s.
Proof.
  intros Hoff Hlen. unfold bitwise.get_chars, Py.slice.
  apply list_eq. intros i.
  replace (Z.to_nat (off + Z.of_nat (length s) - off)) with (length s) by lia.
  destruct (decide (i < length s)%nat) as [Hi|Hi].
  - rewrite lookup_take_lt, lookup_drop by done.
    by apply set_chars_lookup_in.
  - rewrite lookup_take_ge by lia. symmetry. apply lookup_ge_None. lia.
Qed.

Lemma set_chars_same data off n :
  0 ≤ off → 0 ≤ n → off + n ≤ Z.of_nat (length data) →
  bitwise.set_chars data off (bitwise.get_chars data off n) = data.
Proof.
  intros Hoff Hn Hlen. apply list_eq. intros i.
  assert (Hl : length (bitwise.get_chars data off n) = Z.to_nat n).
  { unfold bitwise.get_chars, Py.slice. rewrite length_take, length_drop. lia. }
  destruct (decide (i < Z.to_nat off)%nat).
  { by apply set_chars_lookup_lt. }
  destruct (decide (Z.to_nat off + Z.to_nat n ≤ i)%nat).
  { apply set_chars_lookup_ge; [done|]. rewrite Hl. lia. }
  replace i with (Z.to_nat off + (i - Z.to_nat off))%nat at 1 by lia.
  rewrite set_chars_lookup_in by (rewrite ?Hl; lia).
  unfold bitwise.get_chars, Py.slice.
  rewrite lookup_take_lt, lookup_drop by lia. f_equal. lia.
Qed.

Lemma index_first x (s rest : list ascii) :
  x ∉ s → Py.index x (s ++ x :: rest) = Some (Z.of_nat (length s)).
Proof.
  intros Hx. unfold Py.index.
  assert (list_find (λ y, y = x) (s ++ x :: rest) = Some (length s, x)) as ->;
    [|done].
  apply list_find_Some. split_and!.
  - by rewrite list_lookup_middle.
  - done.
  - intros j y Hj Hlt ->. apply Hx.
    rewrite lookup_app_l in Hj by done. by eapply list_elem_of_lookup_2.
Qed.

Lemma name_field_length s : length (name_field s) = 8%nat.
Proof.
  unfold name_field, Py.slice.
  change (Z.to_nat (8 - 0)) with 8%nat. change (Z.to_nat 0) with 0%nat.
  rewrite !drop_0, length_take, length_app, length_replicate. lia.
Qed.

Lemma name_field_short (s : list ascii) :
  (length s ≤ 8)%nat →
  name_field (Py.str s) = s ++ replicate (8 - length s) xff.
Proof.
  intros Hs. unfold name_field, Py.slice. rewrite chars_str.
  change (Z.to_nat (8 - 0)) with 8%nat. change (Z.to_nat 0) with 0%nat.
  rewrite !drop_0.
  rewrite (take_ge s) by lia.
  rewrite take_app_ge by lia. f_equal.
  rewrite take_replicate. f_equal. lia.
Qed.

(** ** The channel translator *)

Lemma element_in_range base size count i :
  0 ≤ i < count → bitwise.element base size count i = Return (base + size * i).
Proof. intros Hi. unfold bitwise.element. by rewrite decide_True. Qed.

Lemma element_out_of_range base size count i :
  0 < count → count ≤ i → bitwise.element base size count i = Raise IndexError.
Proof.
  intros Hc Hi. unfold bitwise.element.
  rewrite decide_False by lia. by rewrite decide_False by lia.
Qed.

Lemma get_u8_range data off : 0 ≤ bitwise.get_u8 data off < 256.
Proof. apply ord_range. Qed.

Lemma list_get_in_range {A} (l : list A) i :
  0 ≤ i < Z.of_nat (length l) →
  ∃ v, l !! Z.to_nat i = Some v ∧ list_get l i = Return v.
Proof.
  intros Hi. destruct (lookup_lt_is_Some_2 l (Z.to_nat i)) as [v Hv]; [lia|].
  exists v. split; [done|].
  unfold list_get, Py.item. rewrite decide_True by lia. by rewrite Hv.
Qed.

Lemma list_index_lookup `{EqDecision A} (l : list A) (i : nat) v :
  NoDup l → l !! i = Some v → list_index l v = Return (Z.of_nat i).
Proof.
  intros Hnd Hv. unfold list_index, Py.index.
  assert (list_find (λ y, y = v) l = Some (i, v)) as ->; [|done].
  apply list_find_Some. split_and!; [done..|].
  intros j y Hj Hlt ->.
  pose proof (NoDup_lookup l i j v Hnd Hv Hj). lia.
Qed.

Lemma validated_bind {A B} (m : outcome A) (f : A → outcome B) :
  validated m → (∀ a, validated (f a)) → validated (m ≫= f).
Proof.
  intros Hm Hf msg. destruct m as [a|e|]; cbn; [apply Hf| |done].
  intros [= ->]. by eapply Hm.
Qed.

Lemma validated_Return {A} (a : A) : validated (Return a).
Proof. by intros msg. Qed.

Lemma validated_element base size count i :
  validated (bitwise.element base size count i).
Proof. intros msg. unfold bitwise.element. by repeat case_decide. Qed.

Lemma validated_dict_get `{Countable K} {V} (d : gmap K V) k :
  validated (dict_get d k).
Proof. intros msg. unfold dict_get. by case_match. Qed.

Lemma validated_list_get {A} (l : list A) i : validated (list_get l i).
Proof. intros msg. unfold list_get. by case_match. Qed.

Lemma validated_get_channel_name self n : validated (get_channel_name self n).
Proof.
  unfold get_channel_name.
  assert (∀ l : list ascii, validated (
    i ← match Py.index xff l with
        | Some i => Return i
        | None => Raise ValueError
        end; Return (Py.str (Py.rstrip (Py.slice l 0 i))))) as Hcut.
  { intros l. apply validated_bind; [|intros; apply validated_Return].
    intros msg. by case_match. }
  repeat case_decide.
  - apply validated_bind; [apply validated_element|]. intros. apply Hcut.
  - apply validated_bind; [apply validated_element|]. intros. apply Hcut.
  - apply validated_Return.
Qed.

Lemma get_memory_rejects self n :
  n < 0 ∨ n > 1032 →
  get_memory self (Num n)
  = Raise (InvalidMemoryLocation "Number must be between 0 and 999").
Proof.
  intros Hn. unfold get_memory. cbn [mbind outcome_bind].
  rewrite THD72_SPECIAL_max_eq. by rewrite decide_True by lia.
Qed.

Lemma get_memory_1032 self : get_memory self (Num 1032) = Raise IndexError.
Proof.
  unfold get_memory. cbn [mbind outcome_bind].
  rewrite THD72_SPECIAL_max_eq. rewrite decide_False by lia.
  unfold memory_element. by rewrite element_out_of_range by lia.
Qed.

Local Ltac validated_step :=
  first
    [ apply validated_Return
    | apply validated_element
    | apply validated_dict_get
    | apply validated_list_get
    | apply validated_get_channel_name
    | apply validated_bind; [|intros ?]
    | case_decide ].

Lemma get_memory_validated self n :
  0 ≤ n ≤ 1032 → validated (get_memory self (Num n)).
Proof.
  intros Hn. unfold get_memory. cbn [mbind outcome_bind].
  rewrite THD72_SPECIAL_max_eq. rewrite decide_False by lia.
  unfold memory_element, flag_element.
  repeat validated_step.
Qed.

Lemma validatedM_bind {A B} (m : M A) (f : A → M B) :
  validatedM m → (∀ a, validatedM (f a)) → validatedM (m ≫= f).
Proof.
  intros Hm Hf self msg. unfold mbind, M_bind.
  specialize (Hm self). destruct (m self) as [[a|e|] self']; cbn in *.
  - apply Hf.
  - intros [= ->]. by eapply Hm.
  - done.
Qed.

Lemma validatedM_lift {A} (o : outcome A) : validated o → validatedM (lift o).
Proof. intros Ho self. apply Ho. Qed.

Lemma validatedM_modify f : validatedM (modify f).
Proof. by intros self msg. Qed.

Lemma validatedM_gets {A} (f : THD72Radio → A) : validatedM (gets f).
Proof. by intros self msg. Qed.

Lemma validatedM_mret {A} (a : A) : validatedM (mret a).
Proof. by intros self msg. Qed.

Lemma validated_list_index `{EqDecision A} (l : list A) x :
  validated (list_index l x).
Proof. intros msg. unfold list_index. by case_match. Qed.

Local Ltac validatedM_step :=
  first
    [ apply validatedM_mret
    | apply validatedM_modify
    | apply validatedM_gets
    | apply validatedM_lift;
        first [ apply validated_element | apply validated_dict_get
              | apply validated_list_index ]
    | apply validatedM_bind; [|intros ?]
    | case_decide
    | case_match ].

Lemma validatedM_set_channel_name n s : validatedM (set_channel_name n s).
Proof.
  unfold set_channel_name, add_dirty_block, channel_name_element,
    wx_name_element.
  repeat validatedM_step.
Qed.

Lemma set_memory_validated mem :
  0 ≤ number mem ≤ 1032 → validatedM (set_memory mem).
Proof.
  intros Hn. unfold set_memory.
  rewrite THD72_SPECIAL_max_eq. rewrite decide_False by lia.
  unfold flag_element, memory_element, add_dirty_block, poke, initialize.
  repeat first [ apply validatedM_set_channel_name | validatedM_step ].
Qed.

Lemma set_memory_rejects self mem :
  number mem < 0 ∨ number mem > 1032 →
  set_memory mem self
  = (Raise (InvalidMemoryLocation "Number must be between 0 and 999"), self).
Proof.
  intros Hn. unfold set_memory.
  rewrite THD72_SPECIAL_max_eq. by rewrite decide_True by lia.
Qed.

Lemma set_memory_1032 self mem :
  number mem = 1032 → set_memory mem self = (Raise IndexError, self).
Proof.
  intros Hn. unfold set_memory.
  rewrite THD72_SPECIAL_max_eq, Hn. rewrite decide_False by lia.
  rewrite decide_False by lia.
  unfold flag_element. rewrite element_out_of_range by lia. done.
Qed.

Lemma element_is_Return base size count n :
  0 < count → 0 ≤ n →
  n ≤ count - 1 ↔ ∃ off, bitwise.element base size count n = Return off.
Proof.
  intros Hc Hn. split.
  - intros Hle. eexists. apply element_in_range. lia.
  - intros [off Hoff]. destruct (decide (n ≤ count - 1)) as [|Hgt]; [done|].
    rewrite element_out_of_range in Hoff by lia. done.
Qed.

(** C9: the slot-number check of get_memory and set_memory rejects exactly
    the numbers below 0 and above 1032; the flag and channel tables have
    the elements 0..1031; slot number 1032 passes the check and the table
    access that follows is out of the tables' bounds (IndexError). *)
Theorem slot_1032_passes_range_check self mem n :
  (n < 0 ∨ n > 1032 ↔
     ∃ msg, get_memory self (Num n) = Raise (InvalidMemoryLocation msg))
  ∧ (n < 0 ∨ n > 1032 ↔
     ∃ msg, set_memory (with_number n mem) self
            = (Raise (InvalidMemoryLocation msg), self))
  ∧ (0 ≤ n → (n ≤ 1031 ↔ ∃ off, flag_element n = Return off))
  ∧ (0 ≤ n → (n ≤ 1031 ↔ ∃ off, memory_element n = Return off))
  ∧ flag_element 1032 = Raise IndexError
  ∧ memory_element 1032 = Raise IndexError
  ∧ get_memory self (Num 1032) = Raise IndexError
  ∧ set_memory (with_number 1032 mem) self = (Raise IndexError, self).
Proof.
  split_and!.
  - split.
    + intros Hn. eexists. by apply get_memory_rejects.
    + intros [msg Hmsg]. destruct (decide (0 ≤ n ≤ 1032)) as [Hn|Hn]; [|lia].
      by destruct (get_memory_validated self n Hn msg).
  - split.
    + intros Hn. eexists. by apply set_memory_rejects.
    + intros [msg Hmsg]. destruct (decide (0 ≤ n ≤ 1032)) as [Hn|Hn]; [|lia].
      destruct (set_memory_validated (with_number n mem) Hn self msg).
      by rewrite Hmsg.
  - intros Hn. by apply (element_is_Return _ _ 1032).
  - intros Hn. by apply (element_is_Return _ _ 1032).
  - done.
  - done.
  - apply get_memory_1032.
  - by apply set_memory_1032.
Qed.

(** ** Decoding a slot *)

(** The channel [get_memory] returns for an empty slot: a fresh [Memory]
    with its number, its extended identifier when it is a special slot,
    and the empty mark. *)
Lemma get_memory_empty self n :
  0 ≤ n ≤ 1031 →
  flag_disabled (_mmap self) (0x0c00 + 2 * n) = 0x7f →
  get_memory self (Num n) =
    Return (with_empty true
      (if decide (n > 999)
       then with_extd_number (default "" (THD72_SPECIAL_REV !! n))
              (with_number n Memory_new)
       else with_number n Memory_new)).
Proof.
  intros Hn Hd. unfold get_memory. cbn [mbind outcome_bind].
  rewrite THD72_SPECIAL_max_eq.
  rewrite decide_False by lia.
  unfold memory_element, flag_element.
  rewrite !element_in_range by lia. cbn [mbind outcome_bind].
  destruct (decide (n > 999)) as [Hs|Hs].
  - destruct (proj2 (special_rev_is_Some n)) as [k Hk]; [lia|].
    unfold dict_get. rewrite Hk. cbn [mbind outcome_bind default].
    by rewrite decide_True.
  - cbn [mbind outcome_bind]. by rewrite decide_True.
Qed.

(** C5: for a slot 0..1031 whose flag record has disabled = 0x7F,
    get_memory returns a channel marked empty that is a fresh Memory in
    which only the number and, for slots above 999, the extended
    identifier were set; the result is the same for every image with that
    flag value, so nothing else of the image is read. *)
Theorem get_memory_empty_slot self n :
  0 ≤ n ≤ 1031 →
  flag_disabled (_mmap self) (0x0c00 + 2 * n) = 0x7f →
  ∃ mem,
    get_memory self (Num n) = Return mem
    ∧ empty mem = true
    ∧ number mem = n
    ∧ (n > 999 → THD72_SPECIAL_REV !! n = Some (extd_number mem))
    ∧ (n ≤ 999 → extd_number mem = extd_number Memory_new)
    ∧ with_empty true (with_number n (with_extd_number (extd_number mem)
        Memory_new)) = mem
    ∧ ∀ other,
        flag_disabled (_mmap other) (0x0c00 + 2 * n) = 0x7f →
        get_memory other (Num n) = Return mem.
Proof.
  intros Hn Hd. eexists. split; [by apply get_memory_empty|].
  destruct (decide (n > 999)) as [Hs|Hs].
  - destruct (proj2 (special_rev_is_Some n)) as [k Hk]; [lia|].
    rewrite Hk. cbn [default]. split_and!; try reflexivity; try lia.
    all: try (intros _; reflexivity).
    intros other Ho. rewrite get_memory_empty by done.
    rewrite decide_True by done. by rewrite Hk.
  - split_and!; try reflexivity; try lia.
    intros other Ho. rewrite get_memory_empty by done.
    by rewrite decide_False by done.
Qed.

Lemma index_is_Some `{EqDecision A} (x : A) l :
  x ∈ l → ∃ i, Py.index x l = Some i.
Proof.
  intros Hx. destruct (list_find_elem_of (λ y, y = x) l x Hx eq_refl)
    as [[i y] Hi].
  exists (Z.of_nat i). unfold Py.index. by rewrite Hi.
Qed.

Lemma get_channel_name_Return self n :
  0 ≤ n ≤ 1031 → ∃ s, get_channel_name self n = Return s.
Proof.
  intros Hn. unfold get_channel_name.
  assert (∀ l : list ascii, ∃ s,
    (i ← match Py.index xff (l ++ [xff]) with
         | Some i => Return i
         | None => Raise ValueError
         end; Return (Py.str (Py.rstrip (Py.slice (l ++ [xff]) 0 i))))
    = Return s) as Hcut.
  { intros l. destruct (index_is_Some xff (l ++ [xff])) as [i Hi].
    - apply elem_of_app. right. by apply list_elem_of_singleton.
    - rewrite Hi. by eexists. }
  repeat case_decide.
  - unfold channel_name_element. rewrite element_in_range by lia.
    cbn [mbind outcome_bind]. apply Hcut.
  - unfold wx_name_element. rewrite element_in_range by lia.
    cbn [mbind outcome_bind]. apply Hcut.
  - by eexists.
Qed.

Lemma dict_get_Some `{Countable K} {V} (d : gmap K V) k v :
  d !! k = Some v → dict_get d k = Return v.
Proof. intros E. unfold dict_get. by rewrite E. Qed.

Lemma list_get_Some {A} (l : list A) i v :
  0 ≤ i → l !! Z.to_nat i = Some v → list_get l i = Return v.
Proof.
  intros Hi E. unfold list_get, Py.item. rewrite decide_True by done.
  by rewrite E.
Qed.

Lemma list_get_first {A} (l : list A) :
  l ≠ [] → ∃ v, list_get l 0 = Return v.
Proof. destruct l as [|v l]; [done|]. intros _. by exists v. Qed.

Local Ltac decode_with E :=
  rewrite E; cbn [mbind outcome_bind].

(** The decoding of a special slot that is in use. *)
Lemma get_memory_special self n :
  1000 ≤ n ≤ 1031 →
  flag_disabled (_mmap self) (0x0c00 + 2 * n) ≠ 0x7f →
  codes_in_tables (_mmap self) (0x1500 + 16 * n) →
  CROSS_MODES ≠ [] →
  ∃ mem,
    get_memory self (Num n) = Return mem
    ∧ number mem = n
    ∧ empty mem = empty Memory_new
    ∧ THD72_SPECIAL_REV !! n = Some (extd_number mem)
    ∧ immutable mem =
        ["number"; "bank"; "extd_number"; "cross_mode"]
        ++ (if decide (n >= 1020 ∧ n < 1030)
            then ["freq"; "offset"; "tone"; "mode"; "tmode"; "ctone"; "skip"]
            else ["name"]).
Proof.
  intros Hn Hd (Htm & Hdx & Hmd & Hrt & Hct & Hdc) Hcm.
  destruct Htm as [tm Htm], Hdx as [dx Hdx], Hmd as [md Hmd].
  destruct (list_get_in_range TONES _ (conj (proj1 (get_u8_range _ _)) Hrt))
    as (rt & _ & Ert).
  destruct (list_get_in_range TONES _ (conj (proj1 (get_u8_range _ _)) Hct))
    as (ct & _ & Ect).
  destruct (list_get_in_range DTCS_CODES _
              (conj (proj1 (get_u8_range _ _)) Hdc)) as (dc & _ & Edc).
  destruct (get_channel_name_Return self n) as [nm Enm]; [lia|].
  destruct (proj2 (special_rev_is_Some n)) as [k Hk]; [lia|].
  destruct (list_get_first CROSS_MODES Hcm) as [cm0 Ecm0].
  unfold get_memory. cbn [mbind outcome_bind].
  rewrite THD72_SPECIAL_max_eq. rewrite decide_False by lia.
  unfold memory_element, flag_element.
  rewrite !element_in_range by lia. cbn [mbind outcome_bind].
  rewrite decide_True by lia.
  decode_with (dict_get_Some _ _ _ Hk).
  rewrite decide_False by exact Hd.
  decode_with Enm.
  decode_with (dict_get_Some _ _ _ Htm).
  unfold mem_rtone, mem_ctone, mem_dtcs in *.
  decode_with Ert. decode_with Ect. decode_with Edc.
  decode_with (dict_get_Some _ _ _ Hdx).
  decode_with (dict_get_Some _ _ _ Hmd).
  rewrite decide_False by lia. cbn [mbind outcome_bind].
  rewrite decide_True by lia.
  decode_with Ecm0.
  destruct (decide (n >= 1020 ∧ n < 1030)); eexists;
    (split; [reflexivity|]); split_and!; first [reflexivity | exact Hk].
Qed.

(** C4 (amended): when slot 1030 is in use (disabled is not 0x7F) and its
    raw codes are in the decode tables, get_memory(1030) returns a channel
    whose immutable list includes "name"; when slot 1020 is in use and its
    raw codes are in the decode tables, get_memory(1020) returns a channel
    whose immutable list includes "freq", "offset", "mode", "tmode",
    "ctone" and "skip". *)
Theorem special_slot_immutable self :
  CROSS_MODES ≠ [] →
  (flag_disabled (_mmap self) (0x0c00 + 2 * 1030) ≠ 0x7f →
   codes_in_tables (_mmap self) (0x1500 + 16 * 1030) →
   ∃ mem, get_memory self (Num 1030) = Return mem
          ∧ "name" ∈ immutable mem)
  ∧ (flag_disabled (_mmap self) (0x0c00 + 2 * 1020) ≠ 0x7f →
     codes_in_tables (_mmap self) (0x1500 + 16 * 1020) →
     ∃ mem, get_memory self (Num 1020) = Return mem
            ∧ Forall (λ field, field ∈ immutable mem)
                ["freq"; "offset"; "mode"; "tmode"; "ctone"; "skip"]).
Proof.
  intros Hcm. split; intros Hd Hcodes.
  - destruct (get_memory_special self 1030 ltac:(lia) Hd Hcodes Hcm)
      as (mem & E & _ & _ & _ & Himm).
    exists mem. split; [exact E|]. rewrite Himm.
    rewrite decide_False by lia. repeat constructor.
  - destruct (get_memory_special self 1020 ltac:(lia) Hd Hcodes Hcm)
      as (mem & E & _ & _ & _ & Himm).
    exists mem. split; [exact E|]. rewrite Himm.
    rewrite decide_True by lia. repeat constructor.
Qed.

(** ** The dirty-block list *)

Lemma mark_Sorted off blocks : Sorted Z.le (mark off blocks).
Proof. unfold mark. apply (Sorted_merge_sort Z.le). Qed.

Lemma mark_Permutation off blocks :
  mark off blocks ≡ₚ
  if decide (off `div` 256 ∈ blocks) then blocks
  else blocks ++ [off `div` 256].
Proof. unfold mark. apply merge_sort_Permutation. Qed.

Lemma mark_elem_of off blocks b :
  b ∈ mark off blocks ↔ b ∈ blocks ∨ b = off `div` 256.
Proof.
  rewrite (mark_Permutation off blocks). case_decide.
  - split; [tauto|]. intros [?| ->]; done.
  - rewrite elem_of_app, list_elem_of_singleton. tauto.
Qed.

Lemma mark_NoDup off blocks : NoDup blocks → NoDup (mark off blocks).
Proof.
  intros Hnd. rewrite (mark_Permutation off blocks). case_decide; [done|].
  apply NoDup_app. split_and!; [done| |apply NoDup_singleton].
  intros x Hx ->%list_elem_of_singleton. done.
Qed.

Lemma merge_sort_Sorted_id (l : list Z) :
  Sorted Z.le l → merge_sort Z.le l = l.
Proof.
  intros Hl. apply (Sorted_unique Z.le); [|done|].
  - apply (Sorted_merge_sort Z.le).
  - apply merge_sort_Permutation.
Qed.

Lemma mark_idempotent off blocks :
  mark off (mark off blocks) = mark off blocks.
Proof.
  unfold mark at 1. cbv zeta.
  rewrite decide_True by (apply mark_elem_of; by right).
  apply merge_sort_Sorted_id, mark_Sorted.
Qed.

Lemma marks_invariant offs : ∀ blocks,
  NoDup blocks → Sorted Z.le blocks →
  NoDup (foldl (λ l off, mark off l) blocks offs)
  ∧ Sorted Z.le (foldl (λ l off, mark off l) blocks offs).
Proof.
  induction offs as [|off offs IH]; intros blocks Hnd Hs; simpl; [done|].
  apply IH; [by apply mark_NoDup|apply mark_Sorted].
Qed.

(** ** Running a call *)

Local Ltac run :=
  cbn [mbind M_bind mret M_ret lift gets modify poke raise hang
       add_dirty_block initialize fst snd
       with_mmap with_dirty_blocks with_pipe with_reported
       _mmap _dirty_blocks pipe status_fn reported].

Lemma set_memory_empty_dirty self mem :
  empty mem = true →
  _dirty_blocks (set_memory mem self).2 =
    if decide (number mem < 0 ∨ number mem > 1032) then _dirty_blocks self
    else if decide (number mem >= 1020 ∧ number mem < 1030) then
      mark (0x7de0 + 8 * (number mem - 1020)) (_dirty_blocks self)
    else if decide (number mem = 1032) then _dirty_blocks self
    else mark (0x0c00 + 2 * number mem) (_dirty_blocks self).
Proof.
  intros He. unfold set_memory. rewrite THD72_SPECIAL_max_eq.
  change (1031 + 1) with 1032.
  destruct (decide (number mem < 0 ∨ number mem > 1032)); [done|].
  destruct (decide (number mem >= 1020 ∧ number mem < 1030)).
  - unfold set_channel_name. rewrite decide_False by lia.
    rewrite decide_True by lia.
    unfold wx_name_element. rewrite element_in_range by lia.
    run. reflexivity.
  - destruct (decide (number mem = 1032)) as [E|E].
    + rewrite E. reflexivity.
    + unfold flag_element. rewrite element_in_range by lia.
      run. rewrite He. run. reflexivity.
Qed.

Lemma add_dirty_blocks_fold offs : ∀ self,
  _dirty_blocks (foldl (λ s off, (add_dirty_block off s).2) self offs)
  = foldl (λ l off, mark off l) (_dirty_blocks self) offs.
Proof.
  induction offs as [|off offs IH]; intros self; simpl; [done|].
  by rewrite IH.
Qed.

(** C8: marking a byte offset dirty inserts offset ÷ 256 if absent and
    sorts, so after every mark the dirty list is sorted, holds the block
    and what it held before, and is duplicate-free if it was; from the
    empty list of process_mmap every sequence of marks gives a sorted,
    duplicate-free list; marking 0x1500 and 0x1510 gives the single entry
    0x15; and marking a slot empty a second time leaves the dirty list as
    it was after the first time. *)
Theorem dirty_blocks_unique_sorted :
  (∀ self off,
     let self' := (add_dirty_block off self).2 in
     Sorted Z.le (_dirty_blocks self')
     ∧ (∀ b, b ∈ _dirty_blocks self'
             ↔ b ∈ _dirty_blocks self ∨ b = off `div` 256)
     ∧ (NoDup (_dirty_blocks self) → NoDup (_dirty_blocks self')))
  ∧ (∀ self offs,
       let self' := foldl (λ s off, (add_dirty_block off s).2)
                      (process_mmap self).2 offs in
       NoDup (_dirty_blocks self') ∧ Sorted Z.le (_dirty_blocks self'))
  ∧ (∀ self,
       _dirty_blocks
         (add_dirty_block 0x1510
            (add_dirty_block 0x1500 (process_mmap self).2).2).2 = [0x15])
  ∧ (∀ self mem,
       empty mem = true →
       let once := (set_memory mem self).2 in
       _dirty_blocks (set_memory mem once).2 = _dirty_blocks once).
Proof.
  split_and!.
  - intros self off. cbn. split_and!.
    + apply mark_Sorted.
    + apply mark_elem_of.
    + apply mark_NoDup.
  - intros self offs. cbv zeta. rewrite add_dirty_blocks_fold.
    apply marks_invariant; cbn; constructor.
  - intros self. vm_compute. reflexivity.
  - intros self mem He. cbv zeta.
    rewrite (set_memory_empty_dirty (set_memory mem self).2 mem He).
    rewrite (set_memory_empty_dirty self mem He).
    repeat case_decide; try reflexivity; apply mark_idempotent.
Qed.

(** ** Weather slots *)

Lemma get_chars_agree (data data' : list ascii) off n :
  0 ≤ off →
  (∀ i : nat, off ≤ Z.of_nat i < off + n → data' !! i = data !! i) →
  bitwise.get_chars data' off n = bitwise.get_chars data off n.
Proof.
  intros Hoff Hagree. unfold bitwise.get_chars, Py.slice.
  apply list_eq. intros i.
  destruct (decide (i < Z.to_nat (off + n - off))%nat) as [Hi|Hi].
  - rewrite !lookup_take_lt, !lookup_drop by done. apply Hagree. lia.
  - by rewrite !lookup_take_ge by lia.
Qed.

Lemma set_chars_lookup_outside s data off (i : nat) :
  0 ≤ off →
  ¬ (off ≤ Z.of_nat i < off + Z.of_nat (length s)) →
  bitwise.set_chars data off s !! i = data !! i.
Proof.
  intros Hoff Hi. destruct (decide (i < Z.to_nat off)%nat).
  - by apply set_chars_lookup_lt.
  - apply set_chars_lookup_ge; [done|lia].
Qed.

Lemma set_memory_weather self mem :
  number mem >= 1020 ∧ number mem < 1030 →
  set_memory mem self =
    (Return tt,
     with_dirty_blocks (mark (0x7de0 + 8 * (number mem - 1020)))
       (with_mmap (λ data, bitwise.set_chars data
                    (0x7de0 + 8 * (number mem - 1020))
                    (name_field (name mem))) self)).
Proof.
  intros Hn. unfold set_memory. rewrite THD72_SPECIAL_max_eq.
  rewrite decide_False by lia. rewrite decide_True by lia.
  unfold set_channel_name. rewrite decide_False by lia.
  rewrite decide_True by lia.
  unfold wx_name_element. rewrite element_in_range by lia.
  run. reflexivity.
Qed.

(** C3: for a slot number 1020..1029 set_memory returns and changes only
    the eight characters of the slot's weather-name record, which become
    the name truncated to eight characters and padded with 0xFF; the flag
    and channel records of the slot keep every byte; and the call does the
    same whatever the other fields of the channel are, so a change of
    frequency (or of any field but the name) is ignored. *)
Theorem weather_slot_only_name self mem :
  1020 ≤ number mem ≤ 1029 →
  Z.of_nat (length (_mmap self)) = _memsize →
  let rec := 0x7de0 + 8 * (number mem - 1020) in
  ∃ self',
    set_memory mem self = (Return tt, self')
    ∧ bitwise.get_chars (_mmap self') rec 8 = name_field (name mem)
    ∧ (∀ i : nat, ¬ (rec ≤ Z.of_nat i < rec + 8) →
         _mmap self' !! i = _mmap self !! i)
    ∧ bitwise.get_chars (_mmap self') (0x0c00 + 2 * number mem) 2
      = bitwise.get_chars (_mmap self) (0x0c00 + 2 * number mem) 2
    ∧ bitwise.get_chars (_mmap self') (0x1500 + 16 * number mem) 16
      = bitwise.get_chars (_mmap self) (0x1500 + 16 * number mem) 16
    ∧ ∀ other,
        number other = number mem → name other = name mem →
        set_memory other self = (Return tt, self').
Proof.
  intros Hn Hlen rec. eexists. split; [apply set_memory_weather; lia|].
  cbn [_mmap with_mmap with_dirty_blocks]. fold rec.
  pose proof (name_field_length (name mem)) as Hnf.
  assert (Houtside : ∀ i : nat, ¬ (rec ≤ Z.of_nat i < rec + 8) →
    bitwise.set_chars (_mmap self) rec (name_field (name mem)) !! i
    = _mmap self !! i).
  { intros i Hi. apply set_chars_lookup_outside; [unfold rec; lia|].
    rewrite Hnf. exact Hi. }
  split_and!.
  - rewrite <- (get_chars_set_chars (_mmap self) rec (name_field (name mem)))
      at 2.
    + by rewrite Hnf.
    + unfold rec; lia.
    + rewrite Hnf. unfold _memsize in Hlen. unfold rec. lia.
  - exact Houtside.
  - apply get_chars_agree; [lia|]. intros i Hi. apply Houtside.
    unfold rec. lia.
  - apply get_chars_agree; [lia|]. intros i Hi. apply Houtside.
    unfold rec. lia.
  - intros other Hnum Hname. rewrite set_memory_weather by lia.
    by rewrite Hnum, Hname.
Qed.

(** ** Decoding and re-encoding an ordinary slot *)

Lemma TMODES_inverse :
  map_Forall (λ code s, TMODES_REV !! s = Some code) TMODES.
Proof. apply (bool_decide_unpack _). vm_compute. exact I. Qed.

Lemma DUPLEX_inverse :
  map_Forall (λ code s, DUPLEX_REV !! s = Some code) DUPLEX.
Proof. apply (bool_decide_unpack _). vm_compute. exact I. Qed.

Lemma MODES_inverse :
  map_Forall (λ code s, MODES_REV !! s = Some code) MODES.
Proof. apply (bool_decide_unpack _). vm_compute. exact I. Qed.

Lemma get_channel_name_canonical self n label :
  0 ≤ n < 999 →
  bitwise.get_chars (_mmap self) (0x5e00 + 8 * n) 8
  = label ++ replicate (8 - length label) xff →
  xff ∉ label → Py.rstrip label = label →
  get_channel_name self n = Return (Py.str label).
Proof.
  intros Hn Hfield Hff Hstrip. unfold get_channel_name.
  rewrite decide_True by lia.
  unfold channel_name_element. rewrite element_in_range by lia.
  cbn [mbind outcome_bind]. rewrite Hfield.
  rewrite <- (assoc_L (++)), <- replicate_S_end, replicate_S.
  rewrite index_first by done. cbn [mbind outcome_bind].
  unfold Py.slice. rewrite Z.sub_0_r, Nat2Z.id. change (Z.to_nat 0) with 0%nat.
  rewrite drop_0, take_app_length. by rewrite Hstrip.
Qed.

(** The channel [get_memory] returns for an ordinary slot in use. *)
Lemma get_memory_ordinary self n :
  0 ≤ n < 999 →
  flag_disabled (_mmap self) (0x0c00 + 2 * n) ≠ 0x7f →
  ordinary_codes_in_tables (_mmap self) (0x1500 + 16 * n) (0x0c00 + 2 * n) →
  let data := _mmap self in
  let _mem := 0x1500 + 16 * n in
  ∃ nm tm rt ct dc dx md sk cm,
    get_channel_name self n = Return nm
    ∧ TMODES !! mem_tone_mode data _mem = Some tm
    ∧ TONES !! Z.to_nat (mem_rtone data _mem) = Some rt
    ∧ TONES !! Z.to_nat (mem_ctone data _mem) = Some ct
    ∧ DTCS_CODES !! Z.to_nat (mem_dtcs data _mem) = Some dc
    ∧ DUPLEX !! mem_duplex data _mem = Some dx
    ∧ MODES !! mem_mode data _mem = Some md
    ∧ SKIP_VALUES !! Z.to_nat (flag_skip data (0x0c00 + 2 * n)) = Some sk
    ∧ CROSS_MODES !! Z.to_nat (mem_cross_mode data _mem) = Some cm
    ∧ get_memory self (Num n) =
        Return (mkMemory n (extd_number Memory_new) (empty Memory_new) nm
                  (mem_freq data _mem) tm rt ct dc dx (mem_offset data _mem)
                  md sk cm (immutable Memory_new)).
Proof.
  intros Hn Hd ((Htm & Hdx & Hmd & Hrt & Hct & Hdc) & Hcm & Hsk) data _mem.
  destruct Htm as [tm Htm], Hdx as [dx Hdx], Hmd as [md Hmd].
  destruct (list_get_in_range TONES _ (conj (proj1 (get_u8_range _ _)) Hrt))
    as (rt & Lrt & Ert).
  destruct (list_get_in_range TONES _ (conj (proj1 (get_u8_range _ _)) Hct))
    as (ct & Lct & Ect).
  destruct (list_get_in_range DTCS_CODES _
              (conj (proj1 (get_u8_range _ _)) Hdc)) as (dc & Ldc & Edc).
  destruct (list_get_in_range CROSS_MODES _
              (conj (proj1 (get_u8_range _ _)) Hcm)) as (cm & Lcm & Ecm).
  destruct (list_get_in_range SKIP_VALUES _
              (conj (proj1 (get_u8_range _ _)) Hsk)) as (sk & Lsk & Esk).
  destruct (get_channel_name_Return self n) as [nm Enm]; [lia|].
  exists nm, tm, rt, ct, dc, dx, md, sk, cm.
  split_and!; try assumption.
  unfold get_memory. cbn [mbind outcome_bind].
  rewrite THD72_SPECIAL_max_eq. rewrite decide_False by lia.
  unfold memory_element, flag_element.
  rewrite !element_in_range by lia. cbn [mbind outcome_bind].
  rewrite decide_False by lia. cbn [mbind outcome_bind].
  rewrite decide_False by exact Hd.
  decode_with Enm.
  decode_with (dict_get_Some _ _ _ Htm).
  unfold mem_rtone, mem_ctone, mem_dtcs, mem_cross_mode, flag_skip in *.
  decode_with Ert. decode_with Ect. decode_with Edc.
  decode_with (dict_get_Some _ _ _ Hdx).
  decode_with (dict_get_Some _ _ _ Hmd).
  rewrite decide_True by lia. decode_with Esk. decode_with Ecm.
  rewrite decide_False by lia. reflexivity.
Qed.

Lemma bind_lift_Return {A B} (a : A) (f : A → M B) self :
  (lift (Return a) ≫= f) self = f a self.
Proof. reflexivity. Qed.

Lemma bind_modify {B} g (f : unit → M B) self :
  (modify g ≫= f) self = f tt (g self).
Proof. reflexivity. Qed.

Lemma bind_gets {A B} (g : THD72Radio → A) (f : A → M B) self :
  (gets g ≫= f) self = f (g self) self.
Proof. reflexivity. Qed.

Lemma bind_mret {A B} (a : A) (f : A → M B) self :
  (mret a ≫= f) self = f a self.
Proof. reflexivity. Qed.

Lemma bind_assoc {A B C} (m : M A) (f : A → M B) (g : B → M C) self :
  ((m ≫= f) ≫= g) self = (m ≫= λ a, f a ≫= g) self.
Proof.
  unfold mbind, M_bind. by destruct (m self) as [[a|e|] self'].
Qed.

Local Ltac exec :=
  repeat first
    [ rewrite bind_assoc
    | rewrite bind_lift_Return
    | rewrite bind_modify
    | rewrite bind_gets
    | rewrite bind_mret
    | progress unfold add_dirty_block, poke, initialize, with_mmap,
        with_dirty_blocks, with_pipe, with_reported
    | progress cbn [_mmap _dirty_blocks pipe status_fn reported] ].

Local Ltac run_fields :=
  cbn [number extd_number empty name freq tmode rtone ctone dtcs duplex
       offset mode skip cross_mode immutable].

(** C2 (amended): for an ordinary slot i < 999 whose flag record has
    disabled = 0 (in use, not merely different from 0x7F), whose raw codes
    are within the decode tables and whose name record is in canonical
    form (a label without 0xFF and without trailing whitespace, padded
    with 0xFF), get_memory returns a channel and set_memory of that
    channel leaves the whole image, hence the slot's flag, channel and name
    records, byte-identical.  The lookup tables of chirp_common are taken
    to be duplicate-free and a fresh Memory not to be marked empty. *)
Theorem ordinary_slot_roundtrip self n :
  NoDup TONES → NoDup DTCS_CODES → NoDup CROSS_MODES → NoDup SKIP_VALUES →
  empty Memory_new = false →
  Z.of_nat (length (_mmap self)) = _memsize →
  0 ≤ n < 999 →
  flag_disabled (_mmap self) (0x0c00 + 2 * n) = 0 →
  ordinary_codes_in_tables (_mmap self) (0x1500 + 16 * n) (0x0c00 + 2 * n) →
  canonical_name (bitwise.get_chars (_mmap self) (0x5e00 + 8 * n) 8) →
  ∃ mem self',
    get_memory self (Num n) = Return mem
    ∧ set_memory mem self = (Return tt, self')
    ∧ _mmap self' = _mmap self.
Proof.
  intros Htones Hdtcs Hcross Hskip Hnew Hlen Hn Hd Hcodes
    (label & Hfield & Hlabel & Hff & Hstrip).
  destruct (get_memory_ordinary self n Hn) as
    (nm & tm & rt & ct & dc & dx & md & sk & cm & Enm & Etm & Ert & Ect
     & Edc & Edx & Emd & Esk & Ecm & Eget); [by rewrite Hd|exact Hcodes|].
  rewrite (get_channel_name_canonical self n label Hn Hfield Hff Hstrip)
    in Enm.
  injection Enm as <-.
  destruct self as [data dirty p sf rep]. cbn [_mmap] in *.
  eexists. eexists. split; [exact Eget|].
  unfold _memsize in Hlen.
  set (flag := 0x0c00 + 2 * n) in *. set (_mem := 0x1500 + 16 * n) in *.
  (* every write puts back what is there *)
  assert (Eflag : bitwise.set_bits data flag 7 1 0 = data).
  { rewrite <- Hd. apply set_bits_same; [apply list_elem_of_In; simpl; tauto|unfold flag; lia]. }
  assert (Efreq : bitwise.set_ul32 data _mem (mem_freq data _mem) = data).
  { apply set_ul32_same. unfold _mem. lia. }
  assert (Ename : bitwise.set_chars data (0x5e00 + 8 * n)
                    (name_field (Py.str label)) = data).
  { rewrite name_field_short, <- Hfield by done.
    apply set_chars_same; lia. }
  assert (Etmode : dict_get TMODES_REV tm = Return (mem_tone_mode data _mem)).
  { apply dict_get_Some. exact (TMODES_inverse _ _ Etm). }
  assert (Etm_same : bitwise.set_bits data (_mem + 6) 4 4
                       (mem_tone_mode data _mem) = data).
  { apply set_bits_same; [apply list_elem_of_In; simpl; tauto|unfold _mem; lia]. }
  assert (Eindex : ∀ `{EqDecision A} (l : list A) off v,
            NoDup l → l !! Z.to_nat (bitwise.get_u8 data off) = Some v →
            list_index l v = Return (bitwise.get_u8 data off)).
  { intros A ? l off v Hnd Hv. rewrite (list_index_lookup l _ v Hnd Hv).
    f_equal. pose proof (get_u8_range data off). lia. }
  assert (Eu8 : ∀ off, 0 ≤ off < 65536 →
            bitwise.set_u8 data off (bitwise.get_u8 data off) = data).
  { intros off Hoff. apply set_u8_same. lia. }
  assert (Eduplex : dict_get DUPLEX_REV dx = Return (mem_duplex data _mem)).
  { apply dict_get_Some. exact (DUPLEX_inverse _ _ Edx). }
  assert (Edx_same : bitwise.set_bits data (_mem + 6) 4 0
                       (mem_duplex data _mem) = data).
  { apply set_bits_same; [apply list_elem_of_In; simpl; tauto|unfold _mem; lia]. }
  assert (Eoffset : bitwise.set_ul32 data (_mem + 11)
                      (mem_offset data _mem) = data).
  { apply set_ul32_same. unfold _mem. lia. }
  assert (Emode : dict_get MODES_REV md = Return (mem_mode data _mem)).
  { apply dict_get_Some. exact (MODES_inverse _ _ Emd). }
  unfold mem_rtone, mem_ctone, mem_dtcs, mem_cross_mode, mem_mode,
    flag_skip in *.
  unfold set_memory. run_fields.
  rewrite THD72_SPECIAL_max_eq. rewrite decide_False by lia.
  rewrite decide_False by lia.
  unfold flag_element. rewrite element_in_range by lia. fold flag.
  exec. rewrite Hd. rewrite bool_decide_eq_false_2 by lia.
  rewrite Hnew. exec.
  unfold memory_element. rewrite element_in_range by lia. fold _mem.
  exec. rewrite Eflag, Efreq.
  unfold set_channel_name. cbv zeta.
  rewrite !(decide_True (P := n < 999)) by lia.
  unfold channel_name_element. rewrite element_in_range by lia.
  exec. rewrite Ename.
  rewrite Etmode. exec. rewrite Etm_same.
  rewrite (Eindex _ _ _ _ _ Htones Ert). exec. rewrite Eu8 by (unfold _mem; lia).
  rewrite (Eindex _ _ _ _ _ Htones Ect). exec. rewrite Eu8 by (unfold _mem; lia).
  rewrite (Eindex _ _ _ _ _ Hdtcs Edc). exec. rewrite Eu8 by (unfold _mem; lia).
  rewrite (Eindex _ _ _ _ _ Hcross Ecm). exec. rewrite Eu8 by (unfold _mem; lia).
  rewrite Eduplex. exec. rewrite Edx_same, Eoffset.
  rewrite Emode. exec. rewrite Eu8 by (unfold _mem; lia).
  rewrite (Eindex _ _ _ _ _ Hskip Esk). exec.
  split; [reflexivity|]. cbn [_mmap]. apply Eu8. unfold flag. lia.
Qed.


(** ** Reading a field after a write *)

Lemma get_u8_set_u8_ne data off off' v :
  0 ≤ off → 0 ≤ off' → off ≠ off' →
  bitwise.get_u8 (bitwise.set_u8 data off v) off' = bitwise.get_u8 data off'.
Proof.
  intros H1 H2 Hne. unfold bitwise.get_u8, bitwise.set_u8.
  rewrite list_lookup_insert_ne by lia. reflexivity.
Qed.

Lemma get_u8_set_u8_eq data off v :
  0 ≤ off < Z.of_nat (length data) →
  bitwise.get_u8 (bitwise.set_u8 data off v) off = Z.land v 0xFF.
Proof.
  intros Hoff. unfold bitwise.get_u8, bitwise.set_u8.
  rewrite list_lookup_insert_eq by lia. cbn [default].
  apply ord_chr. change 0xFF with (Z.ones 8). rewrite Z.land_ones by lia.
  apply Z.mod_pos_bound. lia.
Qed.

Lemma get_u8_set_bits_ne data off off' nbits shift v :
  0 ≤ off → 0 ≤ off' → off ≠ off' →
  bitwise.get_u8 (bitwise.set_bits data off nbits shift v) off'
  = bitwise.get_u8 data off'.
Proof. intros. unfold bitwise.set_bits. by apply get_u8_set_u8_ne. Qed.

Lemma get_u8_set_ul32_outside data off off' v :
  0 ≤ off → 0 ≤ off' → off' < off ∨ off + 3 < off' →
  bitwise.get_u8 (bitwise.set_ul32 data off v) off' = bitwise.get_u8 data off'.
Proof.
  intros H1 H2 Hout. unfold bitwise.set_ul32. cbv zeta.
  rewrite !get_u8_set_u8_ne by lia. reflexivity.
Qed.

Lemma get_u8_set_chars_outside data off off' s :
  0 ≤ off → 0 ≤ off' →
  off' < off ∨ off + Z.of_nat (length s) ≤ off' →
  bitwise.get_u8 (bitwise.set_chars data off s) off' = bitwise.get_u8 data off'.
Proof.
  intros H1 H2 Hout. unfold bitwise.get_u8.
  rewrite set_chars_lookup_outside by lia. reflexivity.
Qed.

Lemma length_set_bits data off nbits shift v :
  length (bitwise.set_bits data off nbits shift v) = length data.
Proof. apply length_insert. Qed.

Lemma length_set_ul32 data off v :
  length (bitwise.set_ul32 data off v) = length data.
Proof. unfold bitwise.set_ul32. cbv zeta. by rewrite !length_set_u8. Qed.

Lemma get_ul32_set_ul32 data off v :
  0 ≤ off ∧ off + 3 < Z.of_nat (length data) →
  bitwise.get_ul32 (bitwise.set_ul32 data off v) off = v `mod` 4294967296.
Proof.
  intros Hoff. unfold bitwise.get_ul32, bitwise.set_ul32. cbv zeta.
  set (w := Z.land v 4294967295).
  assert (Hw : w = v `mod` 4294967296).
  { unfold w. change 4294967295 with (Z.ones 32).
    rewrite Z.land_ones by lia. reflexivity. }
  rewrite (get_u8_set_u8_ne _ (off + 3) off) by lia.
  rewrite (get_u8_set_u8_ne _ (off + 2) off) by lia.
  rewrite (get_u8_set_u8_ne _ (off + 1) off) by lia.
  rewrite get_u8_set_u8_eq by lia.
  rewrite (get_u8_set_u8_ne _ (off + 3) (off + 1)) by lia.
  rewrite (get_u8_set_u8_ne _ (off + 2) (off + 1)) by lia.
  rewrite get_u8_set_u8_eq by (rewrite !length_set_u8; lia).
  rewrite (get_u8_set_u8_ne _ (off + 3) (off + 2)) by lia.
  rewrite get_u8_set_u8_eq by (rewrite !length_set_u8; lia).
  rewrite get_u8_set_u8_eq by (rewrite !length_set_u8; lia).
  change 255 with (Z.ones 8).
  rewrite !Z.land_ones, !Z.shiftr_div_pow2 by lia.
  change (2 ^ 8) with 256. change (2 ^ 16) with 65536.
  change (2 ^ 24) with 16777216.
  rewrite Hw. Z.div_mod_to_equations. lia.
Qed.

Lemma get_bits_set_bits_same c v :
  v ∈ [0; 1; 2; 4; 8; 0x7f] →
  (v < 16 →
   bitwise.extract_bits
     (Z.land (bitwise.insert_bits (Py.ord c) 4 4 v) 0xFF) 4 4 = v
   ∧ bitwise.extract_bits
       (Z.land (bitwise.insert_bits (Py.ord c) 4 4 v) 0xFF) 4 0
     = bitwise.extract_bits (Py.ord c) 4 0
   ∧ bitwise.extract_bits
       (Z.land (bitwise.insert_bits (Py.ord c) 4 0 v) 0xFF) 4 0 = v
   ∧ bitwise.extract_bits
       (Z.land (bitwise.insert_bits (Py.ord c) 4 0 v) 0xFF) 4 4
     = bitwise.extract_bits (Py.ord c) 4 4)
  ∧ bitwise.extract_bits
      (Z.land (bitwise.insert_bits (Py.ord c) 7 1 v) 0xFF) 7 1 = v
  ∧ bitwise.extract_bits
      (Z.land (bitwise.insert_bits (Py.ord c) 7 1 v) 0xFF) 1 0
    = bitwise.extract_bits (Py.ord c) 1 0.
Proof.
  intros Hv. apply list_elem_of_In in Hv. simpl in Hv.
  destruct c as [[] [] [] [] [] [] [] []];
    destruct Hv as [<-|[<-|[<-|[<-|[<-|[<-|[]]]]]]];
    vm_compute; repeat split; try reflexivity; try (intros; discriminate).
Qed.


(** ** Deleting a slot *)

Lemma get_bits_set_bits_7_1 data off v :
  v ∈ [0; 0x7f] →
  0 ≤ off < Z.of_nat (length data) →
  bitwise.get_bits (bitwise.set_bits data off 7 1 v) off 7 1 = v
  ∧ bitwise.get_bits (bitwise.set_bits data off 7 1 v) off 1 0
    = bitwise.get_bits data off 1 0.
Proof.
  intros Hv Hoff. destruct (lookup_in_image data off Hoff) as [c Hc].
  unfold bitwise.get_bits, bitwise.set_bits.
  rewrite get_u8_set_u8_eq by done. rewrite (get_u8_lookup _ _ _ Hc).
  assert (Hv' : v ∈ [0; 1; 2; 4; 8; 0x7f]).
  { apply list_elem_of_In in Hv. apply list_elem_of_In. simpl in *. tauto. }
  destruct (get_bits_set_bits_same c v Hv') as (_ & H1 & H2). by split.
Qed.

Lemma set_bits_lookup_ne data off nbits shift v (i : nat) :
  i ≠ Z.to_nat off →
  bitwise.set_bits data off nbits shift v !! i = data !! i.
Proof.
  intros Hi. unfold bitwise.set_bits, bitwise.set_u8.
  by apply list_lookup_insert_ne.
Qed.

Lemma set_memory_empty self mem :
  empty mem = true →
  0 ≤ number mem ≤ 1031 → ¬ (number mem >= 1020 ∧ number mem < 1030) →
  set_memory mem self =
    (Return tt,
     with_mmap (λ data, bitwise.set_bits data (0x0c00 + 2 * number mem)
                          7 1 0x7f)
       (with_dirty_blocks (mark (0x0c00 + 2 * number mem)) self)).
Proof.
  intros He Hn Hwx. unfold set_memory. rewrite THD72_SPECIAL_max_eq.
  rewrite decide_False by lia. rewrite decide_False by exact Hwx.
  unfold flag_element. rewrite element_in_range by lia.
  rewrite bind_lift_Return. unfold add_dirty_block. rewrite bind_modify.
  rewrite bind_gets. rewrite He. reflexivity.
Qed.

(** Marking a slot empty: set_memory of a channel with the empty mark, for
    a slot 0..1031 outside the weather range, returns; it sets disabled to
    0x7F and keeps the other bit of that byte and every other byte of the
    image; it marks the block of the flag record dirty; and get_memory of
    the slot then returns a channel marked empty. *)
Theorem set_memory_empty_then_get self mem :
  empty mem = true →
  0 ≤ number mem ≤ 1031 → ¬ (1020 ≤ number mem ≤ 1029) →
  Z.of_nat (length (_mmap self)) = _memsize →
  let flag := 0x0c00 + 2 * number mem in
  ∃ self' got,
    set_memory mem self = (Return tt, self')
    ∧ flag_disabled (_mmap self') flag = 0x7f
    ∧ flag_unknown0 (_mmap self') flag = flag_unknown0 (_mmap self) flag
    ∧ (∀ i : nat, Z.of_nat i ≠ flag → _mmap self' !! i = _mmap self !! i)
    ∧ _dirty_blocks self' = mark flag (_dirty_blocks self)
    ∧ get_memory self' (Num (number mem)) = Return got
    ∧ empty got = true ∧ number got = number mem.
Proof.
  intros He Hn Hwx Hlen flag. unfold _memsize in Hlen.
  destruct self as [data dirty p sf rep]. cbn [_mmap] in Hlen.
  destruct (get_bits_set_bits_7_1 data flag 0x7f) as [Hdis Hunk].
  { apply list_elem_of_In. simpl. tauto. }
  { unfold flag. lia. }
  pose proof (get_memory_empty
                (mkRadio (bitwise.set_bits data flag 7 1 0x7f)
                   (mark flag dirty) p sf rep) (number mem)
                ltac:(lia) Hdis) as Eget.
  eexists. eexists. split; [apply set_memory_empty; [done|lia|lia]|].
  unfold with_mmap, with_dirty_blocks. cbn [_mmap _dirty_blocks pipe status_fn reported].
  fold flag. split_and!; try first [exact Hdis|exact Hunk|exact Eget|reflexivity].
  - intros i Hi. apply set_bits_lookup_ne. lia.
  - by case_decide.
Qed.


(** ** Codes outside the tables *)

Lemma dict_get_None `{Countable K} {V} (d : gmap K V) k :
  d !! k = None → dict_get d k = Raise KeyError.
Proof. intros E. unfold dict_get. by rewrite E. Qed.

Lemma list_get_None {A} (l : list A) i :
  0 ≤ i → l !! Z.to_nat i = None → list_get l i = Raise IndexError.
Proof.
  intros Hi E. unfold list_get, Py.item. rewrite decide_True by done.
  by rewrite E.
Qed.

Local Ltac decode_dict d k E :=
  destruct (d !! k) as [?|] eqn:E;
  [rewrite (dict_get_Some _ _ _ E)|rewrite (dict_get_None _ _ E)];
  cbn [mbind outcome_bind].

Local Ltac decode_list l data off E :=
  destruct (l !! Z.to_nat (bitwise.get_u8 data off)) as [?|] eqn:E;
  [rewrite (list_get_Some l _ _ (proj1 (get_u8_range data off)) E)
  |rewrite (list_get_None l _ (proj1 (get_u8_range data off)) E)];
  cbn [mbind outcome_bind].

Local Ltac codes_known H :=
  destruct H as (_ & _ & _ & ? & ? & ?);
  split_and!; first [eexists; reflexivity | assumption].

Local Ltac undecodable :=
  split; [intros (Hc & Ho & Hs)|intros _].

Lemma get_memory_decode_cases self n :
  0 ≤ n ≤ 1031 →
  flag_disabled (_mmap self) (0x0c00 + 2 * n) ≠ 0x7f →
  (decodable (_mmap self) n →
   ∃ mem, get_memory self (Num n) = Return mem ∧ number mem = n
          ∧ empty mem = empty Memory_new)
  ∧ (¬ decodable (_mmap self) n →
     get_memory self (Num n) = Raise KeyError
     ∨ get_memory self (Num n) = Raise IndexError).
Proof.
  intros Hn Hd.
  destruct (get_channel_name_Return self n) as [nm Enm]; [lia|].
  unfold get_memory. cbn [mbind outcome_bind].
  unfold decodable, codes_in_tables, mem_rtone, mem_ctone, mem_dtcs,
    mem_cross_mode, flag_skip.
  rewrite THD72_SPECIAL_max_eq. rewrite decide_False by lia.
  unfold memory_element, flag_element.
  rewrite !element_in_range by lia. cbn [mbind outcome_bind].
  set (data := _mmap self) in *. set (_mem := 0x1500 + 16 * n) in *.
  set (flag := 0x0c00 + 2 * n) in *.
  assert (Hext : ∃ m0 : Memory tone,
            (if decide (n > 999)
             then extd ← dict_get THD72_SPECIAL_REV n;
                  Return (with_extd_number extd (with_number n Memory_new))
             else Return (with_number n Memory_new)) = Return m0
            ∧ number m0 = n ∧ empty m0 = empty Memory_new).
  { case_decide.
    - destruct (proj2 (special_rev_is_Some n)) as [k Hk]; [lia|].
      rewrite (dict_get_Some _ _ _ Hk). clear Hk.
      eexists. split_and!; reflexivity.
    - eexists. split_and!; reflexivity. }
  destruct Hext as (m0 & -> & Hnum & Hemp). cbn [mbind outcome_bind].
  rewrite decide_False by exact Hd.
  rewrite Enm. cbn [mbind outcome_bind].
  decode_dict TMODES (mem_tone_mode data _mem) Etm; [|split; [intros ((Hx & _) & _); destruct Hx as [? Hx]; congruence|left; reflexivity]].
  decode_list TONES data (_mem + 7) Ert;
    [|split; [intros ((_ & _ & _ & Hx & _) & _);
              apply lookup_ge_None in Ert;
              pose proof (get_u8_range data (_mem + 7)); lia|right; reflexivity]].
  decode_list TONES data (_mem + 8) Ect;
    [|split; [intros ((_ & _ & _ & _ & Hx & _) & _);
              apply lookup_ge_None in Ect;
              pose proof (get_u8_range data (_mem + 8)); lia|right; reflexivity]].
  decode_list DTCS_CODES data (_mem + 9) Edc;
    [|split; [intros ((_ & _ & _ & _ & _ & Hx) & _);
              apply lookup_ge_None in Edc;
              pose proof (get_u8_range data (_mem + 9)); lia|right; reflexivity]].
  decode_dict DUPLEX (mem_duplex data _mem) Edx; [|split; [intros ((_ & Hx & _) & _); destruct Hx as [? Hx]; congruence|left; reflexivity]].
  decode_dict MODES (mem_mode data _mem) Emd;
    [|split; [intros ((_ & _ & Hx & _) & _); destruct Hx as [? Hx]; congruence|left; reflexivity]].
  assert (Hcodes : is_Some (TMODES !! mem_tone_mode data _mem)
     ∧ is_Some (DUPLEX !! mem_duplex data _mem)
     ∧ is_Some (MODES !! mem_mode data _mem)
     ∧ bitwise.get_u8 data (_mem + 7) < Z.of_nat (length TONES)
     ∧ bitwise.get_u8 data (_mem + 8) < Z.of_nat (length TONES)
     ∧ bitwise.get_u8 data (_mem + 9) < Z.of_nat (length DTCS_CODES)).
  { apply lookup_lt_Some in Ert, Ect, Edc.
    pose proof (get_u8_range data (_mem + 7)).
    pose proof (get_u8_range data (_mem + 8)).
    pose proof (get_u8_range data (_mem + 9)).
    split_and!; try (eexists; eassumption); lia. }
  destruct (decide (n < 999)) as [Hord|Hord].
  - decode_list SKIP_VALUES data (flag + 1) Esk;
      [|split; [intros (_ & Hx & _); destruct (Hx Hord) as [_ Hx'];
                apply lookup_ge_None in Esk;
                pose proof (get_u8_range data (flag + 1)); lia|right; reflexivity]].
    decode_list CROSS_MODES data (_mem + 10) Ecm;
      [|split; [intros (_ & Hx & _); destruct (Hx Hord) as [Hx' _];
                apply lookup_ge_None in Ecm;
                pose proof (get_u8_range data (_mem + 10)); lia|right; reflexivity]].
    rewrite decide_False by lia. cbn [mbind outcome_bind].
    split; [intros _; eexists; split_and!; first [reflexivity|assumption]|].
    intros Hnot. destruct Hnot. split; [codes_known Hcodes|].
    split; [|intros; lia].
    intros _. apply lookup_lt_Some in Esk, Ecm.
    pose proof (get_u8_range data (flag + 1)).
    pose proof (get_u8_range data (_mem + 10)). lia.
  - cbn [mbind outcome_bind]. destruct (decide (n > 999)) as [Hsp|Hsp].
    + unfold list_get at 1. unfold Py.item. rewrite decide_True by lia.
      change (Z.to_nat 0) with 0%nat.
      destruct CROSS_MODES as [|cm0 cms] eqn:Ecms; cbn [lookup list_lookup mbind outcome_bind].
      * split; [intros (_ & _ & Hx); destruct (Hx Hsp); reflexivity|right; reflexivity].
      * split; [intros _; case_decide; eexists; split_and!; first [reflexivity|assumption]|].
        intros Hnot. destruct Hnot.
        split; [codes_known Hcodes|]. split; [intros; lia|intros; discriminate].
    + split; [intros _; eexists; split_and!; first [reflexivity|assumption]|].
      intros Hnot. destruct Hnot. split; [codes_known Hcodes|].
      split; intros; lia.
Qed.

Lemma decodable_dec data n : Decision (decodable data n).
Proof. unfold decodable, codes_in_tables. apply _. Qed.

(** get_memory of a slot in use returns exactly when its raw codes are in
    the tables; otherwise it raises KeyError (tone mode, duplex, mode) or
    IndexError (tones, DTCS, skip, cross mode). *)
Theorem get_memory_decodes_iff self n :
  0 ≤ n ≤ 1031 →
  flag_disabled (_mmap self) (0x0c00 + 2 * n) ≠ 0x7f →
  (decodable (_mmap self) n ↔ ∃ mem, get_memory self (Num n) = Return mem)
  ∧ (¬ decodable (_mmap self) n →
     get_memory self (Num n) = Raise KeyError
     ∨ get_memory self (Num n) = Raise IndexError).
Proof.
  intros Hn Hd. destruct (get_memory_decode_cases self n Hn Hd) as [Hok Hbad].
  split; [|exact Hbad]. split.
  - intros Hdec. destruct (Hok Hdec) as (mem & E & _). by exists mem.
  - intros [mem E]. destruct (decodable_dec (_mmap self) n) as [Hdec|Hdec];
      [exact Hdec|].
    destruct (Hbad Hdec) as [E'|E']; rewrite E in E'; discriminate.
Qed.


(** ** Special locations by name *)

(** get_memory of a special-location name is get_memory of its slot
    number, which is in 1000..1031, and the channel it returns carries
    that number and that name as its extended identifier; any other
    string is rejected with InvalidMemoryLocation, whatever the image
    holds. *)
Theorem get_memory_by_name self s :
  (∀ n, THD72_SPECIAL !! s = Some n →
        1000 ≤ n ≤ 1031
        ∧ get_memory self (Name s) = get_memory self (Num n)
        ∧ ∀ mem, get_memory self (Name s) = Return mem →
                 number mem = n ∧ extd_number mem = s)
  ∧ (THD72_SPECIAL !! s = None →
     get_memory self (Name s)
     = Raise (InvalidMemoryLocation ("Unknown channel " +:+ s))).
Proof.
  split.
  - intros n Hs.
    assert (Hrev : THD72_SPECIAL_REV !! n = Some s) by by apply special_forward.
    assert (Hn : 1000 ≤ n ≤ 1031).
    { apply special_rev_is_Some. by exists s. }
    assert (Hnum : get_memory self (Name s) = get_memory self (Num n)).
    { unfold get_memory. by rewrite Hs. }
    clear Hs. split_and!; [lia|lia|exact Hnum|].
    intros mem. rewrite Hnum. clear Hnum. intros E.
    destruct (decide (flag_disabled (_mmap self) (0x0c00 + 2 * n) = 0x7f))
      as [Hd|Hd].
    + rewrite get_memory_empty in E by (lia || exact Hd).
      rewrite decide_True in E by lia. rewrite Hrev in E.
      injection E as <-. split; reflexivity.
    + destruct (decodable_dec (_mmap self) n) as [Hdec|Hdec].
      * destruct Hdec as (Hcodes & _ & Hcm).
        destruct (get_memory_special self n Hn Hd Hcodes (Hcm ltac:(lia)))
          as (mem' & E' & Hnum & _ & Hext & _).
        rewrite E in E'. injection E' as <-. split; [exact Hnum|].
        rewrite Hrev in Hext. by injection Hext.
      * destruct (get_memory_decode_cases self n ltac:(lia) Hd) as [_ Hraise].
        destruct (Hraise Hdec) as [E'|E']; rewrite E in E'; discriminate.
  - intros Hs. unfold get_memory. by rewrite Hs.
Qed.


(** ** Names *)

Lemma name_field_take name :
  name_field name
  = take 8 (Py.chars name)
    ++ replicate (8 - length (take 8 (Py.chars name))) xff.
Proof.
  unfold name_field, Py.slice.
  change (Z.to_nat (8 - 0)) with 8%nat. change (Z.to_nat 0) with 0%nat.
  rewrite !drop_0. set (label := take 8 (Py.chars name)).
  assert (length label ≤ 8)%nat by (unfold label; rewrite length_take; lia).
  rewrite take_app_ge by lia. f_equal.
  rewrite take_replicate. f_equal. lia.
Qed.

Lemma get_channel_name_field self n rec label :
  (n < 999 ∧ channel_name_element n = Return rec)
  ∨ (n >= 1020 ∧ n < 1030 ∧ wx_name_element (n - 1020) = Return rec) →
  bitwise.get_chars (_mmap self) rec 8
  = label ++ replicate (8 - length label) xff →
  xff ∉ label →
  get_channel_name self n = Return (Py.str (Py.rstrip label)).
Proof.
  intros Hrec Hfield Hff. unfold get_channel_name.
  assert (Hcut :
    (i ← match Py.index xff
                 (bitwise.get_chars (_mmap self) rec 8 ++ [xff]) with
         | Some i => Return i
         | None => Raise ValueError
         end;
     Return (Py.str (Py.rstrip (Py.slice
       (bitwise.get_chars (_mmap self) rec 8 ++ [xff]) 0 i))))
    = Return (Py.str (Py.rstrip label))).
  { rewrite Hfield.
    rewrite <- (assoc_L (++)), <- replicate_S_end, replicate_S.
    rewrite index_first by done. cbn [mbind outcome_bind].
    unfold Py.slice. rewrite Z.sub_0_r, Nat2Z.id.
    change (Z.to_nat 0) with 0%nat. by rewrite drop_0, take_app_length. }
  destruct Hrec as [[Hn E]|(Hn1 & Hn2 & E)].
  - rewrite decide_True by lia. rewrite E. cbn [mbind outcome_bind].
    exact Hcut.
  - rewrite decide_False by lia. rewrite decide_True by lia. rewrite E.
    cbn [mbind outcome_bind]. exact Hcut.
Qed.

(** A name goes in and comes out: for an ordinary or a weather slot,
    set_channel_name followed by get_channel_name returns the name cut to
    eight characters and stripped of trailing whitespace (the first eight
    characters having no 0xFF among them); for slot 999, the scan-limit
    slots 1000..1019 and the slots from 1030 on, set_channel_name does
    nothing at all and get_channel_name returns the empty string. *)
Theorem set_get_channel_name self n name :
  Z.of_nat (length (_mmap self)) = _memsize →
  let label := take 8 (Py.chars name) in
  ((0 ≤ n < 999 ∨ 1020 ≤ n ≤ 1029) → xff ∉ label →
   ∃ self',
     set_channel_name n name self = (Return tt, self')
     ∧ get_channel_name self' n = Return (Py.str (Py.rstrip label)))
  ∧ (999 ≤ n < 1020 ∨ 1030 ≤ n →
     set_channel_name n name self = (Return tt, self)
     ∧ get_channel_name self n = Return "").
Proof.
  intros Hlen label. unfold _memsize in Hlen. split.
  - intros Hn Hff. unfold set_channel_name. cbv zeta.
    destruct (decide (n < 999)) as [Hord|Hord].
    + unfold channel_name_element at 1. rewrite element_in_range by lia.
      exec. eexists. split; [reflexivity|].
      apply (get_channel_name_field _ n (0x5e00 + 8 * n) label); [| |exact Hff].
      * left. split; [lia|]. unfold channel_name_element.
        apply element_in_range. lia.
      * cbn [_mmap]. unfold label. rewrite <- name_field_take.
        rewrite <- (get_chars_set_chars (_mmap self) (0x5e00 + 8 * n)
                      (name_field name)) at 2.
        -- by rewrite name_field_length.
        -- lia.
        -- rewrite name_field_length. lia.
    + rewrite decide_True by lia.
      unfold wx_name_element at 1. rewrite element_in_range by lia.
      exec. eexists. split; [reflexivity|].
      apply (get_channel_name_field _ n (0x7de0 + 8 * (n - 1020)) label);
        [| |exact Hff].
      * right. split_and!; [lia|lia|]. unfold wx_name_element.
        apply element_in_range. lia.
      * cbn [_mmap]. unfold label. rewrite <- name_field_take.
        rewrite <- (get_chars_set_chars (_mmap self)
                      (0x7de0 + 8 * (n - 1020)) (name_field name)) at 2.
        -- by rewrite name_field_length.
        -- lia.
        -- rewrite name_field_length. lia.
  - intros Hn. unfold set_channel_name, get_channel_name. cbv zeta.
    rewrite !(decide_False (P := n < 999)) by lia.
    rewrite !(decide_False (P := n >= 1020 ∧ n < 1030)) by lia.
    split; reflexivity.
Qed.


(** ** Fields that a write leaves alone *)

Lemma get_bits_set_u8_ne data off off' v nbits shift :
  0 ≤ off → 0 ≤ off' → off ≠ off' →
  bitwise.get_bits (bitwise.set_u8 data off v) off' nbits shift
  = bitwise.get_bits data off' nbits shift.
Proof. intros. unfold bitwise.get_bits. by rewrite get_u8_set_u8_ne. Qed.

Lemma get_bits_set_bits_ne data off off' nb sh v nbits shift :
  0 ≤ off → 0 ≤ off' → off ≠ off' →
  bitwise.get_bits (bitwise.set_bits data off nb sh v) off' nbits shift
  = bitwise.get_bits data off' nbits shift.
Proof. intros. unfold bitwise.get_bits. by rewrite get_u8_set_bits_ne. Qed.

Lemma get_bits_set_ul32_outside data off off' v nbits shift :
  0 ≤ off → 0 ≤ off' → off' < off ∨ off + 3 < off' →
  bitwise.get_bits (bitwise.set_ul32 data off v) off' nbits shift
  = bitwise.get_bits data off' nbits shift.
Proof.
  intros. unfold bitwise.get_bits. by rewrite get_u8_set_ul32_outside.
Qed.

Lemma get_bits_set_chars_outside data off off' s nbits shift :
  0 ≤ off → 0 ≤ off' →
  off' < off ∨ off + Z.of_nat (length s) ≤ off' →
  bitwise.get_bits (bitwise.set_chars data off s) off' nbits shift
  = bitwise.get_bits data off' nbits shift.
Proof.
  intros. unfold bitwise.get_bits. by rewrite get_u8_set_chars_outside.
Qed.

Lemma get_ul32_set_u8_outside data off off' v :
  0 ≤ off → 0 ≤ off' → off < off' ∨ off' + 3 < off →
  bitwise.get_ul32 (bitwise.set_u8 data off v) off' = bitwise.get_ul32 data off'.
Proof.
  intros. unfold bitwise.get_ul32. by rewrite !get_u8_set_u8_ne by lia.
Qed.

Lemma get_ul32_set_bits_outside data off off' nb sh v :
  0 ≤ off → 0 ≤ off' → off < off' ∨ off' + 3 < off →
  bitwise.get_ul32 (bitwise.set_bits data off nb sh v) off'
  = bitwise.get_ul32 data off'.
Proof. intros. unfold bitwise.set_bits. by apply get_ul32_set_u8_outside. Qed.

Lemma get_ul32_set_ul32_outside data off off' v :
  0 ≤ off → 0 ≤ off' → off + 3 < off' ∨ off' + 3 < off →
  bitwise.get_ul32 (bitwise.set_ul32 data off v) off'
  = bitwise.get_ul32 data off'.
Proof.
  intros. unfold bitwise.get_ul32.
  by rewrite !get_u8_set_ul32_outside by lia.
Qed.

Lemma get_ul32_set_chars_outside data off off' s :
  0 ≤ off → 0 ≤ off' →
  off' + 3 < off ∨ off + Z.of_nat (length s) ≤ off' →
  bitwise.get_ul32 (bitwise.set_chars data off s) off'
  = bitwise.get_ul32 data off'.
Proof.
  intros. unfold bitwise.get_ul32.
  by rewrite !get_u8_set_chars_outside by lia.
Qed.

Lemma get_chars_set_u8_outside data off off' v n :
  0 ≤ off → 0 ≤ off' → off < off' ∨ off' + n ≤ off →
  bitwise.get_chars (bitwise.set_u8 data off v) off' n
  = bitwise.get_chars data off' n.
Proof.
  intros H1 H2 Hout. apply get_chars_agree; [done|]. intros i Hi.
  unfold bitwise.set_u8. apply list_lookup_insert_ne. lia.
Qed.

Lemma get_chars_set_bits_outside data off off' nb sh v n :
  0 ≤ off → 0 ≤ off' → off < off' ∨ off' + n ≤ off →
  bitwise.get_chars (bitwise.set_bits data off nb sh v) off' n
  = bitwise.get_chars data off' n.
Proof. intros. unfold bitwise.set_bits. by apply get_chars_set_u8_outside. Qed.

Lemma get_chars_set_ul32_outside data off off' v n :
  0 ≤ off → 0 ≤ off' → off + 3 < off' ∨ off' + n ≤ off →
  bitwise.get_chars (bitwise.set_ul32 data off v) off' n
  = bitwise.get_chars data off' n.
Proof.
  intros. unfold bitwise.set_ul32. cbv zeta.
  by rewrite !get_chars_set_u8_outside by lia.
Qed.

Lemma length_set_chars_le data off s :
  length (bitwise.set_chars data off s) = length data.
Proof. apply set_chars_length. Qed.

(** What a bit field reads after a write to its own byte. *)
Lemma get_bits_set_bits_nibbles data off v :
  v ∈ [0; 1; 2; 4; 8] →
  0 ≤ off < Z.of_nat (length data) →
  bitwise.get_bits (bitwise.set_bits data off 4 4 v) off 4 4 = v
  ∧ bitwise.get_bits (bitwise.set_bits data off 4 4 v) off 4 0
    = bitwise.get_bits data off 4 0
  ∧ bitwise.get_bits (bitwise.set_bits data off 4 0 v) off 4 0 = v
  ∧ bitwise.get_bits (bitwise.set_bits data off 4 0 v) off 4 4
    = bitwise.get_bits data off 4 4.
Proof.
  intros Hv Hoff. destruct (lookup_in_image data off Hoff) as [c Hc].
  unfold bitwise.get_bits, bitwise.set_bits.
  rewrite !get_u8_set_u8_eq by done. rewrite (get_u8_lookup _ _ _ Hc).
  assert (Hv' : v ∈ [0; 1; 2; 4; 8; 0x7f]).
  { apply list_elem_of_In in Hv. apply list_elem_of_In. simpl in *. tauto. }
  assert (Hlt : v < 16).
  { apply list_elem_of_In in Hv. simpl in Hv. lia. }
  destruct (get_bits_set_bits_same c v Hv') as (H & _). exact (H Hlt).
Qed.


(** ** Writing a channel and reading it back *)

Lemma list_index_elem_of `{EqDecision A} (l : list A) x :
  x ∈ l →
  ∃ i : nat, list_index l x = Return (Z.of_nat i) ∧ l !! i = Some x.
Proof.
  intros Hx.
  destruct (list_find_elem_of (λ y, y = x) l x Hx eq_refl) as [[i y] Hi].
  exists i. unfold list_index, Py.index. rewrite Hi. split; [done|].
  apply list_find_Some in Hi as (Hl & -> & _). exact Hl.
Qed.

Lemma TMODES_REV_inverse :
  map_Forall (λ s code, TMODES !! code = Some s ∧ code ∈ [0; 1; 2; 4; 8])
    TMODES_REV.
Proof. apply (bool_decide_unpack _). vm_compute. exact I. Qed.

Lemma DUPLEX_REV_inverse :
  map_Forall (λ s code, DUPLEX !! code = Some s ∧ code ∈ [0; 1; 2; 4; 8])
    DUPLEX_REV.
Proof. apply (bool_decide_unpack _). vm_compute. exact I. Qed.

Lemma MODES_REV_inverse :
  map_Forall (λ s code, MODES !! code = Some s ∧ 0 ≤ code < 256) MODES_REV.
Proof. apply (bool_decide_unpack _). vm_compute. exact I. Qed.

Lemma land_255_small v : 0 ≤ v < 256 → Z.land v 0xFF = v.
Proof.
  intros Hv. change 0xFF with (Z.ones 8). rewrite Z.land_ones by lia.
  apply Z.mod_small. lia.
Qed.


(** The state [set_memory] leaves for an ordinary slot and a channel that
    is not marked empty, once its lookups are known to succeed. *)
Lemma set_memory_ordinary d db p sf rp mem tmv dxv mdv irt ict idc icm isk :
  0 ≤ number mem < 999 → empty mem = false →
  TMODES_REV !! tmode mem = Some tmv →
  DUPLEX_REV !! duplex mem = Some dxv →
  MODES_REV !! mode mem = Some mdv →
  list_index TONES (rtone mem) = Return irt →
  list_index TONES (ctone mem) = Return ict →
  list_index DTCS_CODES (dtcs mem) = Return idc →
  list_index CROSS_MODES (cross_mode mem) = Return icm →
  list_index SKIP_VALUES (skip mem) = Return isk →
  let flag := 0x0c00 + 2 * number mem in
  let _mem := 0x1500 + 16 * number mem in
  let d1 := bitwise.set_bits d flag 7 1 0 in
  let d2 := if bool_decide (flag_disabled d flag = 0x7f)
            then bitwise.set_chars d1 _mem
                   (Py.chr <$> [0x80; 0xc8; 0xb3; 0x08; 0x00; 0x01; 0x00; 0x08;
                                0x08; 0x00; 0xc0; 0x27; 0x09; 0x00; 0x00; 0xff])
            else d1 in
  let d3 := bitwise.set_ul32 d2 _mem (freq mem) in
  let d4 := bitwise.set_chars d3 (0x5e00 + 8 * number mem)
              (name_field (name mem)) in
  let d5 := bitwise.set_bits d4 (_mem + 6) 4 4 tmv in
  let d6 := bitwise.set_u8 d5 (_mem + 7) irt in
  let d7 := bitwise.set_u8 d6 (_mem + 8) ict in
  let d8 := bitwise.set_u8 d7 (_mem + 9) idc in
  let d9 := bitwise.set_u8 d8 (_mem + 10) icm in
  let d10 := bitwise.set_bits d9 (_mem + 6) 4 0 dxv in
  let d11 := bitwise.set_ul32 d10 (_mem + 11) (offset mem) in
  let d12 := bitwise.set_u8 d11 (_mem + 5) mdv in
  let d13 := bitwise.set_u8 d12 (flag + 1) isk in
  set_memory mem (mkRadio d db p sf rp)
  = (Return tt,
     mkRadio d13
       (mark (0x5e00 + 8 * number mem) (mark _mem (mark flag db))) p sf rp).
Proof.
  intros Hn He Htm Hdx Hmd Hrt Hct Hdc Hcm Hsk. cbv zeta.
  unfold set_memory.
  rewrite THD72_SPECIAL_max_eq. rewrite decide_False by lia.
  rewrite decide_False by lia.
  unfold flag_element. rewrite element_in_range by lia.
  exec. rewrite He.
  unfold memory_element. rewrite element_in_range by lia.
  unfold set_channel_name. cbv zeta.
  rewrite !(decide_True (P := number mem < 999)) by lia.
  unfold channel_name_element. rewrite element_in_range by lia.
  rewrite (dict_get_Some _ _ _ Htm), (dict_get_Some _ _ _ Hdx),
    (dict_get_Some _ _ _ Hmd), Hrt, Hct, Hdc, Hcm, Hsk.
  destruct (bool_decide (flag_disabled d (3072 + 2 * number mem) = 127));
    reflexivity.
Qed.


Local Ltac side :=
  first [ lia
        | rewrite ?name_field_length; cbn [length fmap list_fmap]; lia ].

Local Ltac peel :=
  repeat first
    [ rewrite get_u8_set_u8_ne by side
    | rewrite get_u8_set_bits_ne by side
    | rewrite get_u8_set_ul32_outside by side
    | rewrite get_u8_set_chars_outside by side
    | rewrite get_bits_set_u8_ne by side
    | rewrite get_bits_set_bits_ne by side
    | rewrite get_bits_set_ul32_outside by side
    | rewrite get_bits_set_chars_outside by side
    | rewrite get_ul32_set_u8_outside by side
    | rewrite get_ul32_set_bits_outside by side
    | rewrite get_ul32_set_ul32_outside by side
    | rewrite get_ul32_set_chars_outside by side
    | rewrite get_chars_set_u8_outside by side
    | rewrite get_chars_set_bits_outside by side
    | rewrite get_chars_set_ul32_outside by side ].

Local Ltac lengths :=
  repeat first
    [ rewrite length_set_u8 | rewrite length_set_bits
    | rewrite length_set_ul32 | rewrite set_chars_length ].

Lemma get_bits_hi_set_lo data off v :
  v ∈ [0; 1; 2; 4; 8] →
  0 ≤ off < Z.of_nat (length data) →
  bitwise.get_bits (bitwise.set_bits data off 4 0 v) off 4 4
  = bitwise.get_bits data off 4 4.
Proof.
  intros Hv Hoff.
  exact (proj2 (proj2 (proj2 (get_bits_set_bits_nibbles data off v Hv Hoff)))).
Qed.

Lemma get_bits_hi_set_hi data off v :
  v ∈ [0; 1; 2; 4; 8] →
  0 ≤ off < Z.of_nat (length data) →
  bitwise.get_bits (bitwise.set_bits data off 4 4 v) off 4 4 = v.
Proof.
  intros Hv Hoff.
  exact (proj1 (get_bits_set_bits_nibbles data off v Hv Hoff)).
Qed.

Lemma get_bits_lo_set_lo data off v :
  v ∈ [0; 1; 2; 4; 8] →
  0 ≤ off < Z.of_nat (length data) →
  bitwise.get_bits (bitwise.set_bits data off 4 0 v) off 4 0 = v.
Proof.
  intros Hv Hoff.
  exact (proj1 (proj2 (proj2 (get_bits_set_bits_nibbles data off v Hv Hoff)))).
Qed.

(** Writing a channel and reading it back: for an ordinary slot and a
    channel that is not marked empty, whose tone mode, duplex and mode are
    keys of the reverse tables, whose tones, DTCS code, cross mode and skip
    value are in chirp_common's tables (of at most 256 entries), whose
    frequency and offset fit 32 bits and whose name has no 0xFF in its first
    eight characters, set_memory returns, and get_memory of the slot then
    returns a channel with the same frequency, tone mode, tones, DTCS code,
    cross mode, duplex, offset, mode and skip value, and with the name cut
    to eight characters and stripped of trailing whitespace; and this
    whether the slot was empty before or not. *)
Theorem set_memory_then_get self mem :
  Z.of_nat (length (_mmap self)) = _memsize →
  0 ≤ number mem < 999 → empty mem = false →
  is_Some (TMODES_REV !! tmode mem) →
  is_Some (DUPLEX_REV !! duplex mem) →
  is_Some (MODES_REV !! mode mem) →
  rtone mem ∈ TONES → ctone mem ∈ TONES → (length TONES ≤ 256)%nat →
  dtcs mem ∈ DTCS_CODES → (length DTCS_CODES ≤ 256)%nat →
  cross_mode mem ∈ CROSS_MODES → (length CROSS_MODES ≤ 256)%nat →
  skip mem ∈ SKIP_VALUES → (length SKIP_VALUES ≤ 256)%nat →
  0 ≤ freq mem < 4294967296 → 0 ≤ offset mem < 4294967296 →
  xff ∉ take 8 (Py.chars (name mem)) →
  ∃ self' got,
    set_memory mem self = (Return tt, self')
    ∧ get_memory self' (Num (number mem)) = Return got
    ∧ number got = number mem
    ∧ freq got = freq mem ∧ offset got = offset mem
    ∧ tmode got = tmode mem ∧ duplex got = duplex mem ∧ mode got = mode mem
    ∧ rtone got = rtone mem ∧ ctone got = ctone mem ∧ dtcs got = dtcs mem
    ∧ cross_mode got = cross_mode mem ∧ skip got = skip mem
    ∧ name got = Py.str (Py.rstrip (take 8 (Py.chars (name mem)))).
Proof.
  intros Hlen Hn He [tmv Htm] [dxv Hdx] [mdv Hmd] Hrt Hct Hlt Hdc Hld Hcm Hlc
    Hsk Hls Hfreq Hoff Hname.
  unfold _memsize in Hlen.
  destruct self as [d db p sf rp]. cbn [_mmap] in Hlen.
  destruct (list_index_elem_of TONES _ Hrt) as (irt & Eirt & Lrt).
  destruct (list_index_elem_of TONES _ Hct) as (ict & Eict & Lct).
  destruct (list_index_elem_of DTCS_CODES _ Hdc) as (idc & Eidc & Ldc).
  destruct (list_index_elem_of CROSS_MODES _ Hcm) as (icm & Eicm & Lcm).
  destruct (list_index_elem_of SKIP_VALUES _ Hsk) as (isk & Eisk & Lsk).
  pose proof (lookup_lt_Some _ _ _ Lrt). pose proof (lookup_lt_Some _ _ _ Lct).
  pose proof (lookup_lt_Some _ _ _ Ldc). pose proof (lookup_lt_Some _ _ _ Lcm).
  pose proof (lookup_lt_Some _ _ _ Lsk).
  destruct (TMODES_REV_inverse _ _ Htm) as [Htm' Htmv].
  destruct (DUPLEX_REV_inverse _ _ Hdx) as [Hdx' Hdxv].
  destruct (MODES_REV_inverse _ _ Hmd) as [Hmd' Hmdv].
  pose proof (set_memory_ordinary d db p sf rp mem tmv dxv mdv _ _ _ _ _
                Hn He Htm Hdx Hmd Eirt Eict Eidc Eicm Eisk) as Eset.
  cbv zeta in Eset.
  set (n := number mem) in *.
  set (w := bool_decide (flag_disabled d (3072 + 2 * n) = 127)) in *.
  match type of Eset with
  | _ = (_, mkRadio ?img ?dirty _ _ _) =>
      set (final := img) in *; set (dirty' := dirty) in *
  end.
  eexists. eexists. split; [exact Eset|].
  (* what the fields read in the image that was written *)
  assert (Fdis : flag_disabled final (3072 + 2 * n) = 0).
  { unfold final, flag_disabled. peel.
    destruct w; peel; apply get_bits_set_bits_7_1;
      first [lia | apply list_elem_of_here]. }
  assert (Ffreq : mem_freq final (5376 + 16 * n) = freq mem).
  { unfold final, mem_freq. peel.
    rewrite get_ul32_set_ul32 by (destruct w; lengths; lia).
    apply Z.mod_small. lia. }
  assert (Foff : mem_offset final (5376 + 16 * n) = offset mem).
  { unfold final, mem_offset. peel.
    rewrite get_ul32_set_ul32 by (destruct w; lengths; lia).
    apply Z.mod_small. lia. }
  assert (Ftm : mem_tone_mode final (5376 + 16 * n) = tmv).
  { unfold final, mem_tone_mode. peel.
    rewrite get_bits_hi_set_lo
      by first [exact Hdxv | destruct w; lengths; lia].
    peel.
    apply get_bits_hi_set_hi; [exact Htmv|destruct w; lengths; lia]. }
  assert (Fdx : mem_duplex final (5376 + 16 * n) = dxv).
  { unfold final, mem_duplex. peel.
    apply get_bits_lo_set_lo; [exact Hdxv|destruct w; lengths; lia]. }
  assert (Fmd : mem_mode final (5376 + 16 * n) = mdv).
  { unfold final, mem_mode. peel.
    rewrite get_u8_set_u8_eq by (destruct w; lengths; lia).
    apply land_255_small. lia. }
  assert (Frt : mem_rtone final (5376 + 16 * n) = Z.of_nat irt).
  { unfold final, mem_rtone. peel.
    rewrite get_u8_set_u8_eq by (destruct w; lengths; lia).
    apply land_255_small. lia. }
  assert (Fct : mem_ctone final (5376 + 16 * n) = Z.of_nat ict).
  { unfold final, mem_ctone. peel.
    rewrite get_u8_set_u8_eq by (destruct w; lengths; lia).
    apply land_255_small. lia. }
  assert (Fdc : mem_dtcs final (5376 + 16 * n) = Z.of_nat idc).
  { unfold final, mem_dtcs. peel.
    rewrite get_u8_set_u8_eq by (destruct w; lengths; lia).
    apply land_255_small. lia. }
  assert (Fcm : mem_cross_mode final (5376 + 16 * n) = Z.of_nat icm).
  { unfold final, mem_cross_mode. peel.
    rewrite get_u8_set_u8_eq by (destruct w; lengths; lia).
    apply land_255_small. lia. }
  assert (Fsk : flag_skip final (3072 + 2 * n) = Z.of_nat isk).
  { unfold final, flag_skip. peel.
    rewrite get_u8_set_u8_eq by (destruct w; lengths; lia).
    apply land_255_small. lia. }
  assert (Fname : bitwise.get_chars final (24064 + 8 * n) 8
                  = name_field (name mem)).
  { unfold final. peel.
    match goal with
    | |- bitwise.get_chars (bitwise.set_chars ?D ?o ?s) _ _ = _ =>
        pose proof (get_chars_set_chars D o s) as G
    end.
    rewrite name_field_length in G. apply G; [lia|].
    destruct w; lengths; lia. }
  clearbody final dirty'.
  destruct (get_memory_ordinary (mkRadio final dirty' p sf rp) n Hn) as
    (nm & tm & rt & ct & dc & dx & md & sk & cm & Enm & Etm & Ert & Ect
     & Edc & Edx & Emd & Esk & Ecm & Eget).
  { cbn [_mmap]. rewrite Fdis. lia. }
  { cbn [_mmap]. unfold ordinary_codes_in_tables, codes_in_tables.
    rewrite Ftm, Fdx, Fmd, Frt, Fct, Fdc, Fcm, Fsk.
    split_and!; first [eexists; eassumption | lia]. }
  cbn [_mmap] in *.
  rewrite Ftm, Htm' in Etm. rewrite Fdx, Hdx' in Edx.
  rewrite Fmd, Hmd' in Emd.
  rewrite Frt, Nat2Z.id, Lrt in Ert. rewrite Fct, Nat2Z.id, Lct in Ect.
  rewrite Fdc, Nat2Z.id, Ldc in Edc. rewrite Fcm, Nat2Z.id, Lcm in Ecm.
  rewrite Fsk, Nat2Z.id, Lsk in Esk.
  injection Etm as <-. injection Edx as <-. injection Emd as <-.
  injection Ert as <-. injection Ect as <-. injection Edc as <-.
  injection Ecm as <-. injection Esk as <-.
  rewrite (get_channel_name_field (mkRadio final dirty' p sf rp) n
             (24064 + 8 * n) (take 8 (Py.chars (name mem)))) in Enm.
  - injection Enm as <-. split; [exact Eget|].
    rewrite Ffreq, Foff. split_and!; reflexivity.
  - left. split; [lia|]. unfold channel_name_element.
    apply element_in_range. lia.
  - cbn [_mmap]. rewrite Fname. apply name_field_take.
  - exact Hname.
Qed.


(** ** What a write leaves alone *)

Lemma writes_within_bind {A B} region (m : M A) (f : A → M B) :
  writes_within region m → (∀ a, writes_within region (f a)) →
  writes_within region (m ≫= f).
Proof.
  intros Hm Hf self i Hi. unfold mbind, M_bind.
  specialize (Hm self i Hi).
  destruct (m self) as [[a|e|] self1]; cbn [snd] in *; [|exact Hm..].
  rewrite <- Hm. apply Hf. exact Hi.
Qed.

Lemma writes_within_lift {A} region (o : outcome A) :
  writes_within region (lift o).
Proof. intros self i _. reflexivity. Qed.

Lemma writes_within_lift_Return {A B} region (a : A) (f : A → M B) :
  writes_within region (f a) → writes_within region (lift (Return a) ≫= f).
Proof. intros Hf self i Hi. apply Hf. exact Hi. Qed.

Lemma writes_within_lift_Raise {A B} region e (f : A → M B) :
  writes_within region (lift (Raise e) ≫= f).
Proof. intros self i _. reflexivity. Qed.

Lemma writes_within_raise {A} region e :
  writes_within region (raise (A := A) e).
Proof. intros self i _. reflexivity. Qed.

Lemma writes_within_mret {A} region (a : A) : writes_within region (mret a).
Proof. intros self i _. reflexivity. Qed.

Lemma writes_within_gets {A} region (f : THD72Radio → A) :
  writes_within region (gets f).
Proof. intros self i _. reflexivity. Qed.

Lemma writes_within_add_dirty_block region off :
  writes_within region (add_dirty_block off).
Proof. intros self i _. reflexivity. Qed.

Lemma writes_within_poke (region : Z → Prop) f :
  (∀ data (i : nat), ¬ region (Z.of_nat i) → f data !! i = data !! i) →
  writes_within region (poke f).
Proof. intros Hf self i Hi. cbn. apply Hf. exact Hi. Qed.

Lemma set_u8_lookup_ne data off v (i : nat) :
  i ≠ Z.to_nat off → bitwise.set_u8 data off v !! i = data !! i.
Proof. intros Hi. unfold bitwise.set_u8. by apply list_lookup_insert_ne. Qed.

Lemma set_ul32_lookup_outside data off v (i : nat) :
  0 ≤ off → ¬ (off ≤ Z.of_nat i < off + 4) →
  bitwise.set_ul32 data off v !! i = data !! i.
Proof.
  intros Hoff Hi. unfold bitwise.set_ul32. cbv zeta.
  rewrite !set_u8_lookup_ne by lia. reflexivity.
Qed.

Local Ltac outside Hi :=
  first
    [ apply set_bits_lookup_ne; unfold slot_bytes in Hi; lia
    | apply set_u8_lookup_ne; unfold slot_bytes in Hi; lia
    | apply set_ul32_lookup_outside; unfold slot_bytes in Hi; lia
    | apply set_chars_lookup_outside;
      [lia|rewrite ?name_field_length; cbn [length fmap list_fmap];
           unfold slot_bytes in Hi; lia] ].

Lemma writes_within_set_channel_name n name :
  0 ≤ n → writes_within (slot_bytes n) (set_channel_name n name).
Proof.
  intros Hpos. unfold set_channel_name. cbv zeta.
  case_decide as Hn.
  - unfold channel_name_element. rewrite element_in_range by lia.
    apply writes_within_lift_Return.
    apply writes_within_bind; [|intros ?; apply writes_within_add_dirty_block].
    apply writes_within_poke. intros data i Hi. outside Hi.
  - case_decide as Hw; [|apply writes_within_mret].
    unfold wx_name_element. rewrite element_in_range by lia.
    apply writes_within_lift_Return.
    apply writes_within_bind; [|intros ?; apply writes_within_add_dirty_block].
    apply writes_within_poke. intros data i Hi. outside Hi.
Qed.

Lemma set_memory_writes_within mem :
  writes_within (slot_bytes (number mem)) (set_memory mem).
Proof.
  unfold set_memory. rewrite THD72_SPECIAL_max_eq.
  case_decide as Hr; [apply writes_within_raise|].
  case_decide as Hw; [apply writes_within_set_channel_name; lia|].
  unfold flag_element, memory_element.
  destruct (decide (number mem = 1032)) as [E|E].
  { rewrite !element_out_of_range by lia. apply writes_within_lift_Raise. }
  rewrite !element_in_range by lia.
  apply writes_within_lift_Return.
  apply writes_within_bind; [apply writes_within_add_dirty_block|intros _].
  apply writes_within_bind; [apply writes_within_gets|intros was_empty].
  destruct (empty mem).
  { apply writes_within_poke. intros data i Hi. outside Hi. }
  apply writes_within_bind;
    [apply writes_within_poke; intros data i Hi; outside Hi|intros _].
  apply writes_within_lift_Return.
  apply writes_within_bind; [apply writes_within_add_dirty_block|intros _].
  apply writes_within_bind.
  { destruct was_empty; [|apply writes_within_mret].
    apply writes_within_poke. intros data i Hi. outside Hi. }
  intros _.
  apply writes_within_bind;
    [apply writes_within_poke; intros data i Hi; outside Hi|intros _].
  apply writes_within_bind.
  { case_decide; [apply writes_within_set_channel_name; lia
                 |apply writes_within_mret]. }
  intros _.
  repeat first
    [ apply writes_within_bind; [|intros ?]
    | apply writes_within_lift
    | apply writes_within_mret
    | case_decide
    | apply writes_within_poke; intros data i Hi; outside Hi ].
Qed.

Lemma get_u8_agree (data data' : list ascii) off :
  data' !! Z.to_nat off = data !! Z.to_nat off →
  bitwise.get_u8 data' off = bitwise.get_u8 data off.
Proof. intros E. unfold bitwise.get_u8. by rewrite E. Qed.

Lemma get_memory_agree self self' n :
  0 ≤ n ≤ 1031 →
  (∀ i : nat, slot_bytes n (Z.of_nat i) → _mmap self' !! i = _mmap self !! i) →
  get_memory self' (Num n) = get_memory self (Num n).
Proof.
  intros Hn Hagree.
  assert (Hu8 : ∀ off, slot_bytes n off → 0 ≤ off →
            bitwise.get_u8 (_mmap self') off = bitwise.get_u8 (_mmap self) off).
  { intros off Hs Hoff. apply get_u8_agree, Hagree.
    by rewrite Z2Nat.id by done. }
  assert (Hname : get_channel_name self' n = get_channel_name self n).
  { unfold get_channel_name. cbv zeta. case_decide as Hlt.
    - unfold channel_name_element. rewrite element_in_range by lia.
      cbn [mbind outcome_bind].
      rewrite (get_chars_agree (_mmap self) (_mmap self')); [done|lia|].
      intros i Hi. apply Hagree. unfold slot_bytes. lia.
    - case_decide as Hw; [|done].
      unfold wx_name_element. rewrite element_in_range by lia.
      cbn [mbind outcome_bind].
      rewrite (get_chars_agree (_mmap self) (_mmap self')); [done|lia|].
      intros i Hi. apply Hagree. unfold slot_bytes. lia. }
  assert (Hbits : ∀ off nbits shift, slot_bytes n off → 0 ≤ off →
            bitwise.get_bits (_mmap self') off nbits shift
            = bitwise.get_bits (_mmap self) off nbits shift).
  { intros off nbits shift Hs Hoff. unfold bitwise.get_bits.
    by rewrite Hu8. }
  assert (Hul32 : ∀ off, 0 ≤ off →
            slot_bytes n off → slot_bytes n (off + 3) →
            slot_bytes n (off + 1) → slot_bytes n (off + 2) →
            bitwise.get_ul32 (_mmap self') off
            = bitwise.get_ul32 (_mmap self) off).
  { intros off Hoff H0 H3 H1 H2. unfold bitwise.get_ul32.
    rewrite !Hu8 by first [assumption|lia]. reflexivity. }
  unfold get_memory. cbn [mbind outcome_bind].
  rewrite THD72_SPECIAL_max_eq.
  destruct (decide (n < 0 ∨ n > 1031 + 1)) as [?|_]; [lia|].
  unfold memory_element, flag_element.
  rewrite !element_in_range by lia. cbn [mbind outcome_bind].
  rewrite Hname.
  unfold flag_disabled, flag_skip, mem_freq, mem_mode, mem_tone_mode,
    mem_duplex, mem_rtone, mem_ctone, mem_dtcs, mem_cross_mode, mem_offset.
  rewrite !Hbits by (unfold slot_bytes; lia).
  rewrite !Hul32 by (unfold slot_bytes; lia).
  rewrite !Hu8 by (unfold slot_bytes; lia).
  reflexivity.
Qed.

(** Writing one slot leaves every other slot as it reads: whatever
    set_memory does with a channel, and whether it returns or raises,
    get_memory of any other slot of 0..1031 gives afterwards what it gave
    before. *)
Theorem set_memory_keeps_other_slots self mem n :
  0 ≤ n ≤ 1031 → n ≠ number mem →
  get_memory (set_memory mem self).2 (Num n) = get_memory self (Num n).
Proof.
  intros Hn Hne.
  destruct (decide (0 ≤ number mem ≤ 1031)) as [Hm|Hm].
  - apply get_memory_agree; [exact Hn|]. intros i Hi.
    apply set_memory_writes_within. unfold slot_bytes in *. lia.
  - assert (E : (set_memory mem self).2 = self); [|by rewrite E].
    unfold set_memory. rewrite THD72_SPECIAL_max_eq.
    case_decide as Hr; [reflexivity|].
    rewrite decide_False by lia.
    unfold flag_element. rewrite element_out_of_range by lia. reflexivity.
Qed.


(** ** Which blocks a write marks *)

Lemma marks_within_bind {A B} region (m : M A) (f : A → M B) :
  marks_within region m → (∀ a, marks_within region (f a)) →
  marks_within region (m ≫= f).
Proof.
  intros Hm Hf self b. unfold mbind, M_bind.
  specialize (Hm self b).
  destruct (m self) as [[a|e|] self1]; cbn [snd] in *; [|exact Hm..].
  destruct Hm as [Hm1 Hm2]. destruct (Hf a self1 b) as [Hf1 Hf2].
  split; [tauto|]. intros Hb. destruct (Hf2 Hb) as [?|?]; tauto.
Qed.

Lemma marks_within_same {A} region (m : M A) :
  (∀ self, _dirty_blocks (m self).2 = _dirty_blocks self) →
  marks_within region m.
Proof. intros Hm self b. rewrite Hm. tauto. Qed.

Lemma marks_within_lift_Return {A B} region (a : A) (f : A → M B) :
  marks_within region (f a) → marks_within region (lift (Return a) ≫= f).
Proof. intros Hf self b. apply Hf. Qed.

Lemma marks_within_add_dirty_block (region : Z → Prop) off :
  region off → marks_within region (add_dirty_block off).
Proof.
  intros Hoff self b. cbn. rewrite mark_elem_of. split; [tauto|].
  intros [?| ->]; [by left|]. right. by exists off.
Qed.

Local Ltac unmarked := apply marks_within_same; intros ?; reflexivity.

Lemma marks_within_set_channel_name n name :
  0 ≤ n → marks_within (slot_bytes n) (set_channel_name n name).
Proof.
  intros Hpos. unfold set_channel_name. cbv zeta.
  case_decide as Hn.
  - unfold channel_name_element. rewrite element_in_range by lia.
    apply marks_within_lift_Return.
    apply marks_within_bind; [unmarked|intros _].
    apply marks_within_add_dirty_block. unfold slot_bytes. lia.
  - case_decide as Hw; [|unmarked].
    unfold wx_name_element. rewrite element_in_range by lia.
    apply marks_within_lift_Return.
    apply marks_within_bind; [unmarked|intros _].
    apply marks_within_add_dirty_block. unfold slot_bytes. lia.
Qed.

Lemma set_memory_marks_within mem :
  marks_within (slot_bytes (number mem)) (set_memory mem).
Proof.
  unfold set_memory. rewrite THD72_SPECIAL_max_eq.
  case_decide as Hr; [unmarked|].
  case_decide as Hw; [apply marks_within_set_channel_name; lia|].
  unfold flag_element, memory_element.
  destruct (decide (number mem = 1032)) as [E|E].
  { rewrite !element_out_of_range by lia. unmarked. }
  rewrite !element_in_range by lia.
  apply marks_within_lift_Return.
  apply marks_within_bind;
    [apply marks_within_add_dirty_block; unfold slot_bytes; lia|intros _].
  apply marks_within_bind; [unmarked|intros was_empty].
  destruct (empty mem); [unmarked|].
  apply marks_within_bind; [unmarked|intros _].
  apply marks_within_lift_Return.
  apply marks_within_bind;
    [apply marks_within_add_dirty_block; unfold slot_bytes; lia|intros _].
  apply marks_within_bind; [destruct was_empty; unmarked|intros _].
  apply marks_within_bind; [unmarked|intros _].
  apply marks_within_bind.
  { case_decide; [apply marks_within_set_channel_name; lia|unmarked]. }
  intros _.
  repeat first
    [ apply marks_within_bind; [|intros ?]
    | case_decide
    | unmarked ].
Qed.

(** What set_memory does to the dirty list, whatever the channel and
    whether it returns or raises: no block is taken off the list, and a
    block it adds is one of blocks 12..126, where the flag, channel and
    name records lie; so editing channels never queues blocks 254 and 255,
    which an upload of the whole image leaves out. *)
Theorem set_memory_marks_record_blocks self mem b :
  (b ∈ _dirty_blocks self → b ∈ _dirty_blocks (set_memory mem self).2)
  ∧ (b ∈ _dirty_blocks (set_memory mem self).2 →
     b ∈ _dirty_blocks self ∨ (12 ≤ b ≤ 126 ∧ b ∈ upload_blocks None)).
Proof.
  destruct (decide (0 ≤ number mem ≤ 1031)) as [Hm|Hm].
  - destruct (set_memory_marks_within mem self b) as [H1 H2].
    split; [exact H1|]. intros Hb.
    destruct (H2 Hb) as [?|(off & Hoff & ->)]; [by left|right].
    assert (12 ≤ off `div` 256 ≤ 126)
      by (unfold slot_bytes in Hoff; Z.div_mod_to_equations; lia).
    split; [done|].
    change (upload_blocks None) with (seqZ 0 254).
    apply elem_of_seqZ. lia.
  - assert (E : (set_memory mem self).2 = self); [|rewrite E; tauto].
    unfold set_memory. rewrite THD72_SPECIAL_max_eq.
    case_decide as Hr; [reflexivity|].
    rewrite decide_False by lia.
    unfold flag_element. rewrite element_out_of_range by lia. reflexivity.
Qed.

(** set_memory is not all-or-nothing.  A slot number out of range is
    refused before anything is written; a tone mode that is not a key of
    TMODES_REV is found out only after the slot has been enabled and its
    frequency stored: the call raises KeyError and leaves the slot in use
    with the new frequency, and its flag and channel blocks in the dirty
    list. *)
Theorem set_memory_unknown_tmode self mem :
  Z.of_nat (length (_mmap self)) = _memsize →
  0 ≤ number mem ≤ 1031 → ¬ (1020 ≤ number mem < 1030) →
  empty mem = false →
  TMODES_REV !! tmode mem = None →
  0 ≤ freq mem < 4294967296 →
  ∃ self',
    set_memory mem self = (Raise KeyError, self')
    ∧ flag_disabled (_mmap self') (0x0c00 + 2 * number mem) = 0
    ∧ mem_freq (_mmap self') (0x1500 + 16 * number mem) = freq mem
    ∧ (0x0c00 + 2 * number mem) `div` 256 ∈ _dirty_blocks self'
    ∧ (0x1500 + 16 * number mem) `div` 256 ∈ _dirty_blocks self'.
Proof.
  intros Hlen Hn Hw He Htm Hfreq. unfold _memsize in Hlen.
  destruct self as [d db p sf rp]. cbn [_mmap] in Hlen.
  unfold set_memory.
  rewrite THD72_SPECIAL_max_eq. rewrite decide_False by lia.
  rewrite decide_False by lia.
  unfold flag_element. rewrite element_in_range by lia.
  exec. rewrite He.
  unfold memory_element. rewrite element_in_range by lia.
  unfold set_channel_name. cbv zeta.
  rewrite (dict_get_None _ _ Htm).
  set (n := number mem) in *.
  set (w := bool_decide (flag_disabled d (3072 + 2 * n) = 127)).
  set (d2 := if w
             then bitwise.set_chars (bitwise.set_bits d (3072 + 2 * n) 7 1 0)
                    (5376 + 16 * n)
                    (Py.chr <$> [0x80; 0xc8; 0xb3; 0x08; 0x00; 0x01; 0x00;
                                 0x08; 0x08; 0x00; 0xc0; 0x27; 0x09; 0x00;
                                 0x00; 0xff])
             else bitwise.set_bits d (3072 + 2 * n) 7 1 0).
  assert (Hd2 : Z.of_nat (length d2) = 65536)
    by (unfold d2; destruct w; lengths; exact Hlen).
  assert (Hflag : bitwise.get_bits d2 (3072 + 2 * n) 7 1 = 0).
  { unfold d2. destruct w; peel; apply get_bits_set_bits_7_1;
      first [lia | apply list_elem_of_here]. }
  destruct (decide (n < 999)) as [Hlt|Hge].
  - unfold channel_name_element. rewrite element_in_range by lia.
    exists (mkRadio
              (bitwise.set_chars
                 (bitwise.set_ul32 d2 (5376 + 16 * n) (freq mem))
                 (24064 + 8 * n) (name_field (name mem)))
              (mark (24064 + 8 * n)
                 (mark (5376 + 16 * n) (mark (3072 + 2 * n) db))) p sf rp).
    split; [unfold d2; destruct w; reflexivity|].
    cbn [_mmap _dirty_blocks]. split_and!.
    + unfold flag_disabled. peel. exact Hflag.
    + unfold mem_freq. peel. rewrite get_ul32_set_ul32 by lia.
      apply Z.mod_small. lia.
    + rewrite !mark_elem_of. tauto.
    + rewrite !mark_elem_of. tauto.
  - exists (mkRadio (bitwise.set_ul32 d2 (5376 + 16 * n) (freq mem))
              (mark (5376 + 16 * n) (mark (3072 + 2 * n) db)) p sf rp).
    split; [unfold d2; destruct w; reflexivity|].
    cbn [_mmap _dirty_blocks]. split_and!.
    + unfold flag_disabled. peel. exact Hflag.
    + unfold mem_freq. rewrite get_ul32_set_ul32 by lia.
      apply Z.mod_small. lia.
    + rewrite !mark_elem_of. tauto.
    + rewrite !mark_elem_of. tauto.
Qed.

End driver.

(** * The block transfer protocol *)

Lemma bind_run {A B} (m : M A) (f : A → M B) self a self' :
  m self = (Return a, self') → (m ≫= f) self = f a self'.
Proof. intros E. unfold mbind, M_bind. by rewrite E. Qed.

Lemma bind_Return_inv {A B} (m : M A) (f : A → M B) self b self' :
  (m ≫= f) self = (Return b, self') →
  ∃ a self1, m self = (Return a, self1) ∧ f a self1 = (Return b, self').
Proof.
  unfold mbind, M_bind. destruct (m self) as [[a|e|] self1]; [|done..].
  intros E. by exists a, self1.
Qed.

Lemma read_eq n self :
  Pipe.read n self
  = (Return (Pipe.take_burst n (rx (pipe self))).1,
     with_pipe (λ p, mkSerial (Pipe.take_burst n (rx p)).2 (tx p)
                       (baudrate p) (rts p) (polls p)) self).
Proof.
  unfold Pipe.read, with_pipe. cbv beta zeta.
  by destruct (Pipe.take_burst n (rx (pipe self))).
Qed.

Lemma take_burst_length n bursts :
  0 ≤ n → Z.of_nat (length (Pipe.take_burst n bursts).1) ≤ n.
Proof.
  intros Hn. destruct bursts as [|c rest]; cbn; [lia|].
  case_decide; cbn; [done|]. rewrite length_take. lia.
Qed.

Lemma take_burst_shorter n bursts :
  (length (Pipe.take_burst n bursts).2 ≤ length bursts)%nat.
Proof.
  destruct bursts as [|c rest]; cbn; [lia|]. case_decide; cbn; lia.
Qed.

(** The payload loop returns exactly [count] characters, and touches
    nothing but the receive side of the line. *)
Lemma read_payload_exact fuel count : ∀ data self got self',
  Z.of_nat (length data) ≤ count →
  read_payload fuel count data self = (Return got, self') →
  Z.of_nat (length got) = count
  ∧ tx (pipe self') = tx (pipe self)
  ∧ _mmap self' = _mmap self ∧ _dirty_blocks self' = _dirty_blocks self.
Proof.
  induction fuel as [|fuel IH]; intros data self got self' Hlen; cbn.
  - case_decide; [done|]. intros [= <- <-]. split; [lia|done].
  - case_decide as Hlt; [|intros [= <- <-]; split; [lia|done]].
    rewrite (bind_run _ _ _ _ _ (read_eq _ self)).
    intros E. apply IH in E as (E1 & E2 & E3 & E4); [done|].
    rewrite length_app.
    pose proof (take_burst_length (count - Z.of_nat (length data))
                  (rx (pipe self))). lia.
Qed.

(** When the payload is there in one burst the loop returns it. *)
Lemma read_payload_burst fuel count payload rest self :
  Z.of_nat (length payload) = count → 0 < count →
  rx (pipe self) = payload :: rest →
  read_payload (S fuel) count [] self
  = (Return payload,
     with_pipe (λ p, mkSerial rest (tx p) (baudrate p) (rts p) (polls p))
       self).
Proof.
  intros Hlen Hpos Hrx.
  destruct self as [d db [rx0 tx0 bd rt pl] sf rp]. cbn in Hrx. subst rx0.
  cbn [read_payload]. rewrite decide_True by (cbn; lia).
  rewrite (bind_run _ _ _ _ _ (read_eq _ _)).
  unfold with_pipe. cbn [pipe rx tx baudrate rts polls _mmap _dirty_blocks
    status_fn reported Pipe.take_burst length].
  rewrite decide_True by lia. cbn [fst snd app].
  destruct fuel; cbn [read_payload]; by rewrite decide_False by lia.
Qed.

Lemma struct_pack_ok c h :
  0 ≤ h < 65536 →
  struct_pack_cBHB c 0 h 0
  = Return [c; Py.chr 0; Py.chr (h `mod` 256); Py.chr (h `div` 256); Py.chr 0].
Proof. intros Hh. unfold struct_pack_cBHB. by rewrite decide_True by lia. Qed.

Lemma le16_split (lo hi : ascii) b :
  Py.ord lo + 256 * Py.ord hi = b →
  Py.ord lo = b `mod` 256 ∧ Py.ord hi = b `div` 256.
Proof.
  intros <-. pose proof (ord_range lo). pose proof (ord_range hi).
  split; Z.div_mod_to_equations; lia.
Qed.

Lemma length_5_inv {A} (l : list A) :
  length l = 5%nat → ∃ a b c d e, l = [a; b; c; d; e].
Proof.
  destruct l as [|a [|b [|c [|d [|e [|f l]]]]]]; try done. by eexists _, _, _, _, _.
Qed.

Lemma take_burst_whole n c rest :
  Z.of_nat (length c) ≤ n → Pipe.take_burst n (c :: rest) = (c, rest).
Proof. intros Hc. cbn. by rewrite decide_True. Qed.

Local Ltac step :=
  repeat first
    [ rewrite bind_assoc
    | rewrite bind_lift_Return
    | rewrite bind_modify
    | rewrite bind_gets
    | rewrite bind_mret
    | rewrite (bind_run _ _ _ _ _ (read_eq _ _))
    | progress unfold Pipe.write, Pipe.setBaudrate, Pipe.setRTS, Pipe.getCTS,
        with_mmap, with_dirty_blocks, with_pipe, with_reported
    | progress cbn [_mmap _dirty_blocks pipe status_fn reported
                    rx tx baudrate rts polls] ].

(** The outcome of [read_block] once the request is out and five
    characters [c; b1; lo; hi; b2] came back. *)
Lemma read_block_header d db rx0 tx0 bd rt pl sf rp b :
  0 ≤ b < 65536 →
  let request := ["R"%char; Py.chr 0; Py.chr (b `mod` 256);
                  Py.chr (b `div` 256); Py.chr 0] in
  let header := (Pipe.take_burst 5 rx0).1 in
  let rest := (Pipe.take_burst 5 rx0).2 in
  let self1 := mkRadio d db (mkSerial rest (tx0 ++ request) bd rt pl) sf rp in
  read_block b 256 (mkRadio d db (mkSerial rx0 tx0 bd rt pl) sf rp) =
    if decide (length header ≠ 5%nat) then
      (Raise (Exception "Did not receive block response"), self1)
    else
      ('(cmd, _zero, _block, zero) ← lift (struct_unpack_cBHB header);
       if decide (cmd ≠ "W"%char ∨ _block ≠ b) then
         raise (Exception ("Invalid response: " +:+ String cmd "" +:+ " "
                           +:+ pretty _block))
       else
         data ← read_payload (S (length rest)) 256 [];
         Pipe.write [ACK];;
         ack ← Pipe.read 1;
         if decide (ack ≠ [ACK]) then
           raise (Exception "Did not receive post-block ACK!")
         else mret data) self1.
Proof.
  intros Hb request header rest self1. unfold read_block.
  rewrite struct_pack_ok by done. step.
  fold header rest request. case_decide; [reflexivity|].
  unfold self1. destruct (struct_unpack_cBHB header) as [[[[c z1] blk] z2]| |];
    step; try reflexivity.
  case_decide; [reflexivity|]. step. reflexivity.
Qed.

(** C6 (amended): for a block index b of 16 bits, read_block first writes
    the five characters 'R', 0, the little-endian b, 0 (52 00 05 00 00 for
    b = 5); it goes on to the payload only if the reply is five characters
    of which the first is 'W' and the third and fourth are the
    little-endian b, the second and the fifth being received but not
    compared with zero; any other reply raises; and when it returns, the
    payload it returns is exactly 256 characters, acknowledged by one ACK. *)
Theorem read_block_frame self b :
  0 ≤ b < 65536 →
  let request := ["R"%char; Py.chr 0; Py.chr (b `mod` 256);
                  Py.chr (b `div` 256); Py.chr 0] in
  let header := (Pipe.take_burst 5 (rx (pipe self))).1 in
  Py.ord <$> request = [0x52; 0; b `mod` 256; b `div` 256; 0]
  ∧ (∀ data self',
       read_block b 256 self = (Return data, self') →
       length data = 256%nat
       ∧ (∃ z1 z2,
            Py.ord <$> header = [0x57; z1; b `mod` 256; b `div` 256; z2])
       ∧ tx (pipe self') = tx (pipe self) ++ request ++ [ACK])
  ∧ ((∀ z1 z2,
        Py.ord <$> header ≠ [0x57; z1; b `mod` 256; b `div` 256; z2]) →
     ∃ msg self',
       read_block b 256 self = (Raise (Exception msg), self')
       ∧ tx (pipe self') = tx (pipe self) ++ request)
  ∧ (∀ z1 z2 payload rest,
       0 ≤ z1 < 256 → 0 ≤ z2 < 256 → length payload = 256%nat →
       rx (pipe self)
       = (Py.chr <$> [0x57; z1; b `mod` 256; b `div` 256; z2])
         :: payload :: [ACK] :: rest →
       ∃ self',
         read_block b 256 self = (Return payload, self')
         ∧ rx (pipe self') = rest).
Proof.
  intros Hb request header.
  destruct self as [d db [rx0 tx0 bd rt pl] sf rp].
  cbn [pipe rx tx] in *.
  pose proof (read_block_header d db rx0 tx0 bd rt pl sf rp b Hb) as Hrun.
  cbv zeta in Hrun. fold request header in Hrun.
  split_and!.
  - unfold request. cbn [fmap list_fmap]. change (Py.ord "R"%char) with 0x52.
    rewrite !ord_chr by (Z.div_mod_to_equations; lia). reflexivity.
  - intros data self' E. rewrite Hrun in E.
    case_decide as Hlen; [done|].
    destruct (length_5_inv header) as (c & b1 & lo & hi & b2 & Hh);
      [by destruct (decide (length header = 5%nat))|].
    rewrite Hh in E. cbn [struct_unpack_cBHB] in E.
    rewrite bind_lift_Return in E.
    case_decide as Hcmd; [done|].
    apply bind_Return_inv in E as (got & self2 & Epay & E).
    apply read_payload_exact in Epay as (Hgot & Htx & _); [|cbn; lia].
    revert E. step. case_decide; [done|]. intros [= <- <-].
    split_and!.
    + lia.
    + exists (Py.ord b1), (Py.ord b2). rewrite Hh. cbn [fmap list_fmap].
      destruct (decide (c = "W"%char)) as [->|]; [|tauto].
      destruct (decide (Py.ord lo + 256 * Py.ord hi = b)) as [Eb|]; [|tauto].
      destruct (le16_split lo hi b Eb) as [-> ->]. reflexivity.
    + cbn [pipe tx] in *. rewrite Htx. by rewrite <- (assoc_L (++)).
  - intros Hother. rewrite Hrun.
    case_decide as Hlen; [by eexists _, _|].
    destruct (length_5_inv header) as (c & b1 & lo & hi & b2 & Hh);
      [by destruct (decide (length header = 5%nat))|].
    rewrite Hh. cbn [struct_unpack_cBHB]. rewrite bind_lift_Return.
    case_decide as Hcmd; [by eexists _, _|].
    destruct (Hother (Py.ord b1) (Py.ord b2)).
    rewrite Hh. cbn [fmap list_fmap].
    destruct (decide (c = "W"%char)) as [->|]; [|tauto].
    destruct (decide (Py.ord lo + 256 * Py.ord hi = b)) as [Eb|]; [|tauto].
    destruct (le16_split lo hi b Eb) as [-> ->]. reflexivity.
  - intros z1 z2 payload rest Hz1 Hz2 Hpay Hrx.
    rewrite Hrun. unfold header. rewrite Hrx.
    rewrite take_burst_whole by (cbn; lia). cbn [fst snd].
    rewrite decide_False by (intros ?; done).
    cbn [fmap list_fmap].
    cbn [struct_unpack_cBHB]. rewrite bind_lift_Return.
    change (Py.chr 87) with "W"%char.
    rewrite !ord_chr by (Z.div_mod_to_equations; lia).
    rewrite decide_False
      by (intros [?|?]; [done|Z.div_mod_to_equations; lia]).
    erewrite bind_run;
      [|apply (read_payload_burst _ 256 payload ([ACK] :: rest));
        [lia|lia|reflexivity]].
    step. rewrite take_burst_whole by (cbn; lia).
    cbn [fst snd]. rewrite decide_False by (intros ?; done).
    eexists. split; reflexivity.
Qed.

(** ** Uploads and the dirty list *)

Lemma preserves_bind {A B} (m : M A) (f : A → M B) :
  preserves m → (∀ a, preserves (f a)) → preserves (m ≫= f).
Proof.
  intros Hm Hf self. unfold mbind, M_bind.
  specialize (Hm self). destruct (m self) as [[a|e|] self1]; cbn in *;
    [|done..].
  destruct Hm as [<- <-]. apply Hf.
Qed.

Lemma preserves_lift {A} (o : outcome A) : preserves (lift o).
Proof. by intros self. Qed.
Lemma preserves_raise {A} e : preserves (raise (A := A) e).
Proof. by intros self. Qed.
Lemma preserves_mret {A} (a : A) : preserves (mret a).
Proof. by intros self. Qed.
Lemma preserves_gets {A} (f : THD72Radio → A) : preserves (gets f).
Proof. by intros self. Qed.
Lemma preserves_with_pipe f : preserves (modify (with_pipe f)).
Proof. by intros self. Qed.
Lemma preserves_with_reported f : preserves (modify (with_reported f)).
Proof. by intros self. Qed.
Lemma preserves_read n : preserves (Pipe.read n).
Proof. intros self. by rewrite read_eq. Qed.

Local Ltac preserves_step :=
  first
    [ apply preserves_mret
    | apply preserves_raise
    | apply preserves_lift
    | apply preserves_gets
    | apply preserves_read
    | apply preserves_with_pipe
    | apply preserves_with_reported
    | apply preserves_bind; [|intros ?]
    | case_decide
    | case_match ].

Lemma preserves_command_loop n : ∀ data, preserves (command_loop n data).
Proof.
  induction n as [|n IH]; intros data; cbn [command_loop].
  - repeat preserves_step.
  - destruct (Py.endswith data "013"); [apply preserves_mret|].
    apply preserves_bind; [apply preserves_read|]. intros c. apply IH.
Qed.

Lemma preserves_command cmd : preserves (command cmd).
Proof.
  unfold command, Pipe.write.
  repeat first [ apply preserves_command_loop | preserves_step ].
Qed.

Lemma preserves_write_block i map : preserves (write_block i map).
Proof. unfold write_block, Pipe.write. repeat preserves_step. Qed.

Lemma preserves_upload_loop blocks : ∀ total count,
  preserves (upload_loop blocks total count).
Proof.
  induction blocks as [|i blocks IH]; intros total count; cbn [upload_loop].
  - apply preserves_mret.
  - unfold report.
    repeat first [ apply IH | apply preserves_write_block | preserves_step ].
Qed.

Lemma keeps_on_failure_bind {A B} (m : M A) (f : A → M B) :
  preserves m → (∀ a, keeps_on_failure (f a)) → keeps_on_failure (m ≫= f).
Proof.
  intros Hm Hf self. unfold mbind, M_bind.
  specialize (Hm self). destruct (m self) as [[a|e|] self1]; cbn in *;
    [|done..].
  destruct Hm as [<- <-]. apply Hf.
Qed.

Lemma keeps_on_failure_preserves {A} (m : M A) :
  preserves m → keeps_on_failure m.
Proof. intros Hm self _. apply Hm. Qed.

Lemma keeps_on_failure_modify f : keeps_on_failure (modify f).
Proof. intros self Hfail. by destruct (Hfail tt). Qed.

Lemma upload_keeps_on_failure blocks : keeps_on_failure (upload blocks).
Proof.
  unfold upload. cbv zeta.
  apply keeps_on_failure_bind; [apply preserves_command|]. intros r.
  case_decide; [apply keeps_on_failure_preserves, preserves_raise|].
  unfold Pipe.setBaudrate, Pipe.getCTS, Pipe.setRTS, Pipe.write.
  repeat (apply keeps_on_failure_bind;
          [first [ apply preserves_upload_loop | preserves_step ]|intros ?]).
  apply keeps_on_failure_modify.
Qed.

Lemma preserved_by {A} (m : M A) self a self' :
  preserves m → m self = (Return a, self') →
  _mmap self' = _mmap self ∧ _dirty_blocks self' = _dirty_blocks self.
Proof. intros Hm E. specialize (Hm self). by rewrite E in Hm. Qed.

Lemma upload_on_return blocks self self' :
  upload blocks self = (Return tt, self') →
  _mmap self' = _mmap self
  ∧ _dirty_blocks self'
    = filter (λ b, b ∉ upload_blocks blocks) (_dirty_blocks self).
Proof.
  unfold upload. cbv zeta. intros E.
  apply bind_Return_inv in E as (r & s1 & E1 & E).
  apply preserved_by in E1 as [<- <-]; [|apply preserves_command].
  case_decide; [done|].
  unfold Pipe.setBaudrate, Pipe.getCTS, Pipe.setRTS, Pipe.write in E.
  repeat
    (apply bind_Return_inv in E as (? & ? & E1 & E);
     apply preserved_by in E1 as [<- <-];
     [|first [ apply preserves_upload_loop | preserves_step ]]).
  by injection E as <-.
Qed.

(** C1 (amended): the dirty list is cleared only at the end of an upload
    that went through.  When upload does not return, in particular when
    it raises because write_block got no acknowledgement, the dirty list
    (and the image) is what it was before the call: every dirty block that
    was not written remains in it, and so does every dirty block written
    before the failure.  When upload returns, the dirty list has lost
    exactly the blocks of the uploaded list. *)
Theorem upload_failure_keeps_dirty_list blocks self :
  (∀ e self',
     upload blocks self = (Raise e, self') →
     _dirty_blocks self' = _dirty_blocks self ∧ _mmap self' = _mmap self)
  ∧ (∀ self',
       upload blocks self = (Return tt, self') →
       ∀ b, b ∈ _dirty_blocks self'
            ↔ b ∈ _dirty_blocks self ∧ b ∉ upload_blocks blocks).
Proof.
  split.
  - intros e self' E.
    destruct (upload_keeps_on_failure blocks self) as [Hm Hd].
    + intros a. by rewrite E.
    + rewrite E in Hm, Hd. done.
  - intros self' E b. apply upload_on_return in E as [_ ->].
    rewrite list_elem_of_filter. tauto.
Qed.

(** ** Which blocks an upload writes *)

Lemma upload_blocks_default : upload_blocks None = seqZ 0 254.
Proof. reflexivity. Qed.

Lemma upload_blocks_listed l b :
  b ∈ upload_blocks (Some l) ↔ b ∈ l ∧ b < 256.
Proof.
  unfold upload_blocks. rewrite list_elem_of_filter.
  change (_memsize `div` 256) with 256. tauto.
Qed.

Lemma write_block_acked i map self rest :
  0 ≤ i < 65536 →
  rx (pipe self) = [ACK] :: rest →
  write_block i map self
  = (Return true,
     with_pipe (λ p, mkSerial rest
        (tx p ++ block_on_wire i map) (baudrate p) (rts p) (polls p)) self).
Proof.
  intros Hi Hrx. destruct self as [d db [rx0 tx0 bd rt pl] sf rp].
  cbn in Hrx. subst rx0. unfold write_block.
  rewrite struct_pack_ok by done. step.
  rewrite take_burst_whole by (cbn; lia). cbn [fst snd].
  rewrite bool_decide_eq_true_2 by done.
  unfold block_on_wire. by rewrite <- (assoc_L (++)).
Qed.

Lemma upload_loop_acked blocks : ∀ total count self rest,
  Forall (λ b, 0 ≤ b < 65536) blocks →
  rx (pipe self) = replicate (length blocks) [ACK] ++ rest →
  ∃ self',
    upload_loop blocks total count self = (Return tt, self')
    ∧ tx (pipe self')
      = tx (pipe self) ++ concat ((λ b, block_on_wire b (_mmap self)) <$> blocks)
    ∧ rx (pipe self') = rest
    ∧ polls (pipe self') = polls (pipe self)
    ∧ _mmap self' = _mmap self
    ∧ _dirty_blocks self' = _dirty_blocks self.
Proof.
  induction blocks as [|i blocks IH]; intros total count self rest Hall Hrx.
  - exists self. cbn in *. by rewrite (right_id_L [] (++)).
  - apply Forall_cons in Hall as [Hi Hall]. cbn [upload_loop].
    destruct self as [d db [rx0 tx0 bd rt pl] sf rp].
    cbn [pipe rx tx _mmap _dirty_blocks polls length replicate app] in *.
    subst rx0. rewrite bind_gets.
    erewrite bind_run; [|apply write_block_acked; [exact Hi|reflexivity]].
    cbn [negb]. unfold report. step.
    destruct sf; step.
    + edestruct (IH total (count + 1)) as (self' & E & Htx & Hrx & Hp & Hm & Hd);
        [exact Hall| |rewrite E].
      { cbn [pipe rx]. reflexivity. }
      exists self'. cbn [pipe rx tx _mmap _dirty_blocks polls] in *.
      split_and!; try done.
      rewrite Htx. cbn [fmap list_fmap concat]. by rewrite !(assoc_L (++)).
    + edestruct (IH total (count + 1)) as (self' & E & Htx & Hrx & Hp & Hm & Hd);
        [exact Hall| |rewrite E].
      { cbn [pipe rx]. reflexivity. }
      exists self'. cbn [pipe rx tx _mmap _dirty_blocks polls] in *.
      split_and!; try done.
      rewrite Htx. cbn [fmap list_fmap concat]. by rewrite !(assoc_L (++)).
Qed.

Lemma command_program_acked d db tx0 bd rt k sf rp rest :
  command "0M PROGRAM"
    (mkRadio d db
       (mkSerial (["0"; "M"; "013"]%char :: rest) tx0 bd rt (S (S (S k))))
       sf rp)
  = (Return "0M",
     mkRadio d db
       (mkSerial rest (tx0 ++ Py.chars "0M PROGRAM" ++ ["013"%char]) bd rt
          (S (S (S k))))
       sf rp).
Proof. destruct k; reflexivity. Qed.

Lemma list_get_ends {A} (l : list A) :
  l ≠ [] → (∃ v, list_get l 0 = Return v) ∧ (∃ v, list_get l (-1) = Return v).
Proof.
  intros Hl. split; [by apply list_get_first|].
  unfold list_get, Py.item. rewrite decide_False by lia.
  destruct (lookup_lt_is_Some_2 l (Z.to_nat (Z.of_nat (length l) + -1)))
    as [v Hv].
  - destruct l; [done|]. cbn [length]. lia.
  - rewrite Hv. by exists v.
Qed.

(** An upload to a device that accepts the handshake and acknowledges
    every block: what goes over the line. *)
Lemma upload_acked blocks self x rest k :
  upload_blocks blocks ≠ [] →
  Forall (λ b, 0 ≤ b) (upload_blocks blocks) →
  polls (pipe self) = S (S (S k)) →
  (length x ≤ 1)%nat →
  rx (pipe self)
  = ["0"; "M"; "013"]%char :: x
    :: replicate (length (upload_blocks blocks)) [ACK] ++ rest →
  ∃ self',
    upload blocks self = (Return tt, self')
    ∧ tx (pipe self')
      = tx (pipe self) ++ Py.chars "0M PROGRAM" ++ ["013"%char]
        ++ concat ((λ b, block_on_wire b (_mmap self)) <$> upload_blocks blocks)
        ++ ["E"%char]
    ∧ rx (pipe self') = rest.
Proof.
  intros Hne Hpos Hpolls Hx Hrx.
  destruct self as [d db [rx0 tx0 bd rt pl] sf rp].
  cbn [pipe rx tx polls _mmap] in *. subst rx0 pl.
  destruct (list_get_ends _ Hne) as [[v0 E0] [v1 E1]].
  unfold upload. cbv zeta.
  rewrite (bind_run _ _ _ _ _ (command_program_acked _ _ _ _ _ _ _ _ _)).
  rewrite decide_False by (intros ?; done).
  step. rewrite take_burst_whole by lia. cbn [fst snd].
  rewrite E0, E1. step.
  edestruct (upload_loop_acked (upload_blocks blocks)) as
    (self' & E & Htx & Hrx' & _ & Hm & Hd); [| |erewrite bind_run; [|exact E]].
  - eapply Forall_impl; [|intros b Hb; exact Hb].
    apply Forall_forall. intros b Hb. split.
    + rewrite Forall_forall in Hpos. by apply Hpos.
    + destruct blocks as [l|]; cbn in Hb.
      * apply list_elem_of_filter in Hb as [Hb _].
        change (_memsize `div` 256) with 256 in Hb. lia.
      * apply elem_of_seqZ in Hb. change (_memsize `div` 256 - 2) with 254 in Hb.
        lia.
  - cbn [pipe rx]. reflexivity.
  - step. destruct self' as [d' db' [rx' tx' bd' rt' pl'] sf' rp'].
    cbn [pipe rx tx _mmap _dirty_blocks] in *. subst.
    eexists. split; [reflexivity|]. cbn [pipe rx tx].
    split; [|reflexivity]. by rewrite <- !(assoc_L (++)).
Qed.

Lemma preserves_except {A} (body handler : M A) :
  preserves body → preserves handler →
  preserves (except_RadioError body handler).
Proof.
  intros Hb Hh self. unfold except_RadioError. specialize (Hb self).
  destruct (body self) as [[a|e|] self1]; cbn in *; try done.
  destruct e; try done. destruct Hb as [<- <-]. apply Hh.
Qed.

Lemma preserves_get_id : preserves get_id.
Proof.
  unfold get_id. apply preserves_bind; [apply preserves_command|].
  intros r. repeat preserves_step.
Qed.

Lemma preserves_detect_baud_from bauds : preserves (_detect_baud_from bauds).
Proof.
  induction bauds as [|baud bauds IH]; cbn [_detect_baud_from].
  - apply preserves_raise.
  - unfold Pipe.setBaudrate, Pipe.write.
    repeat first
      [ apply preserves_except; [|exact IH]
      | apply preserves_get_id
      | preserves_step ].
Qed.

Lemma sync_out_dirty self ok self1 :
  _detect_baud self = (Return ok, self1) →
  _dirty_blocks self ≠ [] →
  sync_out self = upload (Some (_dirty_blocks self)) self1
  ∧ _mmap self1 = _mmap self.
Proof.
  intros E Hd. unfold sync_out.
  rewrite (bind_run _ _ _ _ _ E). rewrite bind_gets.
  destruct (preserved_by _ _ _ _ (preserves_detect_baud_from _) E) as [Hm Hdb].
  rewrite Hdb. split; [|exact Hm].
  rewrite decide_True; [reflexivity|].
  destruct (_dirty_blocks self); [done|]. cbn. lia.
Qed.

(** C10: without a block list upload works on blocks 0..253, the last two
    blocks of the image being left out; a supplied list is only filtered
    to the indices below 256, so a listed block 254 or 255 (any listed
    block below 256) is put on the line when the device acknowledges the
    blocks before it; and sync_out with a non-empty dirty list hands that
    list to upload. *)
Theorem listed_blocks_are_not_protected :
  upload_blocks None = seqZ 0 254
  ∧ (∀ b, b ∈ upload_blocks None ↔ 0 ≤ b < 254)
  ∧ (∀ l b, b ∈ upload_blocks (Some l) ↔ b ∈ l ∧ b < 256)
  ∧ (∀ self l x rest k b,
       Forall (λ b, 0 ≤ b) l →
       b ∈ l → b < 256 →
       polls (pipe self) = S (S (S k)) →
       (length x ≤ 1)%nat →
       rx (pipe self)
       = ["0"; "M"; "013"]%char :: x
         :: replicate (length (upload_blocks (Some l))) [ACK] ++ rest →
       ∃ self' before after,
         upload (Some l) self = (Return tt, self')
         ∧ tx (pipe self')
           = before ++ block_on_wire b (_mmap self) ++ after)
  ∧ (∀ self ok self1,
       _detect_baud self = (Return ok, self1) →
       _dirty_blocks self ≠ [] →
       sync_out self = upload (Some (_dirty_blocks self)) self1
       ∧ _mmap self1 = _mmap self).
Proof.
  split_and!.
  - reflexivity.
  - intros b. rewrite upload_blocks_default, elem_of_seqZ. lia.
  - apply upload_blocks_listed.
  - intros self l x rest k b Hpos Hb Hlt Hpolls Hx Hrx.
    assert (Hin : b ∈ upload_blocks (Some l)) by by apply upload_blocks_listed.
    destruct (upload_acked (Some l) self x rest k) as (self' & E & Htx & _);
      try done.
    { intros Hnil. rewrite Hnil in Hin. by apply not_elem_of_nil in Hin. }
    { apply Forall_forall. intros c Hc.
      apply upload_blocks_listed in Hc as [Hc _].
      rewrite Forall_forall in Hpos. by apply Hpos. }
    apply list_elem_of_split in Hin as (l1 & l2 & Hsplit).
    exists self',
      (tx (pipe self) ++ Py.chars "0M PROGRAM" ++ ["013"%char]
       ++ concat ((λ b, block_on_wire b (_mmap self)) <$> l1)),
      (concat ((λ b, block_on_wire b (_mmap self)) <$> l2) ++ ["E"%char]).
    split; [exact E|].
    rewrite Htx, Hsplit, fmap_app, concat_app. cbn [fmap list_fmap concat].
    rewrite <- !app_assoc. reflexivity.
  - apply sync_out_dirty.
Qed.

(** ** Commands and their replies *)

Lemma endswith_snoc (l : list ascii) c d :
  Py.endswith (l ++ [c]) d = bool_decide (c = d).
Proof.
  unfold Py.endswith. rewrite last_snoc.
  apply bool_decide_ext. split; [by intros [= ->]|by intros ->].
Qed.

Lemma read_silent n self :
  rx (pipe self) = [] → Pipe.read n self = (Return [], self).
Proof.
  intros Hrx. destruct self as [d db [rx0 tx0 bd rt pl] sf rp].
  cbn in Hrx. subst rx0. reflexivity.
Qed.

Lemma command_loop_silent polls : ∀ data self,
  rx (pipe self) = [] → command_loop polls data self = (Return data, self).
Proof.
  induction polls as [|polls IH]; intros data self Hrx; cbn [command_loop].
  - by destruct (Py.endswith data "013").
  - destruct (Py.endswith data "013"); [done|].
    rewrite (bind_run _ _ _ _ _ (read_silent 1 self Hrx)).
    rewrite (right_id_L [] (++)). by apply IH.
Qed.

Lemma command_loop_line body : ∀ k data rest d db tx0 bd rt pl sf rp,
  "013"%char ∉ body → Py.endswith data "013" = false →
  (length body < k)%nat →
  command_loop k data
    (mkRadio d db (mkSerial ((body ++ ["013"%char]) :: rest) tx0 bd rt pl)
       sf rp)
  = (Return (data ++ body ++ ["013"%char]),
     mkRadio d db (mkSerial rest tx0 bd rt pl) sf rp).
Proof.
  induction body as [|c body IH];
    intros k data rest d db tx0 bd rt pl sf rp Hcr Hend Hpolls.
  - destruct k as [|k]; [cbn in Hpolls; lia|].
    cbn [command_loop]. rewrite Hend.
    rewrite (bind_run _ _ _ _ _ (read_eq _ _)).
    cbn [pipe rx app]. rewrite take_burst_whole by (cbn; lia).
    cbn [fst snd]. unfold with_pipe. cbn [pipe rx tx baudrate rts polls
      _mmap _dirty_blocks status_fn reported].
    destruct k; cbn [command_loop]; by rewrite endswith_snoc.
  - destruct k as [|k]; [cbn in Hpolls; lia|].
    apply not_elem_of_cons in Hcr as [Hc Hcr].
    cbn [command_loop]. rewrite Hend.
    rewrite (bind_run _ _ _ _ _ (read_eq _ _)).
    cbn [pipe rx tx baudrate rts polls app].
    assert (Hburst : Pipe.take_burst 1 ((c :: body ++ ["013"%char]) :: rest)
                     = ([c], (body ++ ["013"%char]) :: rest)).
    { unfold Pipe.take_burst.
      rewrite decide_False; [reflexivity|].
      cbn [length]. rewrite length_app. cbn [length]. lia. }
    unfold with_pipe. cbn [pipe rx tx baudrate rts polls
      _mmap _dirty_blocks status_fn reported].
    rewrite !Hburst. cbn [fst snd].
    rewrite IH; [|exact Hcr| |cbn in Hpolls; lia].
    + by rewrite <- app_assoc.
    + rewrite endswith_snoc. by apply bool_decide_eq_false_2.
Qed.

Lemma command_line cmd body rest d db tx0 bd rt pl sf rp :
  "013"%char ∉ body → (length body < pl)%nat →
  command cmd
    (mkRadio d db (mkSerial ((body ++ ["013"%char]) :: rest) tx0 bd rt pl)
       sf rp)
  = (Return (Py.str (Py.strip (body ++ ["013"%char]))),
     mkRadio d db
       (mkSerial rest (tx0 ++ Py.chars cmd ++ ["013"%char]) bd rt pl) sf rp).
Proof.
  intros Hcr Hpolls. unfold command. step.
  erewrite bind_run; [|by apply command_loop_line]. reflexivity.
Qed.

Lemma command_silent cmd d db tx0 bd rt pl sf rp :
  command cmd (mkRadio d db (mkSerial [] tx0 bd rt pl) sf rp)
  = (Return "",
     mkRadio d db
       (mkSerial [] (tx0 ++ Py.chars cmd ++ ["013"%char]) bd rt pl) sf rp).
Proof.
  unfold command. step.
  erewrite bind_run; [|by apply command_loop_silent]. reflexivity.
Qed.

(** command writes the command and a carriage return, then reads one
    character at a time.  When the reply line is on the wire and the
    time allows for its characters, the result is that line up to and
    including its carriage return, stripped of surrounding whitespace, and
    nothing behind it has been read; when the line stays silent, the
    result is the empty string. *)
Theorem command_reply self cmd :
  (∀ body rest,
     "013"%char ∉ body → (length body < polls (pipe self))%nat →
     rx (pipe self) = (body ++ ["013"%char]) :: rest →
     ∃ self',
       command cmd self
       = (Return (Py.str (Py.strip (body ++ ["013"%char]))), self')
       ∧ tx (pipe self') = tx (pipe self) ++ Py.chars cmd ++ ["013"%char]
       ∧ rx (pipe self') = rest)
  ∧ (rx (pipe self) = [] →
     ∃ self',
       command cmd self = (Return "", self')
       ∧ tx (pipe self') = tx (pipe self) ++ Py.chars cmd ++ ["013"%char]
       ∧ rx (pipe self') = []).
Proof.
  destruct self as [d db [rx0 tx0 bd rt pl] sf rp].
  cbn [pipe rx tx polls]. split.
  - intros body rest Hcr Hpolls ->.
    eexists. split; [by apply command_line|]. by cbn.
  - intros ->. eexists. split; [apply command_silent|]. by cbn.
Qed.

(** ** Identifying the radio *)

Lemma rstrip_snoc_space l c :
  Ascii.is_space c = true → Py.rstrip (l ++ [c]) = Py.rstrip l.
Proof.
  intros Hc. induction l as [|a l IH]; cbn [app Py.rstrip].
  - by rewrite Hc.
  - by rewrite IH.
Qed.

Lemma rstrip_snoc_nonspace l c :
  Ascii.is_space c = false → Py.rstrip (l ++ [c]) = l ++ [c].
Proof.
  intros Hc. induction l as [|a l IH]; cbn [app Py.rstrip].
  - by rewrite Hc.
  - rewrite IH. destruct (l ++ [c]) eqn:E; [by destruct l|done].
Qed.

Lemma nonempty_snoc {A} (l : list A) :
  l ≠ [] → ∃ l' c, l = l' ++ [c].
Proof.
  induction l as [|c l _] using rev_ind; [done|]. intros _. by exists l, c.
Qed.

Lemma until_space_nonspace l :
  Forall (λ c, Ascii.is_space c = false) l → until_space l = l.
Proof.
  induction 1 as [|c l Hc Hl IH]; cbn [until_space]; [done|].
  rewrite decide_False; [by rewrite IH|]. intros ->. done.
Qed.

Lemma bind_Raise {A B} (m : M A) (f : A → M B) self e self' :
  m self = (Raise e, self') → (m ≫= f) self = (Raise e, self').
Proof. intros E. unfold mbind, M_bind. by rewrite E. Qed.



Lemma get_id_line id rest d db tx0 bd rt pl sf rp :
  id ≠ [] → Forall (λ c, Ascii.is_space c = false) id →
  (length id + 3 < pl)%nat →
  get_id
    (mkRadio d db
       (mkSerial ((Py.chars "ID " ++ id ++ ["013"%char]) :: rest) tx0 bd rt pl)
       sf rp)
  = (Return (Py.str id),
     mkRadio d db
       (mkSerial rest (tx0 ++ Py.chars "ID" ++ ["013"%char]) bd rt pl) sf rp).
Proof.
  intros Hne Hid Hpolls. unfold get_id.
  rewrite (app_assoc (Py.chars "ID ") id ["013"%char]).
  erewrite bind_run; [|apply command_line].
  - assert (Hstrip : Py.strip ((Py.chars "ID " ++ id) ++ ["013"%char])
                     = Py.chars "ID " ++ id).
    { unfold Py.strip. rewrite rstrip_snoc_space by done.
      destruct (nonempty_snoc id Hne) as (id0 & c0 & ->).
      rewrite Forall_app in Hid. destruct Hid as [_ Hc].
      rewrite Forall_singleton in Hc.
      rewrite app_assoc. rewrite rstrip_snoc_nonspace by exact Hc.
      reflexivity. }
    rewrite Hstrip, chars_str.
    change (Py.startswith (Py.chars "ID " ++ id) (Py.chars "ID ")) with true.
    cbn [drop app Py.chars list_ascii_of_string].
    by rewrite until_space_nonspace.
  - rewrite elem_of_app. intros [Hin|Hin].
    + apply list_elem_of_In in Hin. cbn in Hin.
      destruct Hin as [?|[?|[?|[]]]]; done.
    + rewrite Forall_forall in Hid. by specialize (Hid _ Hin).
  - rewrite length_app. cbn. lia.
Qed.

Lemma get_id_silent d db tx0 bd rt pl sf rp :
  get_id (mkRadio d db (mkSerial [] tx0 bd rt pl) sf rp)
  = (Raise (RadioError "No response to ID command"),
     mkRadio d db
       (mkSerial [] (tx0 ++ Py.chars "ID" ++ ["013"%char]) bd rt pl) sf rp).
Proof.
  unfold get_id. rewrite (bind_run _ _ _ _ _ (command_silent _ _ _ _ _ _ _ _ _)).
  reflexivity.
Qed.

(** get_id sends ID and takes the identifier from the reply: for a reply
    line "ID x", x being any non-empty run of characters other than
    whitespace, it returns x; when the line stays silent it raises
    RadioError. *)
Theorem get_id_reply self :
  (∀ id rest,
     id ≠ [] → Forall (λ c, Ascii.is_space c = false) id →
     (length id + 3 < polls (pipe self))%nat →
     rx (pipe self) = (Py.chars "ID " ++ id ++ ["013"%char]) :: rest →
     ∃ self',
       get_id self = (Return (Py.str id), self')
       ∧ tx (pipe self') = tx (pipe self) ++ Py.chars "ID" ++ ["013"%char]
       ∧ rx (pipe self') = rest)
  ∧ (rx (pipe self) = [] →
     ∃ self',
       get_id self = (Raise (RadioError "No response to ID command"), self')
       ∧ tx (pipe self') = tx (pipe self) ++ Py.chars "ID" ++ ["013"%char]).
Proof.
  destruct self as [d db [rx0 tx0 bd rt pl] sf rp].
  cbn [pipe rx tx polls]. split.
  - intros id rest Hne Hid Hpolls ->.
    eexists. split; [by apply get_id_line|]. by cbn.
  - intros ->. eexists. split; [apply get_id_silent|]. by cbn.
Qed.

(** ** Finding the baud rate *)

Lemma command_loop_timeouts k : ∀ data rest d db tx0 bd rt pl sf rp,
  Py.endswith data "013" = false →
  command_loop k data
    (mkRadio d db (mkSerial (replicate k [] ++ rest) tx0 bd rt pl) sf rp)
  = (Return data, mkRadio d db (mkSerial rest tx0 bd rt pl) sf rp).
Proof.
  induction k as [|k IH]; intros data rest d db tx0 bd rt pl sf rp Hend;
    cbn [command_loop replicate app]; rewrite Hend; [reflexivity|].
  rewrite (bind_run _ _ _ _ _ (read_eq _ _)).
  unfold with_pipe. cbn [pipe rx tx baudrate rts polls
    _mmap _dirty_blocks status_fn reported].
  rewrite !take_burst_whole by (cbn; lia). cbn [fst snd].
  rewrite (right_id_L [] (++)). by apply IH.
Qed.

Lemma get_id_timeouts rest d db tx0 bd rt pl sf rp :
  get_id (mkRadio d db (mkSerial (replicate pl [] ++ rest) tx0 bd rt pl) sf rp)
  = (Raise (RadioError "No response to ID command"),
     mkRadio d db
       (mkSerial rest (tx0 ++ Py.chars "ID" ++ ["013"%char]) bd rt pl) sf rp).
Proof.
  unfold get_id, command. step.
  erewrite bind_run; [|by apply command_loop_timeouts]. reflexivity.
Qed.

Lemma detect_baud_from_silent bauds : ∀ d db tx0 bd rt pl sf rp,
  _detect_baud_from bauds (mkRadio d db (mkSerial [] tx0 bd rt pl) sf rp)
  = (Raise (RadioError "No response from radio"),
     mkRadio d db
       (mkSerial []
          (tx0 ++ concat (replicate (length bauds)
                            ["013"; "013"; "I"; "D"; "013"]%char))
          (foldl (λ _ b, b) bd bauds) rt pl) sf rp).
Proof.
  induction bauds as [|baud bauds IH]; intros d db tx0 bd rt pl sf rp;
    cbn [_detect_baud_from length replicate concat].
  - by rewrite (right_id_L [] (++)).
  - step. cbn [Pipe.take_burst fst snd]. unfold except_RadioError.
    erewrite bind_Raise; [|apply get_id_silent].
    rewrite IH. cbn [foldl]. rewrite <- !app_assoc.
    reflexivity.
Qed.

Lemma detect_baud_from_answer quiet :
  ∀ b later id x rest d db tx0 bd rt pl sf rp,
  id ≠ [] → Forall (λ c, Ascii.is_space c = false) id →
  (length id + 3 < pl)%nat → (length x ≤ 32)%nat →
  _detect_baud_from (quiet ++ b :: later)
    (mkRadio d db
       (mkSerial (replicate (length quiet * S pl) []
                  ++ x :: (Py.chars "ID " ++ id ++ ["013"%char]) :: rest)
          tx0 bd rt pl) sf rp)
  = (Return true,
     mkRadio d db
       (mkSerial rest
          (tx0 ++ concat (replicate (S (length quiet))
                            ["013"; "013"; "I"; "D"; "013"]%char))
          b rt pl) sf rp).
Proof.
  induction quiet as [|q quiet IH];
    intros b later id x rest d db tx0 bd rt pl sf rp Hne Hid Hpl Hx.
  - cbn [app length Nat.mul replicate _detect_baud_from concat].
    step. rewrite !take_burst_whole by lia. cbn [fst snd].
    unfold except_RadioError.
    erewrite bind_run; [|by apply get_id_line].
    rewrite <- ?app_assoc. reflexivity.
  - cbn [app length Nat.mul Nat.add _detect_baud_from replicate concat].
    rewrite replicate_add.
    step. rewrite !take_burst_whole by (cbn; lia). cbn [fst snd].
    unfold except_RadioError. rewrite <- app_assoc.
    erewrite bind_Raise; [|apply get_id_timeouts].
    rewrite IH by done.
    cbn [replicate concat]. rewrite <- !app_assoc. reflexivity.
Qed.

(** _detect_baud tries 9600, 19200, 38400 and 57600 baud in this order:
    at each rate it sends two carriage returns, discards up to 32
    characters and asks for the identifier.  It settles on the first rate
    at which the radio answers the ID command, the rates before it having
    timed out on every read; the image and the dirty list are not
    touched. *)
Theorem detect_baud_first_answer self (j : nat) id x rest :
  (j < 4)%nat →
  id ≠ [] → Forall (λ c, Ascii.is_space c = false) id →
  (length id + 3 < polls (pipe self))%nat → (length x ≤ 32)%nat →
  rx (pipe self)
  = replicate (j * S (polls (pipe self))) []
    ++ x :: (Py.chars "ID " ++ id ++ ["013"%char]) :: rest →
  ∃ self',
    _detect_baud self = (Return true, self')
    ∧ [9600; 19200; 38400; 57600] !! j = Some (baudrate (pipe self'))
    ∧ tx (pipe self')
      = tx (pipe self)
        ++ concat (replicate (S j) ["013"; "013"; "I"; "D"; "013"]%char)
    ∧ rx (pipe self') = rest
    ∧ _mmap self' = _mmap self ∧ _dirty_blocks self' = _dirty_blocks self.
Proof.
  intros Hj Hne Hid Hpl Hx Hrx.
  destruct self as [d db [rx0 tx0 bd rt pl] sf rp].
  cbn [pipe rx tx polls _mmap _dirty_blocks] in *. subst rx0.
  unfold _detect_baud.
  destruct j as [|[|[|[|j]]]]; [| | | |lia].
  - eexists. split; [by apply (detect_baud_from_answer [])|]. by cbn.
  - eexists. split; [by apply (detect_baud_from_answer [9600])|]. by cbn.
  - eexists.
    split; [by apply (detect_baud_from_answer [9600; 19200])|]. by cbn.
  - eexists.
    split; [by apply (detect_baud_from_answer [9600; 19200; 38400])|].
    by cbn.
Qed.

(** With nothing on the line _detect_baud probes all four rates and then
    raises RadioError "No response from radio", and so do sync_in and
    sync_out, which start with it: no clone command is sent, the line is
    left at 57600 baud, and the image and the dirty list are as before. *)
Theorem detect_baud_silent self :
  rx (pipe self) = [] →
  ∃ self',
    _detect_baud self = (Raise (RadioError "No response from radio"), self')
    ∧ sync_in self = (Raise (RadioError "No response from radio"), self')
    ∧ sync_out self = (Raise (RadioError "No response from radio"), self')
    ∧ tx (pipe self')
      = tx (pipe self)
        ++ concat (replicate 4 ["013"; "013"; "I"; "D"; "013"]%char)
    ∧ baudrate (pipe self') = 57600
    ∧ _mmap self' = _mmap self ∧ _dirty_blocks self' = _dirty_blocks self.
Proof.
  intros Hrx. destruct self as [d db [rx0 tx0 bd rt pl] sf rp].
  cbn [pipe rx tx polls _mmap _dirty_blocks] in *. subst rx0.
  pose proof (detect_baud_from_silent [9600; 19200; 38400; 57600]
                d db tx0 bd rt pl sf rp) as E.
  eexists. split; [exact E|].
  split; [unfold sync_in; by apply bind_Raise|].
  split; [unfold sync_out; by apply bind_Raise|].
  by cbn.
Qed.

(** ** A clone that does not start *)

(** upload and download go on only when the reply to "0M PROGRAM" is
    "0M".  With nothing on the line both raise RadioError "No response
    from self" after sending the command and nothing else: no block is
    requested or written, the baud rate stays what it was, and the image
    and the dirty list are as before. *)
Theorem clone_refused_on_silent_line self blocks :
  rx (pipe self) = [] →
  ∃ self',
    upload blocks self = (Raise (RadioError "No response from self"), self')
    ∧ download blocks self
      = (Raise (RadioError "No response from self"), self')
    ∧ tx (pipe self')
      = tx (pipe self) ++ Py.chars "0M PROGRAM" ++ ["013"%char]
    ∧ baudrate (pipe self') = baudrate (pipe self)
    ∧ _mmap self' = _mmap self ∧ _dirty_blocks self' = _dirty_blocks self.
Proof.
  intros Hrx. destruct self as [d db [rx0 tx0 bd rt pl] sf rp].
  cbn [pipe rx tx polls _mmap _dirty_blocks baudrate] in *. subst rx0.
  eexists. split_and!.
  - unfold upload. cbv zeta.
    rewrite (bind_run _ _ _ _ _ (command_silent _ _ _ _ _ _ _ _ _)).
    reflexivity.
  - unfold download. cbv zeta.
    rewrite (bind_run _ _ _ _ _ (command_silent _ _ _ _ _ _ _ _ _)).
    reflexivity.
  - reflexivity.
  - reflexivity.
  - reflexivity.
  - reflexivity.
Qed.

(** ** A block that is not acknowledged *)

Lemma write_block_nak i map self x rest :
  0 ≤ i < 65536 → (length x ≤ 1)%nat → x ≠ [ACK] →
  rx (pipe self) = x :: rest →
  write_block i map self
  = (Return false,
     with_pipe (λ p, mkSerial rest
        (tx p ++ block_on_wire i map) (baudrate p) (rts p) (polls p)) self).
Proof.
  intros Hi Hx Hnak Hrx. destruct self as [d db [rx0 tx0 bd rt pl] sf rp].
  cbn in Hrx. subst rx0. unfold write_block.
  rewrite struct_pack_ok by done. step.
  rewrite take_burst_whole by lia. cbn [fst snd].
  rewrite bool_decide_eq_false_2 by done.
  unfold block_on_wire. by rewrite <- (assoc_L (++)).
Qed.

Lemma upload_loop_nak l1 : ∀ total count self b l2 x rest,
  Forall (λ b, 0 ≤ b < 65536) l1 → 0 ≤ b < 65536 →
  (length x ≤ 1)%nat → x ≠ [ACK] →
  rx (pipe self) = replicate (length l1) [ACK] ++ x :: rest →
  ∃ self',
    upload_loop (l1 ++ b :: l2) total count self
    = (Raise (RadioError ("self NAK'd block " +:+ pretty b)), self')
    ∧ tx (pipe self')
      = tx (pipe self)
        ++ concat ((λ b, block_on_wire b (_mmap self)) <$> l1)
        ++ block_on_wire b (_mmap self)
    ∧ rx (pipe self') = rest
    ∧ _mmap self' = _mmap self
    ∧ _dirty_blocks self' = _dirty_blocks self.
Proof.
  induction l1 as [|i l1 IH]; intros total count self b l2 x rest Hall Hb Hx
    Hnak Hrx.
  - cbn [app upload_loop]. rewrite bind_gets.
    cbn [length replicate app] in Hrx.
    erewrite bind_run; [|by apply (write_block_nak _ _ _ x rest)].
    cbn [negb].
    eexists. split; [reflexivity|].
    destruct self as [d db [rx0 tx0 bd rt pl] sf rp]. by cbn.
  - apply Forall_cons in Hall as [Hi Hall]. cbn [app upload_loop].
    destruct self as [d db [rx0 tx0 bd rt pl] sf rp].
    cbn [pipe rx tx _mmap _dirty_blocks polls length replicate app] in *.
    subst rx0. rewrite bind_gets.
    erewrite bind_run; [|apply write_block_acked; [exact Hi|reflexivity]].
    cbn [negb]. unfold report. step.
    destruct sf; step.
    + edestruct (IH total (count + 1)) as (self' & E & Htx & Hrx & Hm & Hd);
        [exact Hall|exact Hb|exact Hx|exact Hnak| |rewrite E].
      { cbn [pipe rx]. reflexivity. }
      exists self'. cbn [pipe rx tx _mmap _dirty_blocks polls] in *.
      split_and!; try done.
      rewrite Htx. cbn [fmap list_fmap concat]. by rewrite <- !app_assoc.
    + edestruct (IH total (count + 1)) as (self' & E & Htx & Hrx & Hm & Hd);
        [exact Hall|exact Hb|exact Hx|exact Hnak| |rewrite E].
      { cbn [pipe rx]. reflexivity. }
      exists self'. cbn [pipe rx tx _mmap _dirty_blocks polls] in *.
      split_and!; try done.
      rewrite Htx. cbn [fmap list_fmap concat]. by rewrite <- !app_assoc.
Qed.

Lemma upload_blocks_range blocks b :
  b ∈ upload_blocks blocks → b < 256.
Proof.
  destruct blocks as [l|]; cbn [upload_blocks].
  - rewrite list_elem_of_filter. change (_memsize `div` 256) with 256. tauto.
  - rewrite elem_of_seqZ. change (_memsize `div` 256 - 2) with 254. lia.
Qed.

(** upload stops at the first block that is not acknowledged.  When the
    device accepts the handshake, acknowledges the blocks before block b
    and answers block b with anything else, or not at all, upload raises
    RadioError "self NAK'd block b"; the blocks up to and including b
    have gone over the line, no later block and no final "E"; the image
    and the dirty list are as before. *)
Theorem upload_stops_at_first_nak self blocks l1 b l2 y x rest k :
  upload_blocks blocks = l1 ++ b :: l2 →
  Forall (λ b, 0 ≤ b) (l1 ++ [b]) →
  polls (pipe self) = S (S (S k)) →
  (length y ≤ 1)%nat → (length x ≤ 1)%nat → x ≠ [ACK] →
  rx (pipe self)
  = ["0"; "M"; "013"]%char :: y :: replicate (length l1) [ACK] ++ x :: rest →
  ∃ self',
    upload blocks self
    = (Raise (RadioError ("self NAK'd block " +:+ pretty b)), self')
    ∧ tx (pipe self')
      = tx (pipe self) ++ Py.chars "0M PROGRAM" ++ ["013"%char]
        ++ concat ((λ b, block_on_wire b (_mmap self)) <$> l1)
        ++ block_on_wire b (_mmap self)
    ∧ rx (pipe self') = rest
    ∧ _mmap self' = _mmap self
    ∧ _dirty_blocks self' = _dirty_blocks self.
Proof.
  intros Hblocks Hpos Hpolls Hy Hx Hnak Hrx.
  assert (Hrange : Forall (λ b, 0 ≤ b < 65536) (l1 ++ [b])).
  { apply Forall_forall. intros c Hc. split.
    - rewrite Forall_forall in Hpos. by apply Hpos.
    - assert (Hin : c ∈ upload_blocks blocks).
      { rewrite Hblocks. rewrite elem_of_app in Hc. rewrite elem_of_app.
        destruct Hc as [?|Hc]; [by left|right].
        apply list_elem_of_singleton in Hc as ->. apply list_elem_of_here. }
      pose proof (upload_blocks_range blocks c Hin). lia. }
  rewrite Forall_app in Hrange. destruct Hrange as [Hl1 Hb].
  rewrite Forall_singleton in Hb.
  destruct self as [d db [rx0 tx0 bd rt pl] sf rp].
  cbn [pipe rx tx polls _mmap _dirty_blocks] in *. subst rx0 pl.
  destruct (list_get_ends (upload_blocks blocks)) as [[v0 E0] [v1 E1]].
  { rewrite Hblocks. by destruct l1. }
  unfold upload. cbv zeta.
  rewrite (bind_run _ _ _ _ _ (command_program_acked _ _ _ _ _ _ _ _ _)).
  rewrite decide_False by (intros ?; done).
  step. rewrite take_burst_whole by lia. cbn [fst snd].
  rewrite E0, E1. step. rewrite Hblocks.
  edestruct (upload_loop_nak l1) as (self' & E & Htx & Hrx' & Hm & Hd);
    [exact Hl1|exact Hb|exact Hx|exact Hnak| |erewrite bind_Raise; [|exact E]].
  - cbn [pipe rx]. reflexivity.
  - exists self'. cbn [pipe rx tx _mmap _dirty_blocks] in *.
    split_and!; try done. rewrite Htx. by rewrite <- !app_assoc.
Qed.

(** ** The payload of a block *)

Lemma read_payload_pieces ps : ∀ fuel count data rest d db tx0 bd rt pl sf rp,
  Forall (λ p, p ≠ []) ps →
  Z.of_nat (length data) + Z.of_nat (length (concat ps)) = count →
  (length ps < fuel)%nat →
  read_payload fuel count data
    (mkRadio d db (mkSerial (ps ++ rest) tx0 bd rt pl) sf rp)
  = (Return (data ++ concat ps),
     mkRadio d db (mkSerial rest tx0 bd rt pl) sf rp).
Proof.
  induction ps as [|p ps IH];
    intros fuel count data rest d db tx0 bd rt pl sf rp Hne Hlen Hfuel.
  - cbn [concat length] in Hlen. cbn [app concat].
    rewrite (right_id_L [] (++)).
    destruct fuel; cbn [read_payload]; by rewrite decide_False by lia.
  - apply Forall_cons in Hne as [Hp Hne].
    cbn [concat] in Hlen. rewrite length_app in Hlen.
    destruct fuel as [|fuel]; [cbn in Hfuel; lia|].
    cbn [read_payload].
    assert (0 < length p)%nat by (destruct p; [done|cbn; lia]).
    rewrite decide_True by lia.
    rewrite (bind_run _ _ _ _ _ (read_eq _ _)).
    unfold with_pipe. cbn [pipe rx tx baudrate rts polls
      _mmap _dirty_blocks status_fn reported app].
    rewrite !take_burst_whole by lia. cbn [fst snd].
    rewrite IH; [|exact Hne|rewrite length_app; lia|cbn in Hfuel; lia].
    cbn [concat]. by rewrite <- app_assoc.
Qed.

Lemma read_payload_starved ps : ∀ count data d db tx0 bd rt pl sf rp,
  Z.of_nat (length data) + Z.of_nat (length (concat ps)) < count →
  read_payload (S (length ps)) count data
    (mkRadio d db (mkSerial ps tx0 bd rt pl) sf rp)
  = (Hang, mkRadio d db (mkSerial [] tx0 bd rt pl) sf rp).
Proof.
  induction ps as [|p ps IH]; intros count data d db tx0 bd rt pl sf rp Hlen.
  - cbn [concat length] in Hlen. cbn [length read_payload].
    rewrite decide_True by lia.
    rewrite (bind_run _ _ _ _ _ (read_eq _ _)).
    unfold with_pipe. cbn [pipe rx tx baudrate rts polls
      _mmap _dirty_blocks status_fn reported Pipe.take_burst fst snd].
    rewrite (right_id_L [] (++)). by rewrite decide_True by lia.
  - cbn [concat] in Hlen. rewrite length_app in Hlen.
    cbn [length]. cbn [read_payload].
    rewrite decide_True by lia.
    rewrite (bind_run _ _ _ _ _ (read_eq _ _)).
    unfold with_pipe. cbn [pipe rx tx baudrate rts polls
      _mmap _dirty_blocks status_fn reported].
    rewrite !take_burst_whole by lia. cbn [fst snd].
    apply IH. rewrite length_app. lia.
Qed.

Lemma bind_Hang {A B} (m : M A) (f : A → M B) self self' :
  m self = (Hang, self') → (m ≫= f) self = (Hang, self').
Proof. intros E. unfold mbind, M_bind. by rewrite E. Qed.

Lemma read_block_header_ok d db rest tx0 bd rt pl sf rp b :
  0 ≤ b < 65536 →
  read_block b 256
    (mkRadio d db
       (mkSerial
          (["W"%char; Py.chr 0; Py.chr (b `mod` 256); Py.chr (b `div` 256);
            Py.chr 0] :: rest) tx0 bd rt pl) sf rp)
  = (data ← read_payload (S (length rest)) 256 [];
     Pipe.write [ACK];;
     ack ← Pipe.read 1;
     if decide (ack ≠ [ACK]) then
       raise (Exception "Did not receive post-block ACK!")
     else mret data)
      (mkRadio d db (mkSerial rest (tx0 ++ block_request b) bd rt pl) sf rp).
Proof.
  intros Hb. rewrite read_block_header by done. cbv zeta.
  rewrite take_burst_whole by (cbn; lia). cbn [fst snd].
  rewrite decide_False by (intros ?; done).
  cbn [struct_unpack_cBHB]. rewrite bind_lift_Return.
  rewrite !ord_chr by (Z.div_mod_to_equations; lia).
  rewrite decide_False
    by (intros [?|?]; [done|Z.div_mod_to_equations; lia]).
  reflexivity.
Qed.

Lemma read_block_pieces d db ps rest tx0 bd rt pl sf rp b :
  0 ≤ b < 65536 →
  Forall (λ p, p ≠ []) ps → length (concat ps) = 256%nat →
  read_block b 256
    (mkRadio d db
       (mkSerial
          (["W"%char; Py.chr 0; Py.chr (b `mod` 256); Py.chr (b `div` 256);
            Py.chr 0] :: ps ++ [ACK] :: rest) tx0 bd rt pl) sf rp)
  = (Return (concat ps),
     mkRadio d db
       (mkSerial rest (tx0 ++ block_request b ++ [ACK]) bd rt pl) sf rp).
Proof.
  intros Hb Hne Hlen. rewrite read_block_header_ok by done.
  erewrite bind_run;
    [|apply (read_payload_pieces ps);
      [exact Hne|cbn [length]; lia|rewrite length_app; lia]].
  step. rewrite take_burst_whole by (cbn; lia). cbn [fst snd].
  rewrite decide_False by (intros ?; done).
  by rewrite <- app_assoc.
Qed.

(** The payload loop of read_block has no way out but 256 characters.
    However the device cuts the payload into non-empty pieces, read_block
    puts them together, acknowledges and returns them; when the device
    stops before the 256th character, read_block never returns, having
    sent the request and no acknowledgement. *)
Theorem read_block_payload self b ps :
  0 ≤ b < 65536 →
  let header := ["W"%char; Py.chr 0; Py.chr (b `mod` 256);
                 Py.chr (b `div` 256); Py.chr 0] in
  (∀ rest,
     Forall (λ p, p ≠ []) ps → length (concat ps) = 256%nat →
     rx (pipe self) = header :: ps ++ [ACK] :: rest →
     ∃ self',
       read_block b 256 self = (Return (concat ps), self')
       ∧ tx (pipe self') = tx (pipe self) ++ block_request b ++ [ACK]
       ∧ rx (pipe self') = rest)
  ∧ ((length (concat ps) < 256)%nat →
     rx (pipe self) = header :: ps →
     ∃ self',
       read_block b 256 self = (Hang, self')
       ∧ tx (pipe self') = tx (pipe self) ++ block_request b).
Proof.
  intros Hb header.
  destruct self as [d db [rx0 tx0 bd rt pl] sf rp].
  cbn [pipe rx tx]. split.
  - intros rest Hne Hlen ->.
    eexists. split; [by apply read_block_pieces|]. by cbn.
  - intros Hlen ->. unfold header. rewrite read_block_header_ok by done.
    eexists. split.
    + apply bind_Hang. apply read_payload_starved. cbn [length]. lia.
    + by cbn.
Qed.

(** ** Downloads *)

Lemma preserves_hang {A} : preserves (hang (A := A)).
Proof. by intros self. Qed.

Lemma preserves_read_payload fuel count : ∀ data,
  preserves (read_payload fuel count data).
Proof.
  induction fuel as [|fuel IH]; intros data; cbn [read_payload].
  - case_decide; [apply preserves_hang|apply preserves_mret].
  - case_decide; [|apply preserves_mret].
    apply preserves_bind; [apply preserves_read|]. intros chunk. apply IH.
Qed.

Lemma preserves_read_block b count : preserves (read_block b count).
Proof.
  unfold read_block, Pipe.write.
  apply preserves_bind; [apply preserves_lift|]. intros frame.
  apply preserves_bind; [apply preserves_with_pipe|]. intros _.
  apply preserves_bind; [apply preserves_read|]. intros r.
  case_decide; [apply preserves_raise|].
  apply preserves_bind; [apply preserves_lift|]. intros [[[cmd z1] blk] z2].
  case_decide; [apply preserves_raise|].
  apply preserves_bind; [apply preserves_gets|]. intros bursts.
  apply preserves_bind; [apply preserves_read_payload|]. intros data.
  repeat preserves_step.
Qed.

Lemma preserves_download_loop allblocks blocks : ∀ total count data,
  preserves (download_loop allblocks blocks total count data).
Proof.
  induction allblocks as [|i allblocks IH]; intros total count data;
    cbn [download_loop].
  - apply preserves_mret.
  - case_decide; [apply IH|].
    apply preserves_bind; [apply preserves_read_block|]. intros block.
    cbv zeta. unfold report.
    apply preserves_bind; [|intros _; apply IH].
    repeat preserves_step.
Qed.

Lemma preserves_download blocks : preserves (download blocks).
Proof.
  unfold download. cbv zeta.
  apply preserves_bind; [apply preserves_command|]. intros r.
  case_decide; [apply preserves_raise|].
  unfold Pipe.setBaudrate, Pipe.getCTS, Pipe.setRTS, Pipe.write.
  repeat first [ apply preserves_download_loop | preserves_step ].
Qed.

Lemma read_block_returns_256 b self data self' :
  read_block b 256 self = (Return data, self') → length data = 256%nat.
Proof.
  destruct (decide (0 ≤ b < 65536)) as [Hb|Hb].
  - destruct self as [d db [rx0 tx0 bd rt pl] sf rp].
    rewrite read_block_header by done. cbv zeta.
    case_decide as Hlen; [done|].
    destruct (length_5_inv (Pipe.take_burst 5 rx0).1)
      as (c & b1 & lo & hi & b2 & Hh);
      [by destruct (decide (length (Pipe.take_burst 5 rx0).1 = 5%nat))|].
    rewrite Hh. cbn [struct_unpack_cBHB]. rewrite bind_lift_Return.
    case_decide as Hcmd; [done|]. intros E.
    apply bind_Return_inv in E as (got & self2 & Epay & E).
    apply read_payload_exact in Epay as (Hgot & _); [|cbn; lia].
    revert E. step. case_decide; [done|]. intros [= <- <-]. lia.
  - unfold read_block, struct_pack_cBHB. rewrite decide_False by lia.
    intros E. discriminate E.
Qed.

Lemma download_loop_on_return allblocks blocks :
  ∀ total count data self out self',
  download_loop allblocks blocks total count data self = (Return out, self') →
  ∃ tail,
    out = data ++ tail ∧ length tail = (256 * length allblocks)%nat
    ∧ ∀ (k : nat) i,
        allblocks !! k = Some i → i ∉ blocks →
        take 256 (drop (256 * k) tail) = replicate 256 (Py.chr 0xff).
Proof.
  induction allblocks as [|i allblocks IH];
    intros total count data self out self'; cbn [download_loop].
  - intros [= <- <-]. exists []. split; [by rewrite (right_id_L [] (++))|].
    split; [done|]. intros k j Hk. done.
  - case_decide as Hin.
    + intros E. apply IH in E as (tail & -> & Hlen & Hff).
      exists (replicate 256 (Py.chr 0xff) ++ tail).
      split; [by rewrite <- app_assoc|]. split.
      { rewrite length_app, length_replicate, Hlen. cbn [length]. lia. }
      intros [|k] j Hk Hj.
      * rewrite Nat.mul_0_r, drop_0.
        by rewrite take_app_length' by by rewrite length_replicate.
      * replace (256 * S k)%nat with (256 + 256 * k)%nat by lia.
        rewrite drop_app_add' by by rewrite length_replicate.
        by apply (Hff k j).
    + intros E. apply bind_Return_inv in E as (block & self1 & Eb & E).
      apply read_block_returns_256 in Eb as Hblock. cbv zeta in E.
      apply bind_Return_inv in E as ([] & self2 & _ & E).
      apply IH in E as (tail & -> & Hlen & Hff).
      exists (block ++ tail).
      split; [by rewrite <- app_assoc|]. split.
      { rewrite length_app, Hblock, Hlen. cbn [length]. lia. }
      intros [|k] j Hk Hj.
      * injection Hk as <-. done.
      * replace (256 * S k)%nat with (256 + 256 * k)%nat by lia.
        rewrite drop_app_add' by done.
        by apply (Hff k j).
Qed.

(** Whatever the device sends, a download that returns has put together
    exactly 65536 characters, with 256 characters 0xFF in the place of
    every block that was not asked for; the image held by the driver and
    its dirty list are not touched by download itself. *)
Theorem download_on_return blocks self data self' :
  download blocks self = (Return data, self') →
  Z.of_nat (length data) = _memsize
  ∧ (∀ i, 0 ≤ i < 256 → i ∉ download_blocks blocks →
       Py.slice data (i * 256) (i * 256 + 256)
       = replicate 256 (Py.chr 0xff))
  ∧ _mmap self' = _mmap self ∧ _dirty_blocks self' = _dirty_blocks self.
Proof.
  intros E.
  destruct (preserved_by _ _ _ _ (preserves_download blocks) E) as [Hm Hd].
  split_and!; [| |exact Hm|exact Hd].
  - revert E. unfold download. cbv zeta. intros E.
    apply bind_Return_inv in E as (r & s1 & _ & E).
    case_decide; [done|].
    do 6 (apply bind_Return_inv in E as (? & ? & _ & E)).
    apply bind_Return_inv in E as (out & s2 & Eloop & E).
    apply download_loop_on_return in Eloop as (tail & -> & Hlen & _).
    revert E. step. intros [= <- _]. cbn [app]. rewrite Hlen.
    change (_memsize `div` 256) with 256. rewrite length_seqZ.
    unfold _memsize. lia.
  - intros i Hi Hout. revert E. unfold download. cbv zeta. intros E.
    apply bind_Return_inv in E as (r & s1 & _ & E).
    case_decide; [done|].
    do 6 (apply bind_Return_inv in E as (? & ? & _ & E)).
    apply bind_Return_inv in E as (out & s2 & Eloop & E).
    apply download_loop_on_return in Eloop as (tail & -> & Hlen & Hff).
    revert E. step. intros [= <- _]. cbn [app].
    unfold Py.slice.
    replace (Z.to_nat (i * 256 + 256 - i * 256)) with 256%nat by lia.
    replace (Z.to_nat (i * 256)) with (256 * Z.to_nat i)%nat by lia.
    apply (Hff (Z.to_nat i) i); [|exact Hout].
    change (_memsize `div` 256) with 256.
    rewrite lookup_seqZ. split; lia.
Qed.

(** ** A download that is served *)

Lemma read_block_served d db payload rest tx0 bd rt pl sf rp b :
  0 ≤ b < 65536 → length payload = 256%nat →
  read_block b 256
    (mkRadio d db (mkSerial (block_reply b payload ++ rest) tx0 bd rt pl)
       sf rp)
  = (Return payload,
     mkRadio d db
       (mkSerial rest (tx0 ++ block_request b ++ [ACK]) bd rt pl) sf rp).
Proof.
  intros Hb Hlen.
  pose proof (read_block_pieces d db [payload] rest tx0 bd rt pl sf rp b Hb)
    as E.
  cbn [concat] in E. rewrite (right_id_L [] (++)) in E. apply E.
  - apply Forall_singleton. intros ->. done.
  - exact Hlen.
Qed.

Lemma download_loop_served allblocks blocks (f : Z → list ascii) :
  ∀ total count data rest d db tx0 bd rt pl sf rp,
  Forall (λ b, 0 ≤ b < 65536) allblocks →
  (∀ i, length (f i) = 256%nat) →
  ∃ rp',
    download_loop allblocks blocks total count data
      (mkRadio d db
         (mkSerial
            (concat ((λ i, block_reply i (f i))
                     <$> filter (λ i, i ∈ blocks) allblocks) ++ rest)
            tx0 bd rt pl) sf rp)
    = (Return
         (data ++ concat ((λ i, if decide (i ∈ blocks) then f i
                                else replicate 256 (Py.chr 0xff))
                          <$> allblocks)),
       mkRadio d db
         (mkSerial rest
            (tx0 ++ concat ((λ i, block_request i ++ [ACK])
                            <$> filter (λ i, i ∈ blocks) allblocks))
            bd rt pl) sf rp').
Proof.
  induction allblocks as [|i allblocks IH];
    intros total count data rest d db tx0 bd rt pl sf rp Hall Hf.
  - exists rp. cbn. by rewrite !(right_id_L [] (++)).
  - apply Forall_cons in Hall as [Hi Hall]. cbn [download_loop].
    destruct (decide (i ∈ blocks)) as [Hin|Hout].
    + rewrite decide_False by (intros Hn; by apply Hn).
      rewrite filter_cons_True by done.
      cbn [fmap list_fmap concat]. rewrite <- app_assoc.
      erewrite bind_run; [|by apply read_block_served].
      cbv zeta. unfold report. step.
      destruct sf; step.
      * destruct (IH total (count + 1) (data ++ f i) rest d db
                    (tx0 ++ block_request i ++ [ACK]) bd rt pl true
                    (rp ++ [mkStatus "Cloning from radio" total (count + 1)])
                    Hall Hf) as (rp' & ->).
        exists rp'. rewrite decide_True by done.
        by rewrite <- !app_assoc.
      * destruct (IH total (count + 1) (data ++ f i) rest d db
                    (tx0 ++ block_request i ++ [ACK]) bd rt pl false rp
                    Hall Hf) as (rp' & ->).
        exists rp'. rewrite decide_True by done.
        by rewrite <- !app_assoc.
    + rewrite decide_True by done.
      rewrite filter_cons_False by done.
      destruct (IH total count (data ++ replicate 256 (Py.chr 0xff)) rest d db
                  tx0 bd rt pl sf rp Hall Hf) as (rp' & ->).
      exists rp'. cbn [fmap list_fmap concat].
      rewrite decide_False by done. by rewrite <- !app_assoc.
Qed.

Lemma seqZ_range_65536 : Forall (λ b, 0 ≤ b < 65536) (seqZ 0 256).
Proof. apply Forall_forall. intros b Hb. apply elem_of_seqZ in Hb. lia. Qed.

Lemma download_run blocks (f : Z → list ascii) x rest k d db tx0 bd rt sf rp :
  download_blocks blocks ≠ [] →
  (∀ i, length (f i) = 256%nat) → (length x ≤ 1)%nat →
  let asked := filter (λ i, i ∈ download_blocks blocks) (seqZ 0 256) in
  ∃ rp',
    download blocks
      (mkRadio d db
         (mkSerial
            (["0"; "M"; "013"]%char :: x
             :: concat ((λ i, block_reply i (f i)) <$> asked) ++ rest)
            tx0 bd rt (S (S (S k)))) sf rp)
    = (Return
         (concat ((λ i, if decide (i ∈ download_blocks blocks) then f i
                        else replicate 256 (Py.chr 0xff)) <$> seqZ 0 256)),
       mkRadio d db
         (mkSerial rest
            (tx0 ++ Py.chars "0M PROGRAM" ++ ["013"%char]
             ++ concat ((λ i, block_request i ++ [ACK]) <$> asked)
             ++ ["E"%char])
            57600 true (S (S (S k)))) sf rp').
Proof.
  intros Hne Hf Hx asked.
  destruct (list_get_ends _ Hne) as [[v0 E0] [v1 E1]].
  unfold download. cbv zeta.
  rewrite (bind_run _ _ _ _ _ (command_program_acked _ _ _ _ _ _ _ _ _)).
  rewrite decide_False by (intros ?; done).
  step. rewrite take_burst_whole by lia. cbn [fst snd].
  rewrite E0, E1. step. change (_memsize `div` 256) with 256.
  destruct (download_loop_served (seqZ 0 256) (download_blocks blocks) f
              (Z.of_nat (length (download_blocks blocks))) 0 [] rest d db
              (tx0 ++ Py.chars "0M PROGRAM" ++ ["013"%char]) 57600 true
              (S (S (S k))) sf rp seqZ_range_65536 Hf) as (rp' & E).
  fold asked in E.
  erewrite bind_run; [|exact E]. step.
  exists rp'. cbn [app]. by rewrite <- !app_assoc.
Qed.

(** A download from a device that accepts the handshake and serves every
    block it is asked for: the blocks of the list that are below 256 are
    requested in ascending order, whatever the order of the list, each
    with its five-character request and an ACK after its payload; the
    result has the payload of block i in place i for the blocks asked for
    and 0xFF elsewhere; the line ends up at 57600 baud with RTS set and
    the final "E" sent. *)
Theorem download_served self blocks (f : Z → list ascii) x rest k :
  download_blocks blocks ≠ [] →
  (∀ i, length (f i) = 256%nat) → (length x ≤ 1)%nat →
  polls (pipe self) = S (S (S k)) →
  let asked := filter (λ i, i ∈ download_blocks blocks) (seqZ 0 256) in
  rx (pipe self)
  = ["0"; "M"; "013"]%char :: x
    :: concat ((λ i, block_reply i (f i)) <$> asked) ++ rest →
  ∃ self',
    download blocks self
    = (Return
         (concat ((λ i, if decide (i ∈ download_blocks blocks) then f i
                        else replicate 256 (Py.chr 0xff)) <$> seqZ 0 256)),
       self')
    ∧ tx (pipe self')
      = tx (pipe self) ++ Py.chars "0M PROGRAM" ++ ["013"%char]
        ++ concat ((λ i, block_request i ++ [ACK]) <$> asked) ++ ["E"%char]
    ∧ rx (pipe self') = rest
    ∧ baudrate (pipe self') = 57600 ∧ rts (pipe self') = true.
Proof.
  intros Hne Hf Hx Hpolls asked Hrx.
  destruct self as [d db [rx0 tx0 bd rt pl] sf rp].
  cbn [pipe rx tx polls baudrate rts] in *. subst rx0 pl.
  destruct (download_run blocks f x rest k d db tx0 bd rt sf rp Hne Hf Hx)
    as (rp' & E).
  eexists. split; [exact E|]. by cbn.
Qed.

(** ** sync_in *)

Lemma download_returns_memsize blocks self data self' :
  download blocks self = (Return data, self') →
  Z.of_nat (length data) = _memsize.
Proof.
  unfold download. cbv zeta. intros E.
  apply bind_Return_inv in E as (r & s1 & _ & E).
  case_decide; [done|].
  do 6 (apply bind_Return_inv in E as (? & ? & _ & E)).
  apply bind_Return_inv in E as (out & s2 & Eloop & E).
  apply download_loop_on_return in Eloop as (tail & -> & Hlen & _).
  revert E. step. intros [= <- _]. cbn [app]. rewrite Hlen.
  change (_memsize `div` 256) with 256. rewrite length_seqZ.
  unfold _memsize. lia.
Qed.

Lemma sync_in_keeps_on_failure : keeps_on_failure sync_in.
Proof.
  unfold sync_in.
  apply keeps_on_failure_bind; [apply preserves_detect_baud_from|].
  intros _.
  apply keeps_on_failure_bind; [apply preserves_download|]. intros data.
  intros self Hfail. destruct (Hfail tt). reflexivity.
Qed.

(** sync_in replaces the image only by a complete download.  When it
    returns, the image is 65536 characters long and the dirty list is
    empty; when it does not return, because no baud rate answers, the
    clone command is refused or a block goes wrong, the image and the
    dirty list are what they were before the call. *)
Theorem sync_in_all_or_nothing self :
  (∀ self',
     sync_in self = (Return tt, self') →
     Z.of_nat (length (_mmap self')) = _memsize ∧ _dirty_blocks self' = [])
  ∧ (∀ o self',
       sync_in self = (o, self') → (∀ a, o ≠ Return a) →
       _mmap self' = _mmap self ∧ _dirty_blocks self' = _dirty_blocks self).
Proof.
  split.
  - intros self' E. unfold sync_in in E.
    apply bind_Return_inv in E as (ok & s1 & _ & E).
    apply bind_Return_inv in E as (data & s2 & Edl & E).
    apply download_returns_memsize in Edl.
    revert E. unfold process_mmap. step. intros [= <-].
    cbn [_mmap _dirty_blocks]. done.
  - intros o self' E Hfail.
    destruct (sync_in_keeps_on_failure self) as [Hm Hd].
    + intros a. rewrite E. apply Hfail.
    + rewrite E in Hm, Hd. done.
Qed.

Lemma filter_Forall_id {A} (P : A → Prop) `{∀ x, Decision (P x)} l :
  Forall P l → filter P l = l.
Proof.
  induction 1 as [|x l Hx Hl IH]; [done|].
  rewrite filter_cons_True by done. by rewrite IH.
Qed.

(** sync_in with a radio that answers at 9600 baud, accepts the clone
    command and serves all 256 blocks: the image becomes the payloads in
    block order and the dirty list is empty. *)
Theorem sync_in_served self (f : Z → list ascii) id x y rest k :
  id ≠ [] → Forall (λ c, Ascii.is_space c = false) id →
  polls (pipe self) = S (S (S k)) → (length id + 3 < S (S (S k)))%nat →
  (length x ≤ 32)%nat → (length y ≤ 1)%nat →
  (∀ i, length (f i) = 256%nat) →
  rx (pipe self)
  = x :: (Py.chars "ID " ++ id ++ ["013"%char])
    :: ["0"; "M"; "013"]%char :: y
    :: concat ((λ i, block_reply i (f i)) <$> seqZ 0 256) ++ rest →
  ∃ self',
    sync_in self = (Return tt, self')
    ∧ _mmap self' = concat (f <$> seqZ 0 256)
    ∧ _dirty_blocks self' = []
    ∧ rx (pipe self') = rest.
Proof.
  intros Hne Hid Hpolls Hpl Hx Hy Hf Hrx.
  destruct self as [d db [rx0 tx0 bd rt pl] sf rp].
  cbn [pipe rx tx polls] in *. subst rx0 pl.
  assert (Hall : Forall (λ i, i ∈ download_blocks None) (seqZ 0 256))
    by (apply Forall_forall; intros i Hi; exact Hi).
  unfold sync_in, _detect_baud.
  erewrite bind_run;
    [|apply (detect_baud_from_answer [] 9600 [19200; 38400; 57600] id x);
      done].
  destruct (download_run None f y rest k d db
              (tx0 ++ concat (replicate 1 ["013"; "013"; "I"; "D"; "013"]%char))
              9600 rt sf rp) as (rp' & E); [done|exact Hf|exact Hy|].
  cbv zeta in E. rewrite (filter_Forall_id _ _ Hall) in E.
  cbn [length Nat.mul replicate app].
  erewrite bind_run; [|exact E].
  unfold process_mmap. step.
  eexists. split; [reflexivity|]. cbn [_mmap _dirty_blocks pipe rx].
  split_and!; [|done|done].
  assert (Hext : (λ i, if decide (i ∈ download_blocks None) then f i
                       else replicate 256 (Py.chr 0xff)) <$> seqZ 0 256
                 = f <$> seqZ 0 256).
  { apply Forall_fmap_ext_1. apply Forall_forall. intros i Hi.
    by rewrite decide_True. }
  by rewrite Hext.
Qed.

(** ** The names of the special slots *)

(** get_special_locations lists exactly the keys of THD72_SPECIAL, each
    once, in the order of Python's string comparison: 32 names, every
    one of them a name that get_memory and set_memory take for a slot of
    1000..1031. *)
Theorem get_special_locations_keys :
  (∀ s, s ∈ get_special_locations ↔ is_Some (THD72_SPECIAL !! s))
  ∧ NoDup get_special_locations
  ∧ Sorted str_le get_special_locations
  ∧ length get_special_locations = 32%nat
  ∧ (∀ s, s ∈ get_special_locations →
          ∃ n, THD72_SPECIAL !! s = Some n ∧ 1000 ≤ n ≤ 1031).
Proof.
  assert (Hmem : ∀ s, s ∈ get_special_locations
                      ↔ is_Some (THD72_SPECIAL !! s)).
  { intros s. unfold get_special_locations.
    rewrite merge_sort_Permutation.
    rewrite list_elem_of_fmap. split.
    - intros ([k v] & -> & Hkv). apply elem_of_map_to_list in Hkv.
      by exists v.
    - intros [v Hv]. exists (s, v). split; [done|].
      by apply elem_of_map_to_list. }
  split_and!.
  - exact Hmem.
  - unfold get_special_locations. rewrite merge_sort_Permutation.
    apply NoDup_fst_map_to_list.
  - apply (bool_decide_unpack _). vm_compute. exact I.
  - vm_compute. reflexivity.
  - intros s Hs. apply Hmem in Hs as [n Hn]. exists n. split; [done|].
    assert (Hr : map_Forall (λ _ v, 1000 ≤ v ≤ 1031) THD72_SPECIAL)
      by (apply (bool_decide_unpack _); vm_compute; exact I).
    exact (map_Forall_lookup_1 _ _ _ _ Hr Hn).
Qed.

(** * The theorems at concrete inputs *)

(** C4, counterexample: on an image whose slot 1030 is empty (every byte
    0xFF), get_memory(1030) returns a channel marked empty whose immutable
    list is the empty default and does not include "name"; the same for
    slot 1020 and "freq". *)
Lemma empty_special_slot_has_no_immutable_fields :
  let self := Sample.radio Sample.blank [] (Sample.line []) in
  ∃ mem1030 mem1020,
    get_memory Sample.TONES Sample.DTCS_CODES Sample.CROSS_MODES
      Sample.SKIP_VALUES Sample.Memory_new self (Num 1030) = Return mem1030
    ∧ empty mem1030 = true
    ∧ ("name" ∉ immutable mem1030)
    ∧ get_memory Sample.TONES Sample.DTCS_CODES Sample.CROSS_MODES
        Sample.SKIP_VALUES Sample.Memory_new self (Num 1020) = Return mem1020
    ∧ ("freq" ∉ immutable mem1020).
Proof.
  cbv zeta. eexists. eexists.
  split; [vm_compute; reflexivity|].
  split; [reflexivity|].
  split; [apply (bool_decide_unpack _); vm_compute; exact I|].
  split; [vm_compute; reflexivity|].
  apply (bool_decide_unpack _). vm_compute. exact I.
Qed.

(** C4, witness: the image of zeros has slots 1030 and 1020 in use with
    every code in the tables. *)
Lemma special_slot_immutable_witness :
  (∃ mem,
     get_memory Sample.TONES Sample.DTCS_CODES Sample.CROSS_MODES
       Sample.SKIP_VALUES Sample.Memory_new
       (Sample.radio Sample.zeros [] (Sample.line [])) (Num 1030)
     = Return mem
     ∧ "name" ∈ immutable mem)
  ∧ (∃ mem,
       get_memory Sample.TONES Sample.DTCS_CODES Sample.CROSS_MODES
         Sample.SKIP_VALUES Sample.Memory_new
         (Sample.radio Sample.zeros [] (Sample.line [])) (Num 1020)
       = Return mem
       ∧ Forall (λ field, field ∈ immutable mem)
           ["freq"; "offset"; "mode"; "tmode"; "ctone"; "skip"]).
Proof.
  destruct (special_slot_immutable Sample.TONES Sample.DTCS_CODES
              Sample.CROSS_MODES Sample.SKIP_VALUES Sample.Memory_new
              (Sample.radio Sample.zeros [] (Sample.line [])))
    as [H1030 H1020].
  - discriminate.
  - split.
    + apply H1030.
      * vm_compute. discriminate.
      * unfold codes_in_tables. apply (bool_decide_unpack _).
        vm_compute. exact I.
    + apply H1020.
      * vm_compute. discriminate.
      * unfold codes_in_tables. apply (bool_decide_unpack _).
        vm_compute. exact I.
Defined.

(** C5, witness: slot 1025 of the blank image. *)
Lemma get_memory_empty_slot_witness :
  flag_disabled Sample.blank (0x0c00 + 2 * 1025) = 0x7f
  ∧ ∃ mem,
      get_memory Sample.TONES Sample.DTCS_CODES Sample.CROSS_MODES
        Sample.SKIP_VALUES Sample.Memory_new
        (Sample.radio Sample.blank [] (Sample.line [])) (Num 1025)
      = Return mem
      ∧ empty mem = true ∧ number mem = 1025.
Proof.
  assert (Hd : flag_disabled Sample.blank (0x0c00 + 2 * 1025) = 0x7f)
    by (vm_compute; reflexivity).
  split; [exact Hd|].
  destruct (get_memory_empty_slot Sample.TONES Sample.DTCS_CODES
              Sample.CROSS_MODES Sample.SKIP_VALUES Sample.Memory_new
              (Sample.radio Sample.blank [] (Sample.line [])) 1025)
    as (mem & E & He & Hn & _); [lia|exact Hd|].
  exists mem. by split_and!.
Defined.

(** C2, counterexample: slot 0 of an image of zeros in which the flag
    record has disabled = 1 (in use, all codes in the tables) and the name
    record is eight spaces.  get_memory returns a channel; set_memory of that
    channel returns, and afterwards the first flag byte is 0 where it was
    2 and the name record is eight 0xFF where it was eight spaces. *)
Lemma roundtrip_changes_flag_and_name :
  let data := bitwise.set_chars (bitwise.set_u8 Sample.zeros 0x0c00 2)
                0x5e00 (replicate 8 " "%char) in
  let self := Sample.radio data [] (Sample.line []) in
  flag_disabled data 0x0c00 = 1
  ∧ ordinary_codes_in_tables Sample.TONES Sample.DTCS_CODES
      Sample.CROSS_MODES Sample.SKIP_VALUES data 0x1500 0x0c00
  ∧ ∃ mem self',
      get_memory Sample.TONES Sample.DTCS_CODES Sample.CROSS_MODES
        Sample.SKIP_VALUES Sample.Memory_new self (Num 0) = Return mem
      ∧ set_memory Sample.TONES Sample.DTCS_CODES Sample.CROSS_MODES
          Sample.SKIP_VALUES mem self = (Return tt, self')
      ∧ bitwise.get_chars data 0x0c00 2 = Py.chr <$> [2; 0]
      ∧ bitwise.get_chars (_mmap self') 0x0c00 2 = Py.chr <$> [0; 0]
      ∧ bitwise.get_chars data 0x5e00 8 = replicate 8 " "%char
      ∧ bitwise.get_chars (_mmap self') 0x5e00 8 = replicate 8 "255"%char.
Proof.
  cbv zeta. split; [vm_compute; reflexivity|].
  split.
  { unfold ordinary_codes_in_tables, codes_in_tables.
    apply (bool_decide_unpack _). vm_compute. exact I. }
  eexists. eexists.
  split; [vm_compute; reflexivity|].
  split; [apply surjective_pairing|].
  split_and!; vm_compute; reflexivity.
Qed.

(** C2, witness: slot 5 of the image of zeros. *)
Lemma ordinary_slot_roundtrip_witness :
  NoDup Sample.TONES ∧ NoDup Sample.DTCS_CODES
  ∧ NoDup Sample.CROSS_MODES ∧ NoDup Sample.SKIP_VALUES
  ∧ flag_disabled Sample.zeros (0x0c00 + 2 * 5) = 0
  ∧ canonical_name (bitwise.get_chars Sample.zeros (0x5e00 + 8 * 5) 8)
  ∧ ∃ mem self',
      get_memory Sample.TONES Sample.DTCS_CODES Sample.CROSS_MODES
        Sample.SKIP_VALUES Sample.Memory_new
        (Sample.radio Sample.zeros [] (Sample.line [])) (Num 5) = Return mem
      ∧ set_memory Sample.TONES Sample.DTCS_CODES Sample.CROSS_MODES
          Sample.SKIP_VALUES mem
          (Sample.radio Sample.zeros [] (Sample.line []))
        = (Return tt, self')
      ∧ _mmap self' = Sample.zeros.
Proof.
  assert (H1 : NoDup Sample.TONES)
    by (apply (bool_decide_unpack _); vm_compute; exact I).
  assert (H2 : NoDup Sample.DTCS_CODES)
    by (apply (bool_decide_unpack _); vm_compute; exact I).
  assert (H3 : NoDup Sample.CROSS_MODES)
    by (apply (bool_decide_unpack _); vm_compute; exact I).
  assert (H4 : NoDup Sample.SKIP_VALUES)
    by (apply (bool_decide_unpack _); vm_compute; exact I).
  assert (H5 : flag_disabled Sample.zeros (0x0c00 + 2 * 5) = 0)
    by (vm_compute; reflexivity).
  assert (H6 : canonical_name
                 (bitwise.get_chars Sample.zeros (0x5e00 + 8 * 5) 8)).
  { exists (replicate 8 "000"%char). split_and!.
    - vm_compute. reflexivity.
    - vm_compute. lia.
    - apply (bool_decide_unpack _). vm_compute. exact I.
    - vm_compute. reflexivity. }
  split_and!; try assumption.
  apply (ordinary_slot_roundtrip Sample.TONES Sample.DTCS_CODES
           Sample.CROSS_MODES Sample.SKIP_VALUES Sample.Memory_new
           (Sample.radio Sample.zeros [] (Sample.line [])) 5);
    try assumption.
  - reflexivity.
  - vm_compute. reflexivity.
  - lia.
  - unfold ordinary_codes_in_tables, codes_in_tables.
    apply (bool_decide_unpack _). vm_compute. exact I.
Defined.

(** C3, witness: slot 1025 gets the name "NOAA 6" and a new frequency. *)
Lemma weather_slot_only_name_witness :
  let mem := with_freq 162550000
               (with_name "NOAA 6" (with_number 1025 Sample.Memory_new)) in
  let self := Sample.radio Sample.zeros [] (Sample.line []) in
  ∃ self',
    set_memory Sample.TONES Sample.DTCS_CODES Sample.CROSS_MODES
      Sample.SKIP_VALUES mem self = (Return tt, self')
    ∧ bitwise.get_chars (_mmap self') (0x7de0 + 8 * 5) 8
      = Py.chars "NOAA 6" ++ replicate 2 "255"%char
    ∧ bitwise.get_chars (_mmap self') (0x1500 + 16 * 1025) 16
      = bitwise.get_chars Sample.zeros (0x1500 + 16 * 1025) 16.
Proof.
  intros mem self.
  destruct (weather_slot_only_name Sample.TONES Sample.DTCS_CODES
              Sample.CROSS_MODES Sample.SKIP_VALUES self mem)
    as (self' & E & Hname & _ & _ & Hrec & _).
  - simpl. lia.
  - vm_compute. reflexivity.
  - exists self'. split; [exact E|]. split; [exact Hname|exact Hrec].
Defined.

(** C6, counterexample: block 5 is requested and the reply is
    57 01 05 00 01, with 1 where the frame has its zero bytes; read_block
    accepts it and returns the 256 characters that follow. *)
Lemma read_block_accepts_nonzero_padding :
  let payload := replicate 256 "A"%char in
  let self := Sample.radio Sample.blank []
                (Sample.line [Py.chr <$> [0x57; 1; 5; 0; 1]; payload; [ACK]]) in
  (read_block 5 256 self).1 = Return payload
  ∧ Py.ord <$> tx (pipe (read_block 5 256 self).2)
    = [0x52; 0; 5; 0; 0; 0x06].
Proof. cbv zeta. split; vm_compute; reflexivity. Qed.

(** C6, witness: block 5 and the reply 57 00 05 00 00. *)
Lemma read_block_frame_witness :
  let payload := replicate 256 "A"%char in
  let self := Sample.radio Sample.blank []
                (Sample.line [Py.chr <$> [0x57; 0; 5; 0; 0]; payload; [ACK]]) in
  Py.ord <$> ["R"%char; Py.chr 0; Py.chr (5 `mod` 256); Py.chr (5 `div` 256);
              Py.chr 0] = [0x52; 0; 5; 0; 0]
  ∧ ∃ self', read_block 5 256 self = (Return payload, self')
             ∧ rx (pipe self') = [].
Proof.
  intros payload self.
  destruct (read_block_frame self 5) as (Hreq & _ & _ & Hok); [lia|].
  split; [exact Hreq|].
  apply (Hok 0 0 payload []); [lia|lia|reflexivity|reflexivity].
Defined.

(** C1, counterexample: blocks 0 and 1 are dirty; the device accepts the
    handshake, acknowledges block 0 and answers block 1 with 0x15.  upload
    raises for block 1 after the progress report for block 0, both blocks
    are on the line, and block 0, written and acknowledged, is still in
    the dirty list. *)
Lemma failed_upload_keeps_written_block_dirty :
  let self := Sample.radio Sample.zeros [0; 1]
                (Sample.line [["0"; "M"; "013"]%char; ["?"%char]; [ACK];
                              [Py.chr 0x15]]) in
  let result := upload (Some [0; 1]) self in
  result.1 = Raise (RadioError "self NAK'd block 1")
  ∧ reported result.2 = [mkStatus "Cloning to radio" 2 1]
  ∧ tx (pipe result.2)
    = Py.chars "0M PROGRAM" ++ ["013"%char]
      ++ block_on_wire 0 Sample.zeros ++ block_on_wire 1 Sample.zeros
  ∧ 0 ∈ _dirty_blocks result.2.
Proof.
  cbv zeta. split_and!.
  - vm_compute. reflexivity.
  - vm_compute. reflexivity.
  - vm_compute. reflexivity.
  - apply (bool_decide_unpack _). vm_compute. exact I.
Qed.

(** C1, witness: the same failed upload leaves the dirty list unchanged. *)
Lemma upload_failure_keeps_dirty_list_witness :
  let self := Sample.radio Sample.zeros [0; 1]
                (Sample.line [["0"; "M"; "013"]%char; ["?"%char]; [ACK];
                              [Py.chr 0x15]]) in
  (upload (Some [0; 1]) self).1 = Raise (RadioError "self NAK'd block 1")
  ∧ _dirty_blocks (upload (Some [0; 1]) self).2 = [0; 1].
Proof.
  intros self.
  assert (E : (upload (Some [0; 1]) self).1
              = Raise (RadioError "self NAK'd block 1"))
    by (vm_compute; reflexivity).
  split; [exact E|].
  destruct (upload_failure_keeps_dirty_list (Some [0; 1]) self) as [Hfail _].
  apply (Hfail (RadioError "self NAK'd block 1")).
  rewrite <- E. apply surjective_pairing.
Defined.

(** C8, witness: slot 7 is marked empty twice. *)
Lemma dirty_blocks_unique_sorted_witness :
  let mem := with_empty true (with_number 7 Sample.Memory_new) in
  let self := Sample.radio Sample.zeros [] (Sample.line []) in
  let once := (set_memory Sample.TONES Sample.DTCS_CODES Sample.CROSS_MODES
                 Sample.SKIP_VALUES mem self).2 in
  _dirty_blocks
    (set_memory Sample.TONES Sample.DTCS_CODES Sample.CROSS_MODES
       Sample.SKIP_VALUES mem once).2
  = _dirty_blocks once.
Proof.
  intros mem self once.
  destruct (dirty_blocks_unique_sorted Sample.TONES Sample.DTCS_CODES
              Sample.CROSS_MODES Sample.SKIP_VALUES) as (_ & _ & _ & Htwice).
  apply (Htwice self mem). reflexivity.
Defined.

(** C10, witness: the dirty list is [254]; the device acknowledges; the
    upload of that list puts block 254 on the line. *)
Lemma listed_blocks_are_not_protected_witness :
  let self := Sample.radio Sample.zeros [254]
                (Sample.line [["0"; "M"; "013"]%char; ["?"%char]; [ACK]]) in
  ∃ self' before after,
    upload (Some [254]) self = (Return tt, self')
    ∧ tx (pipe self') = before ++ block_on_wire 254 Sample.zeros ++ after.
Proof.
  intros self.
  destruct listed_blocks_are_not_protected as (_ & _ & _ & Hwritten & _).
  apply (Hwritten self [254] ["?"%char] [] 13%nat 254).
  - repeat constructor; lia.
  - apply list_elem_of_here.
  - lia.
  - reflexivity.
  - simpl. lia.
  - reflexivity.
Defined.

(** ** Channels written and read back *)

(** Writing and reading back, witness: a channel stored in the empty slot 7 of
    the blank image. *)
Lemma set_memory_then_get_witness :
  let mem := mkMemory 7 "" false "CQ 2M" 145500000 "Tone" 1000 885 23 "-"
               600000 "FM" "S" "Tone->Tone" [] in
  let self := Sample.radio Sample.blank [] (Sample.line []) in
  ∃ self' got,
    set_memory Sample.TONES Sample.DTCS_CODES Sample.CROSS_MODES
      Sample.SKIP_VALUES mem self = (Return tt, self')
    ∧ get_memory Sample.TONES Sample.DTCS_CODES Sample.CROSS_MODES
        Sample.SKIP_VALUES Sample.Memory_new self' (Num 7) = Return got
    ∧ freq got = 145500000 ∧ tmode got = "Tone" ∧ rtone got = 1000
    ∧ duplex got = "-" ∧ skip got = "S".
Proof.
  intros mem self.
  destruct (set_memory_then_get Sample.TONES Sample.DTCS_CODES
              Sample.CROSS_MODES Sample.SKIP_VALUES Sample.Memory_new
              self mem)
    as (self' & got & E & G & _ & Hf & _ & Ht & Hd & _ & Hr & _ & _ & _
        & Hs & _).
  - vm_compute. reflexivity.
  - simpl. lia.
  - reflexivity.
  - apply (bool_decide_unpack _). vm_compute. exact I.
  - apply (bool_decide_unpack _). vm_compute. exact I.
  - apply (bool_decide_unpack _). vm_compute. exact I.
  - apply (bool_decide_unpack _). vm_compute. exact I.
  - apply (bool_decide_unpack _). vm_compute. exact I.
  - vm_compute. lia.
  - apply (bool_decide_unpack _). vm_compute. exact I.
  - vm_compute. lia.
  - apply (bool_decide_unpack _). vm_compute. exact I.
  - vm_compute. lia.
  - apply (bool_decide_unpack _). vm_compute. exact I.
  - vm_compute. lia.
  - simpl. lia.
  - simpl. lia.
  - apply (bool_decide_unpack _). vm_compute. exact I.
  - exists self', got.
    split; [exact E|]. split; [exact G|].
    split; [exact Hf|]. split; [exact Ht|]. split; [exact Hr|].
    split; [exact Hd|exact Hs].
Defined.

(** Delete and read back, witness: slot 5 of the image of zeros. *)
Lemma set_memory_empty_then_get_witness :
  let mem := with_empty true (with_number 5 Sample.Memory_new) in
  let self := Sample.radio Sample.zeros [] (Sample.line []) in
  ∃ self' got,
    set_memory Sample.TONES Sample.DTCS_CODES Sample.CROSS_MODES
      Sample.SKIP_VALUES mem self = (Return tt, self')
    ∧ flag_disabled (_mmap self') (0x0c00 + 2 * 5) = 0x7f
    ∧ get_memory Sample.TONES Sample.DTCS_CODES Sample.CROSS_MODES
        Sample.SKIP_VALUES Sample.Memory_new self' (Num 5) = Return got
    ∧ empty got = true.
Proof.
  intros mem self.
  destruct (set_memory_empty_then_get Sample.TONES Sample.DTCS_CODES
              Sample.CROSS_MODES Sample.SKIP_VALUES Sample.Memory_new
              self mem)
    as (self' & got & E & Hdis & _ & _ & _ & G & He & _).
  - reflexivity.
  - simpl. lia.
  - simpl. lia.
  - vm_compute. reflexivity.
  - exists self', got.
    split; [exact E|]. split; [exact Hdis|]. split; [exact G|exact He].
Defined.

(** Decoding, witness: slot 5 of the image of zeros is in use. *)
Lemma get_memory_decodes_iff_witness :
  let self := Sample.radio Sample.zeros [] (Sample.line []) in
  decodable Sample.TONES Sample.DTCS_CODES Sample.CROSS_MODES
    Sample.SKIP_VALUES (_mmap self) 5
  ↔ ∃ mem, get_memory Sample.TONES Sample.DTCS_CODES Sample.CROSS_MODES
             Sample.SKIP_VALUES Sample.Memory_new self (Num 5) = Return mem.
Proof.
  intros self.
  apply (get_memory_decodes_iff Sample.TONES Sample.DTCS_CODES
           Sample.CROSS_MODES Sample.SKIP_VALUES Sample.Memory_new self 5).
  - lia.
  - vm_compute. lia.
Defined.

(** Names, witness: the name HELLO in slot 5. *)
Lemma set_get_channel_name_witness :
  let self := Sample.radio Sample.zeros [] (Sample.line []) in
  ∃ self',
    set_channel_name 5 "HELLO" self = (Return tt, self')
    ∧ get_channel_name self' 5 = Return "HELLO".
Proof.
  intros self.
  destruct (set_get_channel_name self 5 "HELLO") as [Hnamed _].
  - vm_compute. reflexivity.
  - destruct Hnamed as (self' & E & G).
    + lia.
    + apply (bool_decide_unpack _). vm_compute. exact I.
    + exists self'. split; [exact E|exact G].
Defined.

(** Other slots, witness: writing slot 7 of the image of zeros leaves
    slot 5 as it reads. *)
Lemma set_memory_keeps_other_slots_witness :
  let mem := mkMemory 7 "" false "CQ 2M" 145500000 "Tone" 1000 885 23 "-"
               600000 "FM" "S" "Tone->Tone" [] in
  let self := Sample.radio Sample.zeros [] (Sample.line []) in
  get_memory Sample.TONES Sample.DTCS_CODES Sample.CROSS_MODES
    Sample.SKIP_VALUES Sample.Memory_new
    (set_memory Sample.TONES Sample.DTCS_CODES Sample.CROSS_MODES
       Sample.SKIP_VALUES mem self).2 (Num 5)
  = get_memory Sample.TONES Sample.DTCS_CODES Sample.CROSS_MODES
      Sample.SKIP_VALUES Sample.Memory_new self (Num 5).
Proof.
  intros mem self.
  apply (set_memory_keeps_other_slots Sample.TONES Sample.DTCS_CODES
           Sample.CROSS_MODES Sample.SKIP_VALUES Sample.Memory_new self mem 5).
  - lia.
  - simpl. lia.
Defined.

(** Half-written channel, witness: a channel with the tone mode Bogus
    for the empty slot 7 of the blank image. *)
Lemma set_memory_unknown_tmode_witness :
  let mem := mkMemory 7 "" false "CQ 2M" 145500000 "Bogus" 1000 885 23 "-"
               600000 "FM" "S" "Tone->Tone" [] in
  let self := Sample.radio Sample.blank [] (Sample.line []) in
  flag_disabled (_mmap self) (0x0c00 + 2 * 7) = 0x7f
  ∧ ∃ self',
      set_memory Sample.TONES Sample.DTCS_CODES Sample.CROSS_MODES
        Sample.SKIP_VALUES mem self = (Raise KeyError, self')
      ∧ flag_disabled (_mmap self') (0x0c00 + 2 * 7) = 0
      ∧ mem_freq (_mmap self') (0x1500 + 16 * 7) = 145500000.
Proof.
  intros mem self. split; [vm_compute; reflexivity|].
  destruct (set_memory_unknown_tmode Sample.TONES Sample.DTCS_CODES
              Sample.CROSS_MODES Sample.SKIP_VALUES self mem)
    as (self' & E & Hdis & Hfreq & _).
  - vm_compute. reflexivity.
  - simpl. lia.
  - simpl. lia.
  - reflexivity.
  - vm_compute. reflexivity.
  - simpl. lia.
  - exists self'. split; [exact E|]. split; [exact Hdis|exact Hfreq].
Defined.

(** ** The protocol on concrete lines *)

(** command, witness: the reply "0M" to the clone command. *)
Lemma command_reply_witness :
  let self := Sample.radio Sample.zeros []
                (Sample.line [["0"; "M"; "013"]%char; ["?"%char]]) in
  ∃ self',
    command "0M PROGRAM" self = (Return "0M", self')
    ∧ rx (pipe self') = [["?"%char]].
Proof.
  intros self.
  destruct (command_reply self "0M PROGRAM") as [Hline _].
  destruct (Hline ["0"; "M"]%char [["?"%char]]) as (self' & E & _ & Hrx).
  - apply (bool_decide_unpack _). vm_compute. exact I.
  - simpl. lia.
  - reflexivity.
  - exists self'. split; [exact E|exact Hrx].
Defined.

(** get_id, witness: the reply "ID TH-D72". *)
Lemma get_id_reply_witness :
  let self := Sample.radio Sample.zeros []
                (Sample.line [Py.chars "ID TH-D72" ++ ["013"%char]]) in
  ∃ self', get_id self = (Return "TH-D72", self').
Proof.
  intros self.
  destruct (get_id_reply self) as [Hline _].
  destruct (Hline (Py.chars "TH-D72") []) as (self' & E & _).
  - vm_compute. congruence.
  - apply (bool_decide_unpack _). vm_compute. exact I.
  - simpl. lia.
  - reflexivity.
  - exists self'. exact E.
Defined.

(** _detect_baud, witness: a radio that is silent at 9600 baud and
    answers at 19200. *)
Lemma detect_baud_first_answer_witness :
  let self := Sample.radio Sample.zeros []
                (Sample.line (replicate 17 []
                              ++ [[]; Py.chars "ID TH-D72" ++ ["013"%char]])) in
  ∃ self',
    _detect_baud self = (Return true, self')
    ∧ baudrate (pipe self') = 19200.
Proof.
  intros self.
  destruct (detect_baud_first_answer self 1 (Py.chars "TH-D72") [] [])
    as (self' & E & Hbaud & _).
  - lia.
  - vm_compute. congruence.
  - apply (bool_decide_unpack _). vm_compute. exact I.
  - simpl. lia.
  - simpl. lia.
  - reflexivity.
  - exists self'. split; [exact E|].
    simpl in Hbaud. congruence.
Defined.

(** No radio, witness: sync_out with block 3 dirty and nothing connected. *)
Lemma detect_baud_silent_witness :
  let self := Sample.radio Sample.zeros [3] (Sample.line []) in
  ∃ self',
    sync_out self = (Raise (RadioError "No response from radio"), self')
    ∧ _dirty_blocks self' = [3]
    ∧ baudrate (pipe self') = 57600.
Proof.
  intros self.
  destruct (detect_baud_silent self) as (self' & _ & _ & E & _ & Hbaud & _ & Hd).
  - reflexivity.
  - exists self'. split; [exact E|]. split; [exact Hd|exact Hbaud].
Defined.

(** Clone refused, witness: an upload of block 3 with nothing connected. *)
Lemma clone_refused_on_silent_line_witness :
  let self := Sample.radio Sample.zeros [3] (Sample.line []) in
  ∃ self',
    upload (Some [3]) self
    = (Raise (RadioError "No response from self"), self')
    ∧ tx (pipe self') = Py.chars "0M PROGRAM" ++ ["013"%char]
    ∧ _dirty_blocks self' = [3].
Proof.
  intros self.
  destruct (clone_refused_on_silent_line self (Some [3]))
    as (self' & E & _ & Htx & _ & _ & Hd).
  - reflexivity.
  - exists self'. split; [exact E|]. split; [exact Htx|exact Hd].
Defined.

(** A block refused, witness: blocks 0 and 1 are uploaded; the device
    acknowledges block 0 and answers block 1 with 0x15. *)
Lemma upload_stops_at_first_nak_witness :
  let self := Sample.radio Sample.zeros [0; 1]
                (Sample.line [["0"; "M"; "013"]%char; ["?"%char]; [ACK];
                              [Py.chr 0x15]]) in
  ∃ self',
    upload (Some [0; 1]) self
    = (Raise (RadioError ("self NAK'd block " +:+ pretty 1)), self')
    ∧ tx (pipe self')
      = Py.chars "0M PROGRAM" ++ ["013"%char]
        ++ block_on_wire 0 Sample.zeros ++ block_on_wire 1 Sample.zeros
    ∧ _dirty_blocks self' = [0; 1].
Proof.
  intros self.
  destruct (upload_stops_at_first_nak self (Some [0; 1]) [0] 1 []
              ["?"%char] [Py.chr 0x15] [] 13)
    as (self' & E & Htx & _ & _ & Hd).
  - reflexivity.
  - apply (bool_decide_unpack _). vm_compute. exact I.
  - reflexivity.
  - simpl. lia.
  - simpl. lia.
  - vm_compute. congruence.
  - reflexivity.
  - exists self'. split; [exact E|]. split; [|exact Hd].
    rewrite Htx. reflexivity.
Defined.

(** The payload in pieces, witness: block 5 arrives as 100 and 156
    characters. *)
Lemma read_block_payload_witness :
  let p1 := replicate 100 "A"%char in
  let p2 := replicate 156 "B"%char in
  let self := Sample.radio Sample.blank []
                (Sample.line [Py.chr <$> [0x57; 0; 5; 0; 0]; p1; p2; [ACK]]) in
  ∃ self', read_block 5 256 self = (Return (p1 ++ p2), self')
           ∧ rx (pipe self') = [].
Proof.
  intros p1 p2 self.
  destruct (read_block_payload self 5 [p1; p2]) as [Hserved _]; [lia|].
  destruct (Hserved []) as (self' & E & _ & Hrx).
  - apply (bool_decide_unpack _). vm_compute. exact I.
  - reflexivity.
  - reflexivity.
  - exists self'. split; [exact E|exact Hrx].
Defined.

(** A download, witness: block 3 alone is asked for and served. *)
Lemma download_served_witness :
  let payload := replicate 256 "A"%char in
  let self := Sample.radio Sample.blank []
                (Sample.line (["0"; "M"; "013"]%char :: []
                              :: block_reply 3 payload)) in
  ∃ self',
    download (Some [3]) self
    = (Return (concat ((λ i, if decide (i ∈ download_blocks (Some [3]))
                             then payload
                             else replicate 256 (Py.chr 0xff))
                       <$> seqZ 0 256)), self')
    ∧ tx (pipe self')
      = Py.chars "0M PROGRAM" ++ ["013"%char] ++ block_request 3
        ++ [ACK; "E"%char].
Proof.
  intros payload self.
  destruct (download_served self (Some [3]) (λ _, payload) [] [] 13)
    as (self' & E & Htx & _).
  - vm_compute. congruence.
  - intros i. reflexivity.
  - simpl. lia.
  - reflexivity.
  - vm_compute. reflexivity.
  - exists self'. split; [exact E|]. rewrite Htx. vm_compute. reflexivity.
Defined.

(** The size of a download, witness: the same download of block 3. *)
Lemma download_on_return_witness :
  let payload := replicate 256 "A"%char in
  let self := Sample.radio Sample.blank []
                (Sample.line (["0"; "M"; "013"]%char :: []
                              :: block_reply 3 payload)) in
  ∃ data self',
    download (Some [3]) self = (Return data, self')
    ∧ Z.of_nat (length data) = _memsize
    ∧ Py.slice data (4 * 256) (4 * 256 + 256) = replicate 256 (Py.chr 0xff).
Proof.
  intros payload self.
  destruct (download_run (Some [3]) (λ _, payload) [] [] 13 Sample.blank []
              [] 9600 false true []) as (rp' & E).
  - vm_compute. congruence.
  - intros i. reflexivity.
  - simpl. lia.
  - destruct (download_on_return _ _ _ _ E) as (Hlen & Hff & _).
    eexists _, _. split; [exact E|]. split; [exact Hlen|].
    apply Hff; [lia|]. apply (bool_decide_unpack _). vm_compute. exact I.
Defined.

(** sync_in, witness: with nothing connected the image stays. *)
Lemma sync_in_all_or_nothing_witness :
  let self := Sample.radio Sample.zeros [3] (Sample.line []) in
  (sync_in self).1 = Raise (RadioError "No response from radio")
  ∧ _mmap (sync_in self).2 = Sample.zeros
  ∧ _dirty_blocks (sync_in self).2 = [3].
Proof.
  intros self.
  assert (E : (sync_in self).1 = Raise (RadioError "No response from radio"))
    by (vm_compute; reflexivity).
  split; [exact E|].
  destruct (sync_in_all_or_nothing self) as [_ Hfail].
  apply (Hfail (sync_in self).1 (sync_in self).2).
  - apply surjective_pairing.
  - intros a. rewrite E. congruence.
Defined.

(** sync_in, witness: a radio that answers at 9600 baud and serves every
    block with 256 times the letter A. *)
Lemma sync_in_served_witness :
  let f := λ _ : Z, replicate 256 "A"%char in
  let self := Sample.radio Sample.blank [3]
                (Sample.line
                   ([] :: (Py.chars "ID TH-D72" ++ ["013"%char])
                    :: ["0"; "M"; "013"]%char :: []
                    :: concat ((λ i, block_reply i (f i)) <$> seqZ 0 256))) in
  ∃ self',
    sync_in self = (Return tt, self')
    ∧ _mmap self' = concat (f <$> seqZ 0 256)
    ∧ _dirty_blocks self' = [].
Proof.
  intros f self.
  destruct (sync_in_served self f (Py.chars "TH-D72") [] [] [] 13)
    as (self' & E & Hm & Hd & _).
  - vm_compute. congruence.
  - apply (bool_decide_unpack _). vm_compute. exact I.
  - reflexivity.
  - simpl. lia.
  - simpl. lia.
  - simpl. lia.
  - intros i. reflexivity.
  - unfold self, Sample.radio, Sample.line. cbn [pipe rx].
    by rewrite app_nil_r.
  - exists self'. split; [exact E|]. split; [exact Hm|exact Hd].
Defined.

(** Slots by name, witness: the weather slot WX3. *)
Lemma get_memory_by_name_witness :
  let self := Sample.radio Sample.zeros [] (Sample.line []) in
  get_memory Sample.TONES Sample.DTCS_CODES Sample.CROSS_MODES
    Sample.SKIP_VALUES Sample.Memory_new self (Name "WX3")
  = get_memory Sample.TONES Sample.DTCS_CODES Sample.CROSS_MODES
      Sample.SKIP_VALUES Sample.Memory_new self (Num 1022)
  ∧ get_memory Sample.TONES Sample.DTCS_CODES Sample.CROSS_MODES
      Sample.SKIP_VALUES Sample.Memory_new self (Name "WX11")
    = Raise (InvalidMemoryLocation "Unknown channel WX11").
Proof.
  intros self.
  destruct (get_memory_by_name Sample.TONES Sample.DTCS_CODES
              Sample.CROSS_MODES Sample.SKIP_VALUES Sample.Memory_new
              self "WX3") as [Hknown _].
  destruct (get_memory_by_name Sample.TONES Sample.DTCS_CODES
              Sample.CROSS_MODES Sample.SKIP_VALUES Sample.Memory_new
              self "WX11") as [_ Hunknown].
  split.
  - apply (Hknown 1022). vm_compute. reflexivity.
  - apply Hunknown. vm_compute. reflexivity.
Defined.
